(** * RabbitMQ Python examples: publisher, consumer and routing-key matching

    A shallow embedding of [RabbitMQ/examples/python]: [logger.py],
    [config.py], [basic_consumer.py], [basic_producer.py] and
    [topic_producer.py].

    - Python objects that travel in message bodies are values of [json].
    - A Python [str] is represented by its UTF-8 encoding (a [string], one
      [ascii] per byte); comparisons with, and searches for, ASCII literals
      agree on both representations.  A [bytes] body is a [string] as well.
    - Exceptions are values of [exn]; methods run in the monad [M], which
      threads the object's fields, the state of the outside world, the
      calls issued to pika and the log records, and keeps all of them when
      an exception propagates (Python mutates in place).
    - Everything that is neither in the repository nor fixed by a standard
      (pika, the clock, [json.loads], [json.dumps], [str.lower], [hash],
      the environment variables read by [config.py]) is a field of the
      class [Runtime]; theorems hold for every runtime.
    - A log call does what [logging.Logger] does with it: nothing when
      its level is below the level of [config.LOGGING]; otherwise it
      builds the record, which fails with [KeyError] when a key of [extra]
      is an attribute a [LogRecord] already has, and appends it (level and
      fixed part of the text; the handlers format it and do not raise).
      [extra] is given by its keys, the values are never read. *)

From Stdlib Require Import ZArith List String Ascii Bool Lia DecimalString.
Import ListNotations.
Open Scope string_scope.
Open Scope Z_scope.

Set Implicit Arguments.

(** ** Python values and exceptions *)

(** What [json.loads] returns and [json.dumps] takes; a [float] is kept as
    its [repr], a [dict] as its items. *)
#[warnings="-register-all"]
Inductive json : Type :=
| JNull
| JBool (b : bool)
| JInt (n : Z)
| JFloat (repr : string)
| JStr (s : string)
| JList (items : list json)
| JDict (items : list (string * json)).

(** The exception classes that occur.  All but [SystemExit] derive from
    [Exception]; [AMQPError] stands for whatever pika raises. *)
Inductive exn : Type :=
| JSONDecodeError (msg : string)
| UnicodeDecodeError
| AttributeError (msg : string)
| TypeError (msg : string)
| ValueError (msg : string)
| RuntimeError (msg : string)
| KeyError (msg : string)
| PyException (msg : string)
| AMQPError (cls : string)
| SystemExit (code : Z).

Definition is_Exception (e : exn) : bool :=
  match e with SystemExit _ => false | _ => true end.

Definition is_JSONDecodeError (e : exn) : bool :=
  match e with JSONDecodeError _ => true | _ => false end.

Definition result (A : Type) : Type := (exn + A)%type.

(** [str(n)] for an [int]. *)
Definition str_of_int (n : Z) : string := NilZero.string_of_int (Z.to_int n).

(** Truth value of [None] or a [str]. *)
Definition truthy (s : option string) : bool :=
  match s with
  | None => false
  | Some "" => false
  | Some _ => true
  end.

(** [a or b] where [a] is [None] or a [str] and [b] a [str]. *)
Definition or_else (a : option string) (b : string) : string :=
  match a with
  | Some s => if truthy a then s else b
  | None => b
  end.

(** [needle in hay] for two [str]. *)
Fixpoint contains (needle hay : string) : bool :=
  if String.prefix needle hay then true
  else match hay with
       | "" => false
       | String _ rest => contains needle rest
       end.

(** ** [bytes.decode('utf-8')]

    Strict UTF-8, as fixed by the Unicode standard (table 3-7): no overlong
    forms, no surrogates, nothing above U+10FFFF. *)

Definition byte_in (lo hi : N) (c : ascii) : bool :=
  ((lo <=? N_of_ascii c) && (N_of_ascii c <=? hi))%N.

Definition continuation : ascii -> bool := byte_in 128 191.

Definition lead3 (b0 b1 : ascii) : bool :=
  (byte_in 224 224 b0 && byte_in 160 191 b1)
  || (byte_in 225 236 b0 && continuation b1)
  || (byte_in 237 237 b0 && byte_in 128 159 b1)
  || (byte_in 238 239 b0 && continuation b1).

Definition lead4 (b0 b1 : ascii) : bool :=
  (byte_in 240 240 b0 && byte_in 144 191 b1)
  || (byte_in 241 243 b0 && continuation b1)
  || (byte_in 244 244 b0 && byte_in 128 143 b1).

Fixpoint utf8_valid (s : string) : bool :=
  match s with
  | "" => true
  | String b0 s1 =>
    if byte_in 0 127 b0 then utf8_valid s1
    else
      match s1 with
      | "" => false
      | String b1 s2 =>
        if byte_in 194 223 b0 then continuation b1 && utf8_valid s2
        else
          match s2 with
          | "" => false
          | String b2 s3 =>
            if lead3 b0 b1 then continuation b2 && utf8_valid s3
            else
              match s3 with
              | "" => false
              | String b3 s4 =>
                lead4 b0 b1 && continuation b2 && continuation b3
                && utf8_valid s4
              end
          end
      end
  end.

Definition bytes_decode (body : string) : result string :=
  if utf8_valid body then inr body else inl UnicodeDecodeError.

(** ** Operations on decoded values *)

(** Lookup in a [dict] given by its items; a later item for the same key
    overrides an earlier one. *)
Fixpoint items_get (items : list (string * json)) (key : string)
  : option json :=
  match items with
  | [] => None
  | (k, v) :: rest =>
    match items_get rest key with
    | Some w => Some w
    | None => if String.eqb k key then Some v else None
    end
  end.

(** [obj.get(key, default)]: only a [dict] has the method. *)
Definition py_get (obj : json) (key : string) (default : json) : result json :=
  match obj with
  | JDict items =>
    inr (match items_get items key with Some v => v | None => default end)
  | _ => inl (AttributeError "object has no attribute 'get'")
  end.

(** [x == literal] for a [str] literal. *)
Definition eq_str (x : json) (literal : string) : bool :=
  match x with
  | JStr s => String.eqb s literal
  | _ => false
  end.

Definition hashable (x : json) : bool :=
  match x with
  | JList _ | JDict _ => false
  | _ => true
  end.

(** ** pika: the calls the examples issue, and wire properties *)

Record BasicProperties : Type := {
  delivery_mode : option Z;
  timestamp : option Z;
  message_id : option string
}.

(** Delivery metadata handed to the callback ([method]). *)
Record Deliver : Type := {
  delivery_tag : Z;
  redelivered : bool
}.

Record ConnectionParameters : Type := {
  host : string;
  port : Z;
  username : string;
  password : string;
  virtual_host : string;
  heartbeat : Z
}.

Inductive op : Type :=
| OpenConnection (parameters : ConnectionParameters)
| OpenChannel
| QueueDeclare (queue : string) (durable : bool)
| ExchangeDeclare (exchange exchange_type : string) (durable : bool)
| BasicQos (prefetch_count : Z)
| BasicConsume (queue : string) (auto_ack : bool)
| BasicAck (tag : Z)
| BasicNack (tag : Z) (requeue : bool)
| StopConsuming
| ChannelClose
| ConnectionClose
| BasicPublish (exchange routing_key body : string)
               (properties : BasicProperties).

(** A call issued to pika, with the class of the exception it raised. *)
Record event : Type := {
  ev_op : op;
  ev_raised : option string
}.

Inductive level : Type := INFO | WARNING | ERROR.

(** [logging.INFO], [logging.WARNING], [logging.ERROR]. *)
Definition levelno (l : level) : Z :=
  match l with
  | INFO => 20
  | WARNING => 30
  | ERROR => 40
  end.

Record log_record : Type := {
  log_level : level;
  log_text : string
}.

(** ** The world outside the repository *)

Class Runtime : Type := {
  W : Type;
  (** a pika call: returns, or raises an exception of the given class *)
  pika : op -> W -> (string + unit) * W;
  (** [connection.is_closed] *)
  is_closed : W -> bool;
  (** [int(time.time())] *)
  time_time : W -> Z * W;
  (** [time.strftime("%Y-%m-%d %H:%M:%S")] *)
  time_strftime : W -> string * W;
  (** [time.sleep], in milliseconds *)
  time_sleep : Z -> W -> W;
  json_loads : string -> result json;
  json_dumps : json -> result string;
  str_lower : string -> string;
  py_hash : string -> Z;
  (** [config.py]: values read from the environment *)
  RABBITMQ_CONFIG : ConnectionParameters;
  CONSUMER_prefetch_count : Z;
  (** [config.py]: the level [setup_logger] gives the logger, which is
      [LOGGING['level']], the value of [LOG_LEVEL], as a number;
      [logging.INFO] = 20 when the variable is not set *)
  LOGGING_level : Z
}.

(** ** The monad of methods *)

Section Monad.
Context {R : Runtime}.

(** [O] is the type of the fields of [self]. *)
Record cfg (O : Type) : Type := {
  self : O;
  world : W;
  calls : list event;
  logs : list log_record
}.

Definition M (O A : Type) : Type := cfg O -> result A * cfg O.

Definition ret {O A} (a : A) : M O A := fun c => (inr a, c).

Definition raise {O A} (e : exn) : M O A := fun c => (inl e, c).

Definition bind {O A B} (m : M O A) (k : A -> M O B) : M O B :=
  fun c =>
    match m c with
    | (inr a, c') => k a c'
    | (inl e, c') => (inl e, c')
    end.

(** [try: m  except <catches> as e: handler e]. *)
Definition try_except {O A} (m : M O A) (catches : exn -> bool)
           (handler : exn -> M O A) : M O A :=
  fun c =>
    match m c with
    | (inl e, c') => if catches e then handler e c' else (inl e, c')
    | r => r
    end.

(** [try: m  finally: cleanup]. *)
Definition try_finally {O A} (m : M O A) (cleanup : M O unit) : M O A :=
  fun c =>
    match m c with
    | (r, c') =>
      match cleanup c' with
      | (inr _, c'') => (r, c'')
      | (inl e, c'') => (inl e, c'')
      end
    end.

Definition lift {O A} (r : result A) : M O A := fun c => (r, c).

Definition get_self {O} : M O O := fun c => (inr (self c), c).

Definition set_self {O} (o : O) : M O unit :=
  fun c => (inr tt, {| self := o; world := world c;
                       calls := calls c; logs := logs c |}).

Definition log {O} (l : level) (text : string) : M O unit :=
  fun c => (inr tt, {| self := self c; world := world c; calls := calls c;
                       logs := logs c ++ [{| log_level := l;
                                             log_text := text |}] |}).

(** Issue a pika call and record it. *)
Definition call {O} (o : op) : M O unit :=
  fun c =>
    match pika o (world c) with
    | (inr _, w) =>
      (inr tt, {| self := self c; world := w;
                  calls := calls c ++ [{| ev_op := o; ev_raised := None |}];
                  logs := logs c |})
    | (inl cls, w) =>
      (inl (AMQPError cls),
       {| self := self c; world := w;
          calls := calls c ++ [{| ev_op := o; ev_raised := Some cls |}];
          logs := logs c |})
    end.

Definition connection_is_closed {O} : M O bool :=
  fun c => (inr (is_closed (world c)), c).

Definition now {O} : M O Z :=
  fun c =>
    match time_time (world c) with
    | (t, w) => (inr t, {| self := self c; world := w;
                           calls := calls c; logs := logs c |})
    end.

Definition strftime {O} : M O string :=
  fun c =>
    match time_strftime (world c) with
    | (t, w) => (inr t, {| self := self c; world := w;
                           calls := calls c; logs := logs c |})
    end.

Definition sleep {O} (ms : Z) : M O unit :=
  fun c => (inr tt, {| self := self c; world := time_sleep ms (world c);
                       calls := calls c; logs := logs c |}).

Definition when {O} (b : bool) (m : M O unit) : M O unit :=
  if b then m else ret tt.
End Monad.

Arguments self {R O} c.
Arguments world {R O} c.
Arguments calls {R O} c.
Arguments logs {R O} c.

Declare Scope py_scope.
Delimit Scope py_scope with py.
Notation "x <- m ;; k" := (bind m (fun x => k))
  (at level 100, m at next level, right associativity) : py_scope.
Notation "m ;; k" := (bind m (fun _ => k))
  (at level 100, right associativity) : py_scope.
Open Scope py_scope.

(** ** config.py: the constants the examples use *)

Module Config.
Definition QUEUES_basic_name : string := "python_basic_queue".
Definition QUEUES_basic_durable : bool := true.
Definition EXCHANGES_topic_name : string := "python_topic_exchange".
Definition EXCHANGES_topic_type : string := "topic".
Definition EXCHANGES_topic_durable : bool := true.
End Config.

(** ** logger.py *)

Module Logger.
(** The attributes of a [LogRecord] ([logging/__init__.py]). *)
Definition record_attributes : list string :=
  ["name"; "msg"; "args"; "levelname"; "levelno"; "pathname"; "filename";
   "module"; "exc_info"; "exc_text"; "stack_info"; "lineno"; "funcName";
   "created"; "msecs"; "relativeCreated"; "thread"; "threadName";
   "processName"; "process"; "taskName"].

(** The keys [Logger.makeRecord] refuses in [extra]. *)
Definition reserved (key : string) : bool :=
  existsb (String.eqb key) ("message" :: "asctime" :: record_attributes).

Section Levels.
Context {R : Runtime}.

(** [logger.isEnabledFor(l)]; [setup_logger] gave the logger the level
    of [config.LOGGING]. *)
Definition enabled (l : level) : bool := LOGGING_level <=? levelno l.
End Levels.

Section Logger.
Context {R : Runtime} {O : Type}.

(** [logger.info(message, extra=extra)] and its siblings.  [extra] is the
    list of the keys of the [dict], in its order; [info(message)] and
    [info(message, extra=None)] are the empty list, as the [if extra:] of
    the functions below makes them.  A disabled level returns at once.
    Otherwise the record is made: the first key that is [message],
    [asctime] or an attribute of the record raises [KeyError]. *)
Definition emit (l : level) (message : string) (extra : list string)
  : M O unit :=
  if enabled l then
    match find reserved extra with
    | Some key =>
      raise (KeyError ("Attempt to overwrite '" ++ key ++ "' in LogRecord"))
    | None => log l message
    end
  else ret tt.

Definition info (message : string) (extra : list string) : M O unit :=
  emit INFO message extra.

Definition warning (message : string) (extra : list string) : M O unit :=
  emit WARNING message extra.

Definition error (message : string) (extra : list string) : M O unit :=
  emit ERROR message extra.

(** [log_connection(host, port, status)]: [host] and [port] only go
    into [extra]. *)
Definition log_connection (status : string) : M O unit :=
  if String.eqb status "connected" then
    info "RabbitMQ connection established" ["host"; "port"]
  else if String.eqb status "disconnected" then
    warning "RabbitMQ connection lost" ["host"; "port"]
  else if String.eqb status "error" then
    error "RabbitMQ connection error" ["host"; "port"]
  else ret tt.

Definition log_message_sent : M O unit :=
  info "Message sent" ["queue"; "message_id"; "size"].

Definition log_message_received : M O unit :=
  info "Message received" ["queue"; "message_id"].

(** [duration] is the time the handler took; the key is added when it is
    not zero. *)
Definition log_message_processed (duration : Z) : M O unit :=
  info "Message processed"
       ("message_id" :: if duration =? 0 then [] else ["duration"]).

Definition log_queue_declared : M O unit :=
  info "Queue declared" ["name"].

Definition log_exchange_declared : M O unit :=
  info "Exchange declared" ["name"; "type"].

(** Calling an object that is an exception instance: none of the classes
    of [exn] defines [__call__]. *)
Definition call_exception (callee : exn) (message : string) : M O unit :=
  raise (TypeError "object is not callable").

(** [def log_message_failed(message_id, error): error(f"...", {...})].
    Inside the body the name [error] is the second parameter, which hides
    the module-level function [error]; the body calls the parameter. *)
Definition log_message_failed (message_id : string) (error : exn)
  : M O unit :=
  call_exception error "Message processing failed".
End Logger.
End Logger.

(** Objects handed out by pika and kept in fields; both are truthy. *)
Inductive BlockingConnection : Type := TheConnection.
Inductive BlockingChannel : Type := TheChannel.

(** One delivery, as pika hands it to [on_message_callback]. *)
Record Delivery : Type := {
  method : Deliver;
  properties : BasicProperties;
  body : string
}.

(** [x.lower()], [x.capitalize()]: the receiver must be a [str]. *)
Definition str_receiver (x : json) (attribute : string) : result string :=
  match x with
  | JStr s => inr s
  | _ => inl (AttributeError ("object has no attribute '" ++ attribute ++ "'"))
  end.

(** ** basic_consumer.py *)

Module BasicConsumer.
Section BasicConsumer.
Context {R : Runtime}.

Record t : Type := {
  connection : option BlockingConnection;
  channel : option BlockingChannel;
  queue_name : string;
  message_count : Z;
  running : bool
}.

Definition __init__ : t :=
  {| connection := None; channel := None;
     queue_name := Config.QUEUES_basic_name;
     message_count := 0; running := true |}.

Definition set_connection (x : option BlockingConnection) (o : t) : t :=
  {| connection := x; channel := channel o; queue_name := queue_name o;
     message_count := message_count o; running := running o |}.

Definition set_channel (x : option BlockingChannel) (o : t) : t :=
  {| connection := connection o; channel := x; queue_name := queue_name o;
     message_count := message_count o; running := running o |}.

Definition set_message_count (x : Z) (o : t) : t :=
  {| connection := connection o; channel := channel o;
     queue_name := queue_name o; message_count := x;
     running := running o |}.

Definition set_running (x : bool) (o : t) : t :=
  {| connection := connection o; channel := channel o;
     queue_name := queue_name o; message_count := message_count o;
     running := x |}.

Definition update (f : t -> t) : M t unit :=
  o <- get_self ;; set_self (f o).

Definition connect : M t unit :=
  try_except
    (Logger.info "Connecting to RabbitMQ..." [] ;;
     call (OpenConnection RABBITMQ_CONFIG) ;;
     update (set_connection (Some TheConnection)) ;;
     call OpenChannel ;;
     update (set_channel (Some TheChannel)) ;;
     Logger.log_connection "connected" ;;
     o <- get_self ;;
     call (QueueDeclare (queue_name o) Config.QUEUES_basic_durable) ;;
     Logger.log_queue_declared ;;
     call (BasicQos CONSUMER_prefetch_count) ;;
     Logger.info "Connected to RabbitMQ successfully" [])
    is_Exception
    (fun e =>
       Logger.error "Failed to connect to RabbitMQ" [] ;;
       Logger.log_connection "error" ;;
       raise e).

(** The simulated duration, in milliseconds, looked up by message type. *)
Definition processing_time (message_type : json) : result Z :=
  if hashable message_type then
    inr (if eq_str message_type "greeting" then 500
         else if eq_str message_type "task" then 1000
         else if eq_str message_type "notification" then 300
         else if eq_str message_type "data" then 1500
         else if eq_str message_type "system" then 2000
         else 1000)
  else inl (TypeError "unhashable type").

Definition process_message (message_data : json) : M t unit :=
  message_type <- lift (py_get message_data "type" (JStr "unknown")) ;;
  duration <- lift (processing_time message_type) ;;
  _ <- lift (py_get message_data "id" JNull) ;;
  _ <- lift (py_get message_data "message" JNull) ;;
  Logger.info "Processing message" ["id"; "message"] ;;
  sleep duration ;;
  is_backup <-
    (if eq_str message_type "system" then
       text <- lift (py_get message_data "message" (JStr "")) ;;
       s <- lift (str_receiver text "lower") ;;
       ret (contains "backup" (str_lower s))
     else ret false) ;;
  o <- get_self ;;
  (if is_backup then
     if message_count o mod 5 =? 0 then
       raise (PyException "Simulated backup failure")
     else ret tt
   else ret tt) ;;
  _ <- lift (str_receiver message_type "capitalize") ;;
  _ <- lift (py_get message_data "id" JNull) ;;
  Logger.info "processed" ["id"; "result"].

(** The two [except] clauses of [handle_message], in source order. *)
Definition on_failure (method : Deliver) (message_id : string) (e : exn)
  : M t unit :=
  if is_JSONDecodeError e then
    Logger.error "Failed to parse JSON message" ["message_id"] ;;
    call (BasicNack (delivery_tag method) false)
  else
    Logger.error "Failed to process message" ["message_id"] ;;
    Logger.log_message_failed message_id e ;;
    if redelivered method then
      Logger.warning "Message redelivered, rejecting without requeue"
                     ["message_id"] ;;
      call (BasicNack (delivery_tag method) false)
    else
      call (BasicNack (delivery_tag method) true).

(** The [try] block of [handle_message].  The clock is read in whole
    seconds, as everywhere; of [processing_time] only whether it is zero
    is used, for the key [duration] of a log call. *)
Definition attempt (method : Deliver) (body : string) : M t unit :=
  text <- lift (bytes_decode body) ;;
  message_data <- lift (json_loads text) ;;
  _ <- strftime ;;
  Logger.log_message_received ;;
  _ <- lift (py_get message_data "type" JNull) ;;
  Logger.info "Message received"
              ["message_id"; "type"; "timestamp"; "delivery_tag"] ;;
  start_time <- now ;;
  process_message message_data ;;
  end_time <- now ;;
  let processing_time := end_time - start_time in
  call (BasicAck (delivery_tag method)) ;;
  Logger.log_message_processed processing_time ;;
  Logger.info "Message processed successfully"
              ["message_id"; "processing_time"].

(** The [channel] argument of the callback is the channel the calls of
    [M] go to. *)
Definition handle_message (method : Deliver) (properties : BasicProperties)
           (body : string) : M t unit :=
  update (fun o => set_message_count (message_count o + 1) o) ;;
  o <- get_self ;;
  let message_id :=
    or_else (message_id properties)
            ("unknown-" ++ str_of_int (message_count o)) in
  try_except (attempt method body) is_Exception
             (on_failure method message_id).

Definition get_stats : M t json :=
  o <- get_self ;;
  ret (JDict [("messages_processed", JInt (message_count o));
              ("queue", JStr (queue_name o));
              ("uptime", JStr "running")]).

Definition stop : M t unit :=
  update (set_running false) ;;
  o <- get_self ;;
  match channel o with
  | Some _ => call StopConsuming
  | None => ret tt
  end.

Definition close : M t unit :=
  try_except
    (o <- get_self ;;
     match channel o with
     | Some _ => call StopConsuming
     | None => ret tt
     end ;;
     open <- match connection o with
             | Some _ => closed <- connection_is_closed ;; ret (negb closed)
             | None => ret false
             end ;;
     when open (call ConnectionClose) ;;
     Logger.info "Connection closed successfully" [])
    is_Exception
    (fun e => Logger.error "Error closing connection" []).

(** [channel.start_consuming()] blocks and runs the callback on each
    delivery in turn; an exception of the callback ends the loop. *)
Fixpoint dispatch (deliveries : list Delivery) : M t unit :=
  match deliveries with
  | [] => ret tt
  | d :: rest =>
    handle_message (method d) (properties d) (body d) ;; dispatch rest
  end.

Definition start_consuming (deliveries : list Delivery) : M t unit :=
  o <- get_self ;;
  match channel o with
  | None => raise (RuntimeError "Not connected. Call connect() first.")
  | Some _ =>
    Logger.info "Starting to consume messages" [] ;;
    Logger.info "Prefetch count" [] ;;
    Logger.info "Press Ctrl+C to exit" [] ;;
    call (BasicConsume (queue_name o) false) ;;
    dispatch deliveries
  end.

(** [signal_handler]: the global [consumer] is the object of the run. *)
Definition signal_handler (signum : Z) : M t unit :=
  Logger.info "Received signal, shutting down gracefully..." [] ;;
  stop ;;
  close ;;
  raise (SystemExit 0).

Definition main (deliveries : list Delivery) : M t Z :=
  try_finally
    (try_except
       (connect ;; start_consuming deliveries ;; ret 0)
       is_Exception
       (fun e => Logger.error "Consumer failed" [] ;; ret 1))
    close.
End BasicConsumer.
End BasicConsumer.

(** Truth value of a decoded value. *)
Definition py_truthy (x : json) : bool :=
  match x with
  | JNull | JBool false | JInt 0 | JStr "" | JList [] | JDict [] => false
  | JFloat r => negb (String.eqb r "0.0" || String.eqb r "-0.0")
  | _ => true
  end.

(** ** basic_producer.py *)

Module BasicProducer.
Section BasicProducer.
Context {R : Runtime}.

Record t : Type := {
  connection : option BlockingConnection;
  channel : option BlockingChannel;
  queue_name : string
}.

Definition __init__ : t :=
  {| connection := None; channel := None;
     queue_name := Config.QUEUES_basic_name |}.

Definition set_connection (x : option BlockingConnection) (o : t) : t :=
  {| connection := x; channel := channel o; queue_name := queue_name o |}.

Definition set_channel (x : option BlockingChannel) (o : t) : t :=
  {| connection := connection o; channel := x; queue_name := queue_name o |}.

Definition update (f : t -> t) : M t unit :=
  o <- get_self ;; set_self (f o).

Definition connect : M t unit :=
  try_except
    (Logger.info "Connecting to RabbitMQ..." [] ;;
     call (OpenConnection RABBITMQ_CONFIG) ;;
     update (set_connection (Some TheConnection)) ;;
     call OpenChannel ;;
     update (set_channel (Some TheChannel)) ;;
     Logger.log_connection "connected" ;;
     o <- get_self ;;
     call (QueueDeclare (queue_name o) Config.QUEUES_basic_durable) ;;
     Logger.log_queue_declared ;;
     Logger.info "Connected to RabbitMQ successfully" [])
    is_Exception
    (fun e =>
       Logger.error "Failed to connect to RabbitMQ" [] ;;
       Logger.log_connection "error" ;;
       raise e).

(** [message_id or f"msg-{int(time.time())}-{hash(message_body) % 1000}"] *)
Definition choose_message_id (message_id : option string)
           (message_body : string) : M t string :=
  if truthy message_id then ret (or_else message_id "")
  else
    t <- now ;;
    ret ("msg-" ++ str_of_int t ++ "-"
         ++ str_of_int (py_hash message_body mod 1000)).

Definition send_message (message : json) (message_id : option string)
  : M t unit :=
  o <- get_self ;;
  match channel o with
  | None => raise (RuntimeError "Not connected. Call connect() first.")
  | Some _ =>
    try_except
      (message_body <- lift (json_dumps message) ;;
       t <- now ;;
       chosen <- choose_message_id message_id message_body ;;
       let properties :=
         {| delivery_mode := Some 2; timestamp := Some t;
            message_id := Some chosen |} in
       o <- get_self ;;
       call (BasicPublish "" (queue_name o) message_body properties) ;;
       Logger.log_message_sent ;;
       Logger.info "Message sent" [])
      is_Exception
      (fun e => Logger.error "Failed to send message" [] ;; raise e)
  end.

(** [delay] in milliseconds; [i] counts the messages already sent. *)
Fixpoint send_messages_from (i : Z) (messages : list json) (delay : Z)
  : M t unit :=
  match messages with
  | [] => ret tt
  | message :: rest =>
    t <- now ;;
    send_message message
      (Some ("batch-" ++ str_of_int (i + 1) ++ "-" ++ str_of_int t)) ;;
    when ((0 <? delay) && negb (match rest with [] => true | _ => false end))
         (sleep delay) ;;
    send_messages_from (i + 1) rest delay
  end.

Definition send_messages (messages : list json) (delay : Z) : M t unit :=
  send_messages_from 0 messages delay.

Definition close : M t unit :=
  try_except
    (o <- get_self ;;
     match channel o with
     | Some _ => call ChannelClose
     | None => ret tt
     end ;;
     open <- match connection o with
             | Some _ => closed <- connection_is_closed ;; ret (negb closed)
             | None => ret false
             end ;;
     when open (call ConnectionClose) ;;
     Logger.info "Connection closed successfully" [])
    is_Exception
    (fun e => Logger.error "Error closing connection" []).
(** The five sample messages of [main]; [stamp] is what [time.strftime]
    returned. *)
Definition sample_messages (stamp : string) : list json :=
  [JDict [("id", JInt 1); ("type", JStr "greeting");
          ("message", JStr "Hello RabbitMQ from Python!");
          ("timestamp", JStr stamp)];
   JDict [("id", JInt 2); ("type", JStr "task");
          ("message", JStr "Process user registration");
          ("user_id", JInt 12345); ("priority", JStr "high")];
   JDict [("id", JInt 3); ("type", JStr "notification");
          ("message", JStr "Send welcome email");
          ("recipient", JStr "user@example.com")];
   JDict [("id", JInt 4); ("type", JStr "data");
          ("message", JStr "Update user statistics");
          ("metrics", JDict [("logins", JInt 15); ("page_views", JInt 42);
                             ("purchases", JInt 3)])];
   JDict [("id", JInt 5); ("type", JStr "system");
          ("message", JStr "Run daily backup");
          ("backup_type", JStr "full"); ("target", JStr "/var/data")]].

(** [main]: [producer = BasicProducer()] is the object of the run; what
    it prints is left out. *)
(** The [try] block of [main], up to its [return 0]. *)
Definition run : M t unit :=
  connect ;;
  stamp <- strftime ;;
  send_messages (sample_messages stamp) 500.

Definition main : M t Z :=
  set_self __init__ ;;
  try_finally
    (try_except (run ;; ret 0) is_Exception
                (fun e =>
                   Logger.error "Producer example failed" [] ;; ret 1))
    close.
End BasicProducer.
End BasicProducer.

(** ** topic_producer.py *)

Module TopicProducer.
Section TopicProducer.
Context {R : Runtime}.

Record t : Type := {
  connection : option BlockingConnection;
  channel : option BlockingChannel;
  exchange_name : string;
  exchange_type : string
}.

Definition __init__ : t :=
  {| connection := None; channel := None;
     exchange_name := Config.EXCHANGES_topic_name;
     exchange_type := Config.EXCHANGES_topic_type |}.

Definition set_connection (x : option BlockingConnection) (o : t) : t :=
  {| connection := x; channel := channel o;
     exchange_name := exchange_name o; exchange_type := exchange_type o |}.

Definition set_channel (x : option BlockingChannel) (o : t) : t :=
  {| connection := connection o; channel := x;
     exchange_name := exchange_name o; exchange_type := exchange_type o |}.

Definition update (f : t -> t) : M t unit :=
  o <- get_self ;; set_self (f o).

Definition connect : M t unit :=
  try_except
    (Logger.info "Connecting to RabbitMQ..." [] ;;
     call (OpenConnection RABBITMQ_CONFIG) ;;
     update (set_connection (Some TheConnection)) ;;
     call OpenChannel ;;
     update (set_channel (Some TheChannel)) ;;
     Logger.log_connection "connected" ;;
     o <- get_self ;;
     call (ExchangeDeclare (exchange_name o) (exchange_type o)
                           Config.EXCHANGES_topic_durable) ;;
     Logger.log_exchange_declared ;;
     Logger.info "Connected to RabbitMQ successfully" [])
    is_Exception
    (fun e =>
       Logger.error "Failed to connect to RabbitMQ" [] ;;
       Logger.log_connection "error" ;;
       raise e).

(** [message_id or f"topic-{int(time.time())}-{hash(message_body) % 1000}"] *)
Definition choose_message_id (message_id : option string)
           (message_body : string) : M t string :=
  if truthy message_id then ret (or_else message_id "")
  else
    t <- now ;;
    ret ("topic-" ++ str_of_int t ++ "-"
         ++ str_of_int (py_hash message_body mod 1000)).

Definition send_message (routing_key : string) (message : json)
           (message_id : option string) : M t unit :=
  o <- get_self ;;
  match channel o with
  | None => raise (RuntimeError "Not connected. Call connect() first.")
  | Some _ =>
    try_except
      (message_body <- lift (json_dumps message) ;;
       t <- now ;;
       chosen <- choose_message_id message_id message_body ;;
       let properties :=
         {| delivery_mode := Some 2; timestamp := Some t;
            message_id := Some chosen |} in
       o <- get_self ;;
       call (BasicPublish (exchange_name o) routing_key message_body
                          properties) ;;
       Logger.log_message_sent ;;
       Logger.info "Message sent to topic exchange"
                   ["routing_key"; "message_id"])
      is_Exception
      (fun e => Logger.error "Failed to send message" [] ;; raise e)
  end.

Definition send_analytics_message (category action label : string)
           (value : json) : M t unit :=
  let routing_key := "analytics." ++ category ++ "." ++ action in
  stamp <- strftime ;;
  t <- now ;;
  let message :=
    JDict [("category", JStr category); ("action", JStr action);
           ("label", JStr label); ("value", value);
           ("timestamp", JStr stamp);
           ("id", JStr ("analytics-" ++ str_of_int t))] in
  send_message routing_key message
               (Some ("analytics-" ++ category ++ "-" ++ action)).

Definition send_notification_message (user_id : Z) (type priority : string)
           (content : json) : M t unit :=
  let routing_key := "notification." ++ priority ++ "." ++ type in
  stamp <- strftime ;;
  t <- now ;;
  let message :=
    JDict [("user_id", JInt user_id); ("type", JStr type);
           ("priority", JStr priority); ("content", content);
           ("timestamp", JStr stamp);
           ("id", JStr ("notification-" ++ str_of_int user_id ++ "-"
                        ++ str_of_int t))] in
  send_message routing_key message
               (Some ("notification-" ++ type ++ "-" ++ priority)).

Definition send_event_message (resource action event_type : string)
           (data : json) : M t unit :=
  let routing_key := resource ++ "." ++ action ++ "." ++ event_type in
  stamp <- strftime ;;
  t <- now ;;
  let message :=
    JDict [("resource", JStr resource); ("action", JStr action);
           ("event_type", JStr event_type);
           ("data", if py_truthy data then data else JDict []);
           ("timestamp", JStr stamp);
           ("id", JStr ("event-" ++ resource ++ "-" ++ str_of_int t))] in
  send_message routing_key message
               (Some ("event-" ++ resource ++ "-" ++ action)).

Definition close : M t unit :=
  try_except
    (o <- get_self ;;
     match channel o with
     | Some _ => call ChannelClose
     | None => ret tt
     end ;;
     open <- match connection o with
             | Some _ => closed <- connection_is_closed ;; ret (negb closed)
             | None => ret false
             end ;;
     when open (call ConnectionClose) ;;
     Logger.info "Connection closed successfully" [])
    is_Exception
    (fun e => Logger.error "Error closing connection" []).
(** The [try] block of [main], up to its [return 0]; what it prints is
    left out. *)
Definition run : M t unit :=
  connect ;;
  send_analytics_message "user" "login" "web" (JInt 1) ;;
  send_analytics_message "user" "purchase" "mobile" (JFloat "99.99") ;;
  send_analytics_message "page" "view" "homepage" (JInt 1500) ;;
  send_analytics_message "error" "javascript" "timeout" JNull ;;
  send_notification_message 123 "email" "high"
    (JDict [("subject", JStr "Account Security Alert");
            ("body",
             JStr "Your account has been accessed from a new device.")]) ;;
  send_notification_message 456 "sms" "medium"
    (JDict [("message", JStr "Your order has been shipped!")]) ;;
  send_notification_message 789 "push" "low"
    (JDict [("title", JStr "New feature available");
            ("body", JStr "Check out our latest updates!")]) ;;
  send_event_message "user" "create" "account"
    (JDict [("user_id", JInt 12345);
            ("email", JStr "newuser@example.com");
            ("source", JStr "web")]) ;;
  send_event_message "product" "update" "price"
    (JDict [("product_id", JInt 67890); ("old_price", JFloat "19.99");
            ("new_price", JFloat "14.99"); ("discount", JInt 25)]) ;;
  send_event_message "order" "delete" "cancel"
    (JDict [("order_id", JInt 11111);
            ("reason", JStr "customer_request");
            ("refund_amount", JFloat "49.99")]).

(** [main]: [producer = TopicProducer()] is the object of the run. *)
Definition main : M t Z :=
  set_self __init__ ;;
  try_finally
    (try_except (run ;; ret 0) is_Exception
                (fun e =>
                   Logger.error "Topic producer example failed" [] ;; ret 1))
    close.
End TopicProducer.
End TopicProducer.

(** ** A reference runtime

    Concrete runtimes, used to run the methods on concrete inputs: a
    reader and a writer for JSON, lowering, a broker that can be
    unreachable, a clock that ticks on every reading, and a log level.
    Reader, writer and lowering agree with Python's on the texts the
    examples below use: ASCII without control characters, no [\u]
    escapes, numbers without exponent. *)

Module Reference.
Definition is_ws (c : ascii) : bool :=
  Ascii.eqb c " " || Ascii.eqb c "009" || Ascii.eqb c "010"
  || Ascii.eqb c "013".

Fixpoint skip_ws (s : string) : string :=
  match s with
  | String c rest => if is_ws c then skip_ws rest else s
  | "" => s
  end.

Definition is_digit (c : ascii) : bool := byte_in 48 57 c.

Definition digit_value (c : ascii) : Z := Z.of_N (N_of_ascii c) - 48.

(** Leading digits of [s], their value continuing [acc], and the rest. *)
Fixpoint read_digits (s : string) (acc : Z) (seen : string)
  : Z * string * string :=
  match s with
  | String c rest =>
    if is_digit c then
      read_digits rest (10 * acc + digit_value c) (seen ++ String c "")
    else (acc, seen, s)
  | "" => (acc, seen, s)
  end.

(** An integer literal; a fraction makes it a float, kept as written.
    Exponents are not read. *)
Definition read_number (s : string) : option (json * string) :=
  let '(negative, s1) :=
    match s with
    | String "-" rest => (true, rest)
    | _ => (false, s)
    end in
  match read_digits s1 0 "" with
  | (_, "", _) => None
  | (n, seen, rest) =>
    match seen, rest with
    | String "0" (String _ _), _ => None
    | _, String "." rest' =>
      match read_digits rest' 0 "" with
      | (_, "", _) => None
      | (_, frac, rest'') =>
        Some (JFloat ((if negative then "-" else "") ++ seen ++ "." ++ frac),
              rest'')
      end
    | _, _ => Some (JInt (if negative then - n else n), rest)
    end
  end.

(** The characters of a string literal after the opening quote. *)
Fixpoint read_chars (s : string) (acc : string) : option (string * string) :=
  match s with
  | "" => None
  | String "034" rest => Some (acc, rest)
  | String "\" (String c rest) =>
    let escaped (d : ascii) := read_chars rest (acc ++ String d "") in
    if Ascii.eqb c "034" then escaped "034"%char
    else if Ascii.eqb c "\" then escaped "\"%char
    else if Ascii.eqb c "/" then escaped "/"%char
    else if Ascii.eqb c "b" then escaped "008"%char
    else if Ascii.eqb c "f" then escaped "012"%char
    else if Ascii.eqb c "n" then escaped "010"%char
    else if Ascii.eqb c "r" then escaped "013"%char
    else if Ascii.eqb c "t" then escaped "009"%char
    else None
  | String c rest =>
    if byte_in 0 31 c then None else read_chars rest (acc ++ String c "")
  end.

Definition expect (literal : string) (v : json) (s : string)
  : option (json * string) :=
  if String.prefix literal s then
    Some (v, String.substring (String.length literal)
                              (String.length s - String.length literal) s)
  else None.

Fixpoint read_value (fuel : nat) (s : string) : option (json * string) :=
  match fuel with
  | O => None
  | S fuel' =>
    match skip_ws s with
    | String "{" rest =>
      match skip_ws rest with
      | String "}" rest' => Some (JDict [], rest')
      | _ =>
        match read_members fuel' rest with
        | Some (items, rest') => Some (JDict items, rest')
        | None => None
        end
      end
    | String "[" rest =>
      match skip_ws rest with
      | String "]" rest' => Some (JList [], rest')
      | _ =>
        match read_elements fuel' rest with
        | Some (items, rest') => Some (JList items, rest')
        | None => None
        end
      end
    | String "034" rest =>
      match read_chars rest "" with
      | Some (text, rest') => Some (JStr text, rest')
      | None => None
      end
    | String "n" _ as s' => expect "null" JNull s'
    | String "t" _ as s' => expect "true" (JBool true) s'
    | String "f" _ as s' => expect "false" (JBool false) s'
    | s' => read_number s'
    end
  end
with read_elements (fuel : nat) (s : string)
  : option (list json * string) :=
  match fuel with
  | O => None
  | S fuel' =>
    match read_value fuel' s with
    | Some (v, rest) =>
      match skip_ws rest with
      | String "," rest' =>
        match read_elements fuel' rest' with
        | Some (vs, rest'') => Some (v :: vs, rest'')
        | None => None
        end
      | String "]" rest' => Some ([v], rest')
      | _ => None
      end
    | None => None
    end
  end
with read_members (fuel : nat) (s : string)
  : option (list (string * json) * string) :=
  match fuel with
  | O => None
  | S fuel' =>
    match skip_ws s with
    | String "034" rest =>
      match read_chars rest "" with
      | Some (key, rest1) =>
        match skip_ws rest1 with
        | String ":" rest2 =>
          match read_value fuel' rest2 with
          | Some (v, rest3) =>
            match skip_ws rest3 with
            | String "," rest4 =>
              match read_members fuel' rest4 with
              | Some (items, rest5) => Some ((key, v) :: items, rest5)
              | None => None
              end
            | String "}" rest4 => Some ([(key, v)], rest4)
            | _ => None
            end
          | None => None
          end
        | _ => None
        end
      | None => None
      end
    | _ => None
    end
  end.

Definition loads (s : string) : result json :=
  match read_value (2 * String.length s + 2) s with
  | Some (v, rest) =>
    match skip_ws rest with
    | "" => inr v
    | _ => inl (JSONDecodeError "Extra data")
    end
  | None => inl (JSONDecodeError "Expecting value")
  end.

Fixpoint escape (s : string) : string :=
  match s with
  | "" => ""
  | String c rest =>
    (if Ascii.eqb c "034" || Ascii.eqb c "\" then String "\" (String c "")
     else String c "") ++ escape rest
  end.

Definition quote (s : string) : string :=
  String "034" (escape s ++ String "034" "").

Fixpoint dumps (x : json) : string :=
  match x with
  | JNull => "null"
  | JBool true => "true"
  | JBool false => "false"
  | JInt n => str_of_int n
  | JFloat r => r
  | JStr s => quote s
  | JList items =>
    "[" ++ (fix go (l : list json) : string :=
              match l with
              | [] => ""
              | v :: rest =>
                dumps v ++ match rest with [] => "" | _ => ", " ++ go rest end
              end) items ++ "]"
  | JDict items =>
    "{" ++ (fix go (l : list (string * json)) : string :=
              match l with
              | [] => ""
              | (k, v) :: rest =>
                quote k ++ ": " ++ dumps v
                ++ match rest with [] => "" | _ => ", " ++ go rest end
              end) items ++ "}"
  end.

Definition lower_ascii (c : ascii) : ascii :=
  if byte_in 65 90 c then ascii_of_N (N_of_ascii c + 32) else c.

Fixpoint lower (s : string) : string :=
  match s with
  | "" => ""
  | String c rest => String (lower_ascii c) (lower rest)
  end.

Fixpoint hash (s : string) : Z :=
  match s with
  | "" => 0
  | String c rest => Z.of_N (N_of_ascii c) + 31 * hash rest
  end.

(** The broker is reachable or not; a closed connection refuses
    everything but a new connection. *)
Record state : Type := {
  clock : Z;
  reachable : bool;
  closed : bool
}.

Definition broker (o : op) (w : state) : (string + unit) * state :=
  if negb (reachable w) then (inl "AMQPConnectionError", w)
  else
    match o with
    | OpenConnection _ =>
      (inr tt, {| clock := clock w; reachable := true; closed := false |})
    | ConnectionClose =>
      if closed w then (inl "ConnectionWrongStateError", w)
      else (inr tt, {| clock := clock w; reachable := true; closed := true |})
    | _ =>
      if closed w then (inl "ChannelWrongStateError", w) else (inr tt, w)
    end.

Definition tick (by_ : Z) (w : state) : state :=
  {| clock := clock w + by_; reachable := reachable w; closed := closed w |}.

(** The runtime in which [LOG_LEVEL] stands for the number [log_level]. *)
Definition runtime_at (log_level : Z) : Runtime :=
  {| W := state;
     pika := broker;
     is_closed := closed;
     time_time := fun w => (clock w, tick 1 w);
     time_strftime := fun w => ("2025-10-01 12:00:00", w);
     time_sleep := fun ms w => tick (ms / 1000) w;
     json_loads := loads;
     json_dumps := fun x => inr (dumps x);
     str_lower := lower;
     py_hash := hash;
     RABBITMQ_CONFIG :=
       {| host := "localhost"; port := 5672; username := "guest";
          password := "guest"; virtual_host := "/"; heartbeat := 60 |};
     CONSUMER_prefetch_count := 1;
     LOGGING_level := log_level |}.

(** No variable of the environment is set: the defaults of [config.py],
    among them [LOG_LEVEL=INFO]. *)
Definition runtime : Runtime := runtime_at 20.

(** The same with [LOG_LEVEL=WARNING]. *)
Definition quiet : Runtime := runtime_at 30.

Definition start (up : bool) : state :=
  {| clock := 1759320000; reachable := up; closed := false |}.

(** A configuration with no call issued and nothing logged yet. *)
Definition fresh {log_level : Z} {O : Type} (o : O) (w : state)
  : @cfg (runtime_at log_level) O :=
  @Build_cfg (runtime_at log_level) O o w [] [].
End Reference.

(** ** RoutingKeyMatcher *)

Module RoutingKeyMatcher.
(** Modelled from the spec: the repository has no matcher of its own (the
    broker matches routing keys); a [TopicPattern] is a sequence of
    segment matchers, each a literal, a single-segment wildcard or a
    multi-segment wildcard. *)
Inductive Segment : Type :=
| Literal (text : string)
| Star
| Hash.

Definition TopicPattern : Type := list Segment.

Fixpoint split_dots (s current : string) : list string :=
  match s with
  | "" => [current]
  | String c rest =>
    if Ascii.eqb c "." then current :: split_dots rest ""
    else split_dots rest (current ++ String c "")
  end.

(** Modelled from the spec: the key is split on [.]; the empty key has no
    segment (it matches no pattern that requires a segment). *)
Definition split_key (key : string) : list string :=
  match key with
  | "" => []
  | _ => split_dots key ""
  end.

(** Modelled from the spec: pattern and key segments are walked in
    lockstep; a literal matches an equal segment, a single-segment
    wildcard any one segment; a multi-segment wildcard tries the rest of
    the pattern after consuming no segment, then one more at a time until
    the key is exhausted.  Success needs both fully consumed. *)
Fixpoint walk (pattern : TopicPattern) (segments : list string) : bool :=
  match pattern with
  | [] => match segments with [] => true | _ => false end
  | Literal text :: pattern' =>
    match segments with
    | s :: segments' => String.eqb text s && walk pattern' segments'
    | [] => false
    end
  | Star :: pattern' =>
    match segments with
    | _ :: segments' => walk pattern' segments'
    | [] => false
    end
  | Hash :: pattern' =>
    (fix extend (remaining : list string) : bool :=
       walk pattern' remaining
       || match remaining with
          | [] => false
          | _ :: remaining' => extend remaining'
          end) segments
  end.

(** Modelled from the spec: [matches(pattern, key)]. *)
Definition matches (pattern : TopicPattern) (key : string) : bool :=
  walk pattern (split_key key).

Definition is_literal (s : Segment) : bool :=
  match s with Literal _ => true | _ => false end.

Definition literal_only (pattern : TopicPattern) : bool :=
  forallb is_literal pattern.
End RoutingKeyMatcher.

(** ** Notions the statements use *)

(** The terminal outcomes of a delivery attempt. *)
Inductive AckOutcome : Type := Ack | NackRequeue | NackDiscard.

(** The outcome a pika call settles for the delivery [tag], if any. *)
Definition outcome_of (tag : Z) (o : op) : option AckOutcome :=
  match o with
  | BasicAck t => if t =? tag then Some Ack else None
  | BasicNack t true => if t =? tag then Some NackRequeue else None
  | BasicNack t false => if t =? tag then Some NackDiscard else None
  | _ => None
  end.

Fixpoint outcomes (tag : Z) (evs : list event) : list AckOutcome :=
  match evs with
  | [] => []
  | ev :: rest =>
    match outcome_of tag (ev_op ev) with
    | Some o => o :: outcomes tag rest
    | None => outcomes tag rest
    end
  end.

(** The wire properties of the publish calls among [evs]. *)
Fixpoint published (evs : list event) : list BasicProperties :=
  match evs with
  | [] => []
  | ev :: rest =>
    match ev_op ev with
    | BasicPublish _ _ _ p => p :: published rest
    | _ => published rest
    end
  end.

Definition is_close (o : op) : bool :=
  match o with
  | ChannelClose | ConnectionClose => true
  | _ => false
  end.

Section Observations.
Context {R : Runtime} {O : Type}.

(** The calls issued between two configurations of one run. *)
Definition issued (before after : cfg O) : list event :=
  skipn (List.length (calls before)) (calls after).

(** [m] run [n] times in a row. *)
Fixpoint times (n : nat) (m : M O unit) : M O unit :=
  match n with
  | 0%nat => ret tt
  | S k => m ;; times k m
  end.
End Observations.

Definition ev (o : op) (raised : option string) : event :=
  {| ev_op := o; ev_raised := raised |}.

(** What calling an exception instance raises. *)
Definition not_callable : exn := TypeError "object is not callable".

(** An [Exception] that is not a decode error. *)
Definition handler_error (e : exn) : bool :=
  is_Exception e && negb (is_JSONDecodeError e).

(** The wire properties the publishers promise: persistent, stamped with
    the clock reading [t], and a non-empty id, the caller's when it gave a
    non-empty one. *)
Definition wire_ok (t : Z) (supplied : option string) (p : BasicProperties)
  : Prop :=
  delivery_mode p = Some 2
  /\ timestamp p = Some t
  /\ exists s, message_id p = Some s /\ s <> ""
               /\ (truthy supplied = true -> supplied = Some s).

Section Frames.
Context {R : Runtime} {O : Type}.

(** [m] leaves the component [f] of the configuration as it was. *)
Definition preserves {X A} (f : cfg O -> X) (m : M O A) : Prop :=
  forall c, f (snd (m c)) = f c.

(** [m] raises only exceptions that satisfy [p]. *)
Definition raises_only {A} (p : exn -> bool) (m : M O A) : Prop :=
  forall c e, fst (m c) = inl e -> p e = true.

(** What a log call of level [l] that raises nothing adds to the log. *)
Definition emitted (l : level) (text : string) : list log_record :=
  if Logger.enabled l then [{| log_level := l; log_text := text |}]
  else [].

(** The configuration after such a call. *)
Definition noted (l : level) (text : string) (c : cfg O) : cfg O :=
  {| self := self c; world := world c; calls := calls c;
     logs := logs c ++ emitted l text |}.
End Frames.

(** The error of a log call whose [extra] has the key [key]. *)
Definition overwrite (key : string) : exn :=
  KeyError ("Attempt to overwrite '" ++ key ++ "' in LogRecord").

Section ConsumerObservations.
Context {R : Runtime}.
Import BasicConsumer.

(** The configuration right after [self.message_count += 1]. *)
Definition received (c : cfg t) : cfg t :=
  {| self := set_message_count (message_count (self c) + 1) (self c);
     world := world c; calls := calls c; logs := logs c |}.

(** How many of [deliveries] reach the callback when the loop starts in
    [c]: all of them, or those up to the first one whose callback
    raises. *)
Fixpoint handled (deliveries : list Delivery) (c : cfg t) : nat :=
  match deliveries with
  | [] => 0
  | d :: rest =>
    match handle_message (method d) (properties d) (body d) c with
    | (inr _, c') => S (handled rest c')
    | (inl _, _) => 1
    end
  end.
End ConsumerObservations.

(** ** Sample traffic: the five messages of [basic_producer.main], as
    [json.dumps] writes them *)

Module Demo.
(** [s] with every ['] turned into a double quote. *)
Fixpoint quoted (s : string) : string :=
  match s with
  | "" => ""
  | String c rest =>
    String (if Ascii.eqb c "'" then "034"%char else c) (quoted rest)
  end.

Definition bodies : list string :=
  map quoted
    ["{'id': 1, 'type': 'greeting', 'message': 'Hello RabbitMQ from Python!', 'timestamp': '2025-10-01 12:00:00'}";
     "{'id': 2, 'type': 'task', 'message': 'Process user registration', 'user_id': 12345, 'priority': 'high'}";
     "{'id': 3, 'type': 'notification', 'message': 'Send welcome email', 'recipient': 'user@example.com'}";
     "{'id': 4, 'type': 'data', 'message': 'Update user statistics', 'metrics': {'logins': 15, 'page_views': 42, 'purchases': 3}}";
     "{'id': 5, 'type': 'system', 'message': 'Run daily backup', 'backup_type': 'full', 'target': '/var/data'}"].

(** The [i]-th delivery of a queue, first attempt. *)
Definition delivery (i : Z) (body : string) : Delivery :=
  {| method := {| delivery_tag := i; redelivered := false |};
     properties := {| delivery_mode := Some 2;
                      timestamp := Some 1759320000;
                      message_id := Some ("batch-" ++ str_of_int i
                                          ++ "-1759320000") |};
     body := body |}.

Fixpoint deliveries_from (i : Z) (l : list string) : list Delivery :=
  match l with
  | [] => []
  | b :: rest => delivery i b :: deliveries_from (i + 1) rest
  end.

Definition deliveries : list Delivery := deliveries_from 1 bodies.

Definition first_four : list Delivery := firstn 4 deliveries.

Definition backup_body : string := nth 4 bodies "".

Definition backup_items : list (string * json) :=
  [("id", JInt 5); ("type", JStr "system");
   ("message", JStr "Run daily backup"); ("backup_type", JStr "full");
   ("target", JStr "/var/data")].

Section Connected.
Variable log_level : Z.

(** A consumer after [connect()] against a reachable broker:
    [connection] and [channel] are set and the queue is declared. *)
Definition consumer_at
  : @cfg (Reference.runtime_at log_level) BasicConsumer.t :=
  snd (@BasicConsumer.connect (Reference.runtime_at log_level)
         (Reference.fresh BasicConsumer.__init__ (Reference.start true))).

(** The consumer after the loop was handed the first four
    deliveries. *)
Definition after_four_at
  : @cfg (Reference.runtime_at log_level) BasicConsumer.t :=
  snd (@BasicConsumer.dispatch (Reference.runtime_at log_level)
         first_four consumer_at).

(** A producer after [connect()]; afterwards the broker stays
    reachable or goes away. *)
Definition producer_at (up : bool)
  : @cfg (Reference.runtime_at log_level) BasicProducer.t :=
  let c := snd (@BasicProducer.connect (Reference.runtime_at log_level)
                  (Reference.fresh BasicProducer.__init__
                                   (Reference.start true))) in
  @Build_cfg (Reference.runtime_at log_level) _ (self c)
             {| Reference.clock := Reference.clock (world c);
                Reference.reachable := up;
                Reference.closed := Reference.closed (world c) |}
             (calls c) (logs c).

Definition topic_producer_at
  : @cfg (Reference.runtime_at log_level) TopicProducer.t :=
  snd (@TopicProducer.connect (Reference.runtime_at log_level)
         (Reference.fresh TopicProducer.__init__ (Reference.start true))).
End Connected.

(** With the defaults of [config.py]. *)
Definition consumer : @cfg Reference.runtime BasicConsumer.t :=
  consumer_at 20.

Definition after_four : @cfg Reference.runtime BasicConsumer.t :=
  after_four_at 20.

Definition producer (up : bool) : @cfg Reference.runtime BasicProducer.t :=
  producer_at 20 up.

Definition topic_producer : @cfg Reference.runtime TopicProducer.t :=
  topic_producer_at 20.

(** With [LOG_LEVEL=WARNING]. *)
Definition quiet_consumer : @cfg Reference.quiet BasicConsumer.t :=
  consumer_at 30.

Definition quiet_after_four : @cfg Reference.quiet BasicConsumer.t :=
  after_four_at 30.

(** The consumer, with [LOG_LEVEL=WARNING], when the loop has ended on
    the five sample deliveries: four are acknowledged; the fifth made
    the callback raise and has no outcome.  In the states of the
    specification it is still in [Processing]. *)
Definition abandoned : @cfg Reference.quiet BasicConsumer.t :=
  snd (@BasicConsumer.dispatch Reference.quiet deliveries quiet_consumer).
End Demo.

(** ** Further notions for the statements *)

(** Where each publish call among [evs] went: exchange, routing key and
    message id. *)
Fixpoint routes (evs : list event) : list (string * string * option string) :=
  match evs with
  | [] => []
  | e :: rest =>
    match ev_op e with
    | BasicPublish exchange key _ p => (exchange, key, message_id p) :: routes rest
    | _ => routes rest
    end
  end.

Section Batches.
Context {R : Runtime}.

(** The call [send_messages] issues for [message] when it is sent after
    [i] others: a publish of its serialization to the default exchange
    under the name of the queue, persistent, stamped, with the id
    [batch-(i+1)-t], [t] a clock reading. *)
Definition batch_publish (queue : string) (i : Z) (message : json)
           (e : event) : Prop :=
  exists b t stamp,
    json_dumps message = inr b
    /\ ev_op e
       = BasicPublish "" queue b
           {| delivery_mode := Some 2; timestamp := Some stamp;
              message_id := Some ("batch-" ++ str_of_int (i + 1) ++ "-"
                                  ++ str_of_int t) |}.

(** [evs] are the calls for the first messages of [messages], one each
    and in their order, all of which returned but possibly the last. *)
Fixpoint batch (queue : string) (i : Z) (messages : list json)
         (evs : list event) {struct evs} : Prop :=
  match evs, messages with
  | [], _ => True
  | e :: rest, message :: messages' =>
    batch_publish queue i message e
    /\ (rest <> [] -> ev_raised e = None)
    /\ batch queue (i + 1) messages' rest
  | _ :: _, [] => False
  end.
End Batches.

(** The publish calls among [evs]. *)
Definition publishes (evs : list event) : list event :=
  filter (fun e => match ev_op e with
                   | BasicPublish _ _ _ _ => true
                   | _ => false
                   end) evs.

(** What a helper of [TopicProducer] leaves as calls: none, or one
    publish to [exchange] under the routing key [key] with the id [id]. *)
Definition routed_once (exchange key id : string) (evs : list event) : Prop :=
  evs = []
  \/ exists b p raised,
      evs = [ev (BasicPublish exchange key b p) raised]
      /\ message_id p = Some id.

(** A delivery settled by the call [e]: acknowledged, or rejected without
    requeue, under its own tag, by a call that returned. *)
Definition settled (d : Delivery) (e : event) : Prop :=
  ev_raised e = None
  /\ (ev_op e = BasicAck (delivery_tag (method d))
      \/ ev_op e = BasicNack (delivery_tag (method d)) false).

Definition is_dict (x : json) : bool :=
  match x with JDict _ => true | _ => false end.


(** [message.get('type', 'unknown')] on the items of a [dict]. *)
Definition message_type (items : list (string * json)) : json :=
  match items_get items "type" with
  | Some v => v
  | None => JStr "unknown"
  end.

(** An acknowledgement call: [basic_ack], or [basic_nack] without
    requeue. *)
Definition settles (e : event) : Prop :=
  exists tag, ev_op e = BasicAck tag \/ ev_op e = BasicNack tag false.

Section ConnectCalls.
Context {R : Runtime}.

(** The calls of [BasicConsumer.connect], in source order. *)
Definition consumer_connect_calls (queue : string) : list op :=
  [OpenConnection RABBITMQ_CONFIG; OpenChannel;
   QueueDeclare queue Config.QUEUES_basic_durable;
   BasicQos CONSUMER_prefetch_count].

(** The calls of [BasicProducer.connect], in source order. *)
Definition producer_connect_calls (queue : string) : list op :=
  [OpenConnection RABBITMQ_CONFIG; OpenChannel;
   QueueDeclare queue Config.QUEUES_basic_durable].

(** The calls of [TopicProducer.connect], in source order. *)
Definition topic_connect_calls (exchange kind : string) : list op :=
  [OpenConnection RABBITMQ_CONFIG; OpenChannel;
   ExchangeDeclare exchange kind Config.EXCHANGES_topic_durable].
End ConnectCalls.

(** [evs] are calls that returned, but for the last one when [failure]
    names the class of what it raised. *)
Fixpoint stops_at (failure : option string) (evs : list event) : Prop :=
  match evs with
  | [] => failure = None
  | [e] => ev_raised e = failure
  | e :: rest => ev_raised e = None /\ stops_at failure rest
  end.

Section Teardown.
Context {R : Runtime} {O : Type}.

(** What a [close] that took [before] to [after] did with the errors of
    its teardown: the calls stop at the first one that raises; when one
    raised, the log gains the error record, and when none did, the
    record of success (each when its level is enabled). *)
Definition teardown_logged (before after : cfg O) : Prop :=
  exists failure,
    stops_at failure (issued before after)
    /\ logs after
       = (logs before
          ++ match failure with
             | Some _ => emitted ERROR "Error closing connection"
             | None => emitted INFO "Connection closed successfully"
             end)%list.
End Teardown.

Section Handlers.
Context {R : Runtime} {O : Type}.

(** The configuration [signal_handler] works in once it has logged the
    signal. *)
Definition signalled (c : cfg O) : cfg O :=
  noted INFO "Received signal, shutting down gracefully..." c.

(** The configuration the [try] statement of a [main] leaves to its
    [finally] clause: that of the [try] block, with the error record of
    the [except Exception] clause when the block raised one. *)
Definition handled_failure {A} (text : string) (outcome : result A * cfg O)
  : cfg O :=
  match fst outcome with
  | inl e =>
    if is_Exception e then noted ERROR text (snd outcome) else snd outcome
  | inr _ => snd outcome
  end.
End Handlers.

Section Started.
Context {R : Runtime} {O : Type}.

(** The configuration once a [main] has created its object [o]. *)
Definition started (o : O) (c : cfg O) : cfg O :=
  {| self := o; world := world c; calls := calls c; logs := logs c |}.
End Started.

(** The routing keys and ids of the ten messages of [TopicProducer.main],
    in the order it sends them. *)
Definition topic_sample_routes : list (string * string) :=
  [("analytics.user.login", "analytics-user-login");
   ("analytics.user.purchase", "analytics-user-purchase");
   ("analytics.page.view", "analytics-page-view");
   ("analytics.error.javascript", "analytics-error-javascript");
   ("notification.high.email", "notification-email-high");
   ("notification.medium.sms", "notification-sms-medium");
   ("notification.low.push", "notification-push-low");
   ("user.create.account", "event-user-create");
   ("product.update.price", "event-product-update");
   ("order.delete.cancel", "event-order-delete")].

(** The calls of a teardown. *)
Definition is_teardown (o : op) : bool :=
  match o with
  | StopConsuming | ChannelClose | ConnectionClose => true
  | _ => false
  end.

(** ** Frame conditions of the monad *)

Section FrameLemmas.
Context {R : Runtime} {O : Type}.

Lemma preserves_ret {X A} (f : cfg O -> X) (a : A) :
  preserves f (ret a : M O A).
Proof. intros c. reflexivity. Qed.

Lemma preserves_raise {X A} (f : cfg O -> X) (e : exn) :
  preserves f (@raise R O A e).
Proof. intros c. reflexivity. Qed.

Lemma preserves_lift {X A} (f : cfg O -> X) (r : result A) :
  preserves f (lift r : M O A).
Proof. intros c. reflexivity. Qed.

Lemma preserves_get_self {X} (f : cfg O -> X) : preserves f get_self.
Proof. intros c. reflexivity. Qed.

Lemma preserves_is_closed {X} (f : cfg O -> X) :
  preserves f connection_is_closed.
Proof. intros c. reflexivity. Qed.

Lemma preserves_bind {X A B} (f : cfg O -> X) (m : M O A) (k : A -> M O B) :
  preserves f m -> (forall a, preserves f (k a)) -> preserves f (bind m k).
Proof.
  intros Hm Hk c. unfold bind. specialize (Hm c).
  destruct (m c) as [[e | a] c1]; simpl in *; [assumption |].
  rewrite Hk. assumption.
Qed.

Lemma preserves_try_except {X A} (f : cfg O -> X) (m : M O A) p h :
  preserves f m -> (forall e, preserves f (h e)) ->
  preserves f (try_except m p h).
Proof.
  intros Hm Hh c. unfold try_except. specialize (Hm c).
  destruct (m c) as [[e | a] c1]; simpl in *; [| assumption].
  destruct (p e); [rewrite Hh |]; assumption.
Qed.

Lemma preserves_when {X} (f : cfg O -> X) b m :
  preserves f m -> preserves f (when b m).
Proof. intros Hm. destruct b; [assumption | apply preserves_ret]. Qed.

Lemma log_self l text : preserves self (@log R O l text).
Proof. intros c. reflexivity. Qed.

Lemma log_calls l text : preserves calls (@log R O l text).
Proof. intros c. reflexivity. Qed.

Lemma log_world l text : preserves world (@log R O l text).
Proof. intros c. reflexivity. Qed.

Lemma emit_self l text extra : preserves self (@Logger.emit R O l text extra).
Proof.
  intros c. unfold Logger.emit.
  destruct (Logger.enabled l); [destruct (find _ extra) |]; reflexivity.
Qed.

Lemma emit_calls l text extra :
  preserves calls (@Logger.emit R O l text extra).
Proof.
  intros c. unfold Logger.emit.
  destruct (Logger.enabled l); [destruct (find _ extra) |]; reflexivity.
Qed.

Lemma emit_world l text extra :
  preserves world (@Logger.emit R O l text extra).
Proof.
  intros c. unfold Logger.emit.
  destruct (Logger.enabled l); [destruct (find _ extra) |]; reflexivity.
Qed.

(** A log call whose [extra] has no key of a record returns. *)
Lemma emit_plain l text extra (c : cfg O) :
  find Logger.reserved extra = None ->
  Logger.emit l text extra c = (inr tt, noted l text c).
Proof.
  intros H. unfold Logger.emit, noted, emitted. rewrite H.
  destruct (Logger.enabled l); [reflexivity |].
  destruct c; simpl. rewrite app_nil_r. reflexivity.
Qed.

(** One whose [extra] has such a key raises when the level is enabled. *)
Lemma emit_reserved l text extra key (c : cfg O) :
  find Logger.reserved extra = Some key ->
  Logger.emit l text extra c
  = (if Logger.enabled l then inl (overwrite key) else inr tt, c).
Proof.
  intros H. unfold Logger.emit. rewrite H.
  destruct (Logger.enabled l); reflexivity.
Qed.

Lemma call_self o : preserves self (@call R O o).
Proof. intros c. unfold call. destruct (pika o (world c)) as [[cls | []] w]; reflexivity. Qed.

Lemma now_self : preserves self (@now R O).
Proof. intros c. unfold now. destruct (time_time (world c)). reflexivity. Qed.

Lemma now_calls : preserves calls (@now R O).
Proof. intros c. unfold now. destruct (time_time (world c)). reflexivity. Qed.

Lemma strftime_self : preserves self (@strftime R O).
Proof. intros c. unfold strftime. destruct (time_strftime (world c)). reflexivity. Qed.

Lemma strftime_calls : preserves calls (@strftime R O).
Proof. intros c. unfold strftime. destruct (time_strftime (world c)). reflexivity. Qed.

Lemma sleep_self ms : preserves self (@sleep R O ms).
Proof. intros c. reflexivity. Qed.

Lemma sleep_calls ms : preserves calls (@sleep R O ms).
Proof. intros c. reflexivity. Qed.

Lemma set_self_calls o : preserves calls (@set_self R O o).
Proof. intros c. reflexivity. Qed.

Lemma raises_only_bind {A B} p (m : M O A) (k : A -> M O B) :
  raises_only p m -> (forall a, raises_only p (k a)) ->
  raises_only p (bind m k).
Proof.
  intros Hm Hk c e. unfold bind. specialize (Hm c).
  destruct (m c) as [[e1 | a] c1]; simpl in *.
  - intros H. inversion H; subst. apply Hm. reflexivity.
  - apply Hk.
Qed.

Lemma raises_only_ret {A} p (a : A) : raises_only p (ret a : M O A).
Proof. intros c e H. discriminate H. Qed.

Lemma raises_only_raise {A} (p : exn -> bool) e :
  p e = true -> raises_only p (@raise R O A e).
Proof. intros Hp c e' H. inversion H; subst. assumption. Qed.

Lemma raises_only_lift {A} (p : exn -> bool) (r : result A) :
  (forall e, r = inl e -> p e = true) -> raises_only p (lift r : M O A).
Proof. intros Hr c e H. apply Hr. assumption. Qed.

Lemma raises_only_get_self p : raises_only p (@get_self R O).
Proof. intros c e H. discriminate H. Qed.

Lemma raises_only_set_self p o : raises_only p (@set_self R O o).
Proof. intros c e H. discriminate H. Qed.

Lemma raises_only_is_closed p : raises_only p (@connection_is_closed R O).
Proof. intros c e H. discriminate H. Qed.

Lemma raises_only_log p l text : raises_only p (@log R O l text).
Proof. intros c e H. discriminate H. Qed.

Lemma raises_only_emit (p : exn -> bool) l text extra :
  (forall msg, p (KeyError msg) = true) ->
  raises_only p (@Logger.emit R O l text extra).
Proof.
  intros Hp c e. unfold Logger.emit.
  destruct (Logger.enabled l); [destruct (find _ extra) |]; simpl;
    intros H; inversion H. apply Hp.
Qed.

Lemma raises_only_emit_plain p l text extra :
  find Logger.reserved extra = None ->
  raises_only p (@Logger.emit R O l text extra).
Proof.
  intros Hx c e. rewrite emit_plain by assumption. discriminate.
Qed.

Lemma raises_only_sleep p ms : raises_only p (@sleep R O ms).
Proof. intros c e H. discriminate H. Qed.

Lemma raises_only_now p : raises_only p (@now R O).
Proof.
  intros c e. unfold now. destruct (time_time (world c)). discriminate.
Qed.

Lemma raises_only_strftime p : raises_only p (@strftime R O).
Proof.
  intros c e. unfold strftime. destruct (time_strftime (world c)).
  discriminate.
Qed.

Lemma raises_only_call (p : exn -> bool) o :
  (forall cls, p (AMQPError cls) = true) -> raises_only p (@call R O o).
Proof.
  intros Hp c e. unfold call.
  destruct (pika o (world c)) as [[cls | []] w]; simpl; intros H;
    inversion H; apply Hp.
Qed.

Lemma raises_only_when p b (m : M O unit) :
  raises_only p m -> raises_only p (when b m).
Proof. intros Hm. destruct b; [assumption | apply raises_only_ret]. Qed.

Lemma raises_only_try_except {A} p (m : M O A) q h :
  raises_only (fun e' => q e' || p e') m ->
  (forall e, raises_only p (h e)) ->
  raises_only p (try_except m q h).
Proof.
  intros Hm Hh c e. unfold try_except. specialize (Hm c).
  destruct (m c) as [[e1 | a] c1]; simpl in *.
  - destruct (q e1) eqn:Q.
    + apply Hh.
    + intros H. inversion H; subst. specialize (Hm e eq_refl).
      rewrite Q in Hm. assumption.
  - discriminate.
Qed.

Lemma preserves_run {X A} {f : cfg O -> X} {m : M O A} {c r c'} :
  preserves f m -> m c = (r, c') -> f c' = f c.
Proof. intros H E. specialize (H c). rewrite E in H. assumption. Qed.

(** How a sequence ran: its first part raised, or it returned and the
    rest ran. *)
Lemma bind_inv {A B} (m : M O A) (k : A -> M O B) c r c' :
  bind m k c = (r, c') ->
  (exists e, m c = (inl e, c') /\ r = inl e)
  \/ (exists a c1, m c = (inr a, c1) /\ k a c1 = (r, c')).
Proof.
  unfold bind. destruct (m c) as [[e | a] c1]; intros H.
  - left. exists e. inversion H; subst. split; reflexivity.
  - right. exists a, c1. split; [reflexivity | assumption].
Qed.

(** Running a sequence whose first part is known. *)
Lemma bind_returned {A B} {m : M O A} (k : A -> M O B) {c a c1} :
  m c = (inr a, c1) -> bind m k c = k a c1.
Proof. intros E. unfold bind. rewrite E. reflexivity. Qed.

Lemma bind_raised {A B} {m : M O A} (k : A -> M O B) {c e c1} :
  m c = (inl e, c1) -> bind m k c = (inl e, c1).
Proof. intros E. unfold bind. rewrite E. reflexivity. Qed.

Lemma bind_ret {A B} (a : A) (k : A -> M O B) c : bind (ret a) k c = k a c.
Proof. reflexivity. Qed.

Lemma bind_get_self {B} (k : O -> M O B) c :
  bind get_self k c = k (self c) c.
Proof. reflexivity. Qed.

Lemma bind_lift_inr {A B} (a : A) (k : A -> M O B) c :
  bind (lift (inr a)) k c = k a c.
Proof. reflexivity. Qed.

Lemma bind_lift_inl {A B} (e : exn) (k : A -> M O B) c :
  bind (lift (inl e)) k c = (inl e, c).
Proof. reflexivity. Qed.

Lemma bind_log {B} l text (k : unit -> M O B) c :
  bind (log l text) k c
  = k tt {| self := self c; world := world c; calls := calls c;
            logs := (logs c ++ [{| log_level := l; log_text := text |}])%list |}.
Proof. reflexivity. Qed.

Lemma bind_emit {B} l text extra (k : unit -> M O B) c :
  find Logger.reserved extra = None ->
  bind (Logger.emit l text extra) k c = k tt (noted l text c).
Proof. intros H. unfold bind. rewrite emit_plain by assumption. reflexivity. Qed.

Lemma bind_emit_reserved {B} l text extra key (k : unit -> M O B) c :
  find Logger.reserved extra = Some key ->
  bind (Logger.emit l text extra) k c
  = if Logger.enabled l then (inl (overwrite key), c) else k tt c.
Proof.
  intros H. unfold bind. rewrite (emit_reserved _ _ _ _ H).
  destruct (Logger.enabled l); reflexivity.
Qed.

Lemma bind_sleep {B} ms (k : unit -> M O B) c :
  bind (sleep ms) k c
  = k tt {| self := self c; world := time_sleep ms (world c);
            calls := calls c; logs := logs c |}.
Proof. reflexivity. Qed.

Lemma bind_now {B} (k : Z -> M O B) c :
  bind now k c
  = k (fst (time_time (world c)))
      {| self := self c; world := snd (time_time (world c));
         calls := calls c; logs := logs c |}.
Proof. unfold bind, now. destruct (time_time (world c)). reflexivity. Qed.

Lemma bind_strftime {B} (k : string -> M O B) c :
  bind strftime k c
  = k (fst (time_strftime (world c)))
      {| self := self c; world := snd (time_strftime (world c));
         calls := calls c; logs := logs c |}.
Proof.
  unfold bind, strftime. destruct (time_strftime (world c)). reflexivity.
Qed.

Lemma issued_app {c c' : cfg O} {new} :
  calls c' = (calls c ++ new)%list -> issued c c' = new.
Proof.
  intros H. unfold issued. rewrite H. clear H.
  generalize (calls c). intros l.
  induction l as [| ev evs IH]; simpl; [reflexivity | assumption].
Qed.

Lemma issued_via {c c1 c' : cfg O} {new} :
  calls c1 = calls c -> calls c' = (calls c1 ++ new)%list ->
  issued c c' = new.
Proof. intros H1 H2. apply issued_app. rewrite H2, H1. reflexivity. Qed.

Lemma issued_same {c c' : cfg O} : calls c' = calls c -> issued c c' = [].
Proof. intros H. apply issued_app. rewrite app_nil_r. assumption. Qed.

Lemma issued_0 (c c' : cfg O) : calls c' = calls c -> issued c c' = [].
Proof. apply issued_same. Qed.

Lemma issued_1 (c c' : cfg O) e1 :
  calls c' = (calls c ++ [e1])%list -> issued c c' = [e1].
Proof. apply issued_app. Qed.

Lemma issued_2 (c c' : cfg O) e1 e2 :
  calls c' = ((calls c ++ [e1]) ++ [e2])%list -> issued c c' = [e1; e2].
Proof. intros H. apply issued_app. rewrite H, <- app_assoc. reflexivity. Qed.

Lemma issued_3 (c c' : cfg O) e1 e2 e3 :
  calls c' = (((calls c ++ [e1]) ++ [e2]) ++ [e3])%list ->
  issued c c' = [e1; e2; e3].
Proof.
  intros H. apply issued_app. rewrite H, <- !app_assoc. reflexivity.
Qed.

Lemma issued_4 (c c' : cfg O) e1 e2 e3 e4 :
  calls c' = ((((calls c ++ [e1]) ++ [e2]) ++ [e3]) ++ [e4])%list ->
  issued c c' = [e1; e2; e3; e4].
Proof.
  intros H. apply issued_app. rewrite H, <- !app_assoc. reflexivity.
Qed.
End FrameLemmas.

Arguments Logger.enabled : simpl never.

Create HintDb frame.
#[export] Hint Resolve preserves_ret preserves_raise preserves_lift
  preserves_get_self preserves_is_closed log_self log_calls log_world
  emit_self emit_calls emit_world call_self now_self now_calls strftime_self strftime_calls sleep_self
  sleep_calls set_self_calls : frame.

#[export] Hint Resolve raises_only_ret raises_only_get_self
  raises_only_set_self raises_only_is_closed raises_only_log
  raises_only_sleep raises_only_now raises_only_strftime : frame.

#[export] Hint Unfold Logger.info Logger.warning Logger.error
  Logger.log_connection Logger.log_message_sent Logger.log_message_received
  Logger.log_message_processed Logger.log_queue_declared
  Logger.log_exchange_declared : frame.

Ltac frame :=
  autounfold with frame;
  repeat first
    [ progress intros
    | solve [auto with frame]
    | apply raises_only_emit_plain; reflexivity
    | apply raises_only_emit; intros; reflexivity
    | apply preserves_bind
    | apply preserves_try_except
    | apply preserves_when
    | apply raises_only_bind
    | apply raises_only_when
    | apply raises_only_call; intros; reflexivity
    | solve [auto with frame]
    | match goal with
      | |- preserves _ (if ?b then _ else _) => destruct b
      | |- preserves _ (match ?x with _ => _ end) => destruct x
      | |- raises_only _ (if ?b then _ else _) => destruct b
      | |- raises_only _ (match ?x with _ => _ end) => destruct x
      end ].

(** One step through a sequence [E : bind m k c = (r, c')] whose first part
    issues no call and leaves [self] alone: first the case where that part
    raised, then the case where it returned, with [E] about the rest. *)
Ltac frame_step E :=
  let e := fresh "e" in
  let a := fresh "a" in
  let c1 := fresh "c" in
  let E1 := fresh "E" in
  apply bind_inv in E as [(e & E1 & ->) | (a & c1 & E1 & E)];
  match type of E1 with
  | ?m _ = _ =>
    let Hc := fresh "Hcalls" in
    let Hs := fresh "Hself" in
    assert (Hc : preserves calls m) by frame;
    assert (Hs : preserves self m) by frame;
    pose proof (preserves_run Hc E1);
    pose proof (preserves_run Hs E1);
    clear Hc Hs
  end.

Section HandlerFrames.
Context {R : Runtime}.
Import BasicConsumer.

Lemma process_message_self d : preserves self (process_message d).
Proof. unfold process_message. frame. Qed.

Lemma process_message_calls d : preserves calls (process_message d).
Proof. unfold process_message. frame. Qed.
End HandlerFrames.

#[export] Hint Resolve process_message_self process_message_calls : frame.

Section HandlerErrors.
Context {R : Runtime}.
Import BasicConsumer.

Lemma process_message_result (d : json) (c c' : cfg t) :
  message_count (self c) = message_count (self c') ->
  fst (process_message d c) = fst (process_message d c').
Proof.
  intros H. unfold process_message, Logger.info.
  destruct (py_get d "type" (JStr "unknown")) as [e | ty]; [reflexivity |].
  rewrite !bind_lift_inr.
  destruct (processing_time ty) as [e | ms]; [reflexivity |].
  rewrite !bind_lift_inr.
  destruct (py_get d "id" JNull) as [e | i]; [reflexivity |].
  rewrite !bind_lift_inr.
  destruct (py_get d "message" JNull) as [e | msg]; [reflexivity |].
  rewrite !bind_lift_inr.
  rewrite !bind_emit_reserved with (key := "message") by reflexivity.
  destruct (Logger.enabled INFO); [reflexivity |].
  rewrite !bind_sleep.
  unfold bind, lift, get_self, ret, raise.
  destruct (eq_str ty "system").
  - destruct (py_get d "message" (JStr "")) as [e | txt]; [reflexivity |].
    destruct (str_receiver txt "lower") as [e | s]; [reflexivity |].
    cbn [self]. rewrite H.
    destruct (contains "backup" (str_lower s)); [destruct (_ =? 0) |];
      try reflexivity;
      destruct (str_receiver ty "capitalize"); try reflexivity;
      rewrite !emit_plain by reflexivity; reflexivity.
  - cbn [self]. destruct (str_receiver ty "capitalize"); try reflexivity.
    rewrite !emit_plain by reflexivity. reflexivity.
Qed.

Lemma py_get_raises d key default e :
  py_get d key default = inl e -> handler_error e = true.
Proof. destruct d; simpl; intros H; inversion H; reflexivity. Qed.

Lemma str_receiver_raises x a e :
  str_receiver x a = inl e -> handler_error e = true.
Proof. destruct x; simpl; intros H; inversion H; reflexivity. Qed.

Lemma processing_time_raises x e :
  processing_time x = inl e -> handler_error e = true.
Proof.
  unfold processing_time. destruct (hashable x); intros H; inversion H.
  reflexivity.
Qed.

(** The handler raises only [Exception]s, and never a decode error. *)
Lemma process_message_raises d : raises_only handler_error (process_message d).
Proof.
  unfold process_message, Logger.info. frame;
    try (apply raises_only_lift;
         first [ apply py_get_raises | apply str_receiver_raises
               | apply processing_time_raises ]).
  apply raises_only_raise. reflexivity.
Qed.
End HandlerErrors.

Section TryBlock.
Context {R : Runtime}.
Import BasicConsumer.

Lemma attempt_self m body : preserves self (attempt m body).
Proof.
  unfold attempt. frame.
Qed.

Lemma on_failure_self m id e : preserves self (on_failure m id e).
Proof.
  unfold on_failure, Logger.log_message_failed, Logger.call_exception.
  frame.
Qed.

Lemma handle_message_unfold m p body c :
  handle_message m p body c =
  try_except (attempt m body) is_Exception
    (on_failure m (or_else (message_id p)
                     ("unknown-" ++ str_of_int (message_count (self c) + 1))))
    (received c).
Proof. reflexivity. Qed. 

Lemma on_failure_general m id e c :
  is_JSONDecodeError e = false ->
  on_failure m id e c =
  (inl not_callable, noted ERROR "Failed to process message" c).
Proof.
  intros H. unfold on_failure, Logger.error. rewrite H.
  rewrite bind_emit by reflexivity. reflexivity.
Qed.

Lemma on_failure_decode m id e c :
  is_JSONDecodeError e = true ->
  on_failure m id e c =
  call (BasicNack (delivery_tag m) false)
       (noted ERROR "Failed to parse JSON message" c).
Proof.
  intros H. unfold on_failure, Logger.error. rewrite H.
  rewrite bind_emit by reflexivity. reflexivity.
Qed.

Lemma call_calls (O : Type) (o : op) (c : cfg O) :
  exists raised,
    calls (snd (call o c)) = (calls c ++ [ev o raised])%list
    /\ fst (call o c) = match raised with
                        | None => inr tt
                        | Some cls => inl (AMQPError cls)
                        end.
Proof.
  unfold call. destruct (pika o (world c)) as [[cls | []] w].
  - exists (Some cls). split; reflexivity.
  - exists None. split; reflexivity.
Qed.

(** The [try] block either issues nothing and raises, or issues the
    [basic_ack] as its only call and returns exactly when pika does. *)
Lemma attempt_shape m body c :
  (calls (snd (attempt m body c)) = calls c
   /\ exists e, fst (attempt m body c) = inl e)
  \/ (exists raised,
        calls (snd (attempt m body c))
        = (calls c ++ [ev (BasicAck (delivery_tag m)) raised])%list
        /\ fst (attempt m body c)
           = match raised with
             | None => inr tt
             | Some cls => inl (AMQPError cls)
             end).
Proof.
  destruct (attempt m body c) as [r c'] eqn:E. simpl. unfold attempt in E.
  do 9 (frame_step E; [left; split; [congruence | eauto] |]).
  right.
  match type of E with
  | bind (call ?o) _ ?cx = _ =>
    destruct (call_calls o cx) as [raised [Hc Hr]]
  end.
  exists raised.
  apply bind_inv in E as [(e & E9 & ->) | ([] & c9 & E9 & E)];
    rewrite E9 in Hc, Hr; simpl in Hc, Hr.
  - split; [congruence | assumption].
  - unfold Logger.log_message_processed, Logger.info in E.
    rewrite bind_emit in E by (destruct (_ =? 0); reflexivity).
    rewrite emit_plain in E by reflexivity.
    inversion E; subst; clear E. simpl.
    split; [congruence |]. destruct raised; [discriminate | reflexivity].
Qed.
End TryBlock.

Section HandleMessage.
Context {R : Runtime}.
Import BasicConsumer.

Lemma attempt_undecodable m body c :
  utf8_valid body = false -> attempt m body c = (inl UnicodeDecodeError, c).
Proof.
  intros H. unfold attempt, bind, lift, bytes_decode. rewrite H. reflexivity.
Qed.

Lemma attempt_not_loaded m body text e c :
  bytes_decode body = inr text -> json_loads text = inl e ->
  attempt m body c = (inl e, c).
Proof.
  intros Hd Hj. unfold attempt, bind, lift. rewrite Hd, Hj. reflexivity.
Qed.

(** Once the payload is decoded, the [try] block raises what the handler
    raises, before any call; when the handler returns, the block issues
    the [basic_ack]. *)
Lemma attempt_decoded m body text items c :
  bytes_decode body = inr text -> json_loads text = inr (JDict items) ->
  self (snd (attempt m body c)) = self c
  /\ match fst (process_message (JDict items) c) with
     | inl e =>
       fst (attempt m body c) = inl e
       /\ calls (snd (attempt m body c)) = calls c
     | inr _ =>
       exists raised,
         calls (snd (attempt m body c))
         = (calls c ++ [ev (BasicAck (delivery_tag m)) raised])%list
         /\ fst (attempt m body c)
            = match raised with
              | None => inr tt
              | Some cls => inl (AMQPError cls)
              end
     end.
Proof.
  intros Hd Hj. split; [apply attempt_self |].
  unfold attempt, Logger.log_message_received, Logger.info.
  rewrite Hd, bind_lift_inr, Hj, bind_lift_inr, bind_strftime.
  rewrite bind_emit by reflexivity.
  cbn [py_get]. rewrite bind_lift_inr.
  rewrite bind_emit by reflexivity. rewrite bind_now.
  match goal with
  | |- context [bind (process_message _) _ ?c0] => set (c5 := c0)
  end.
  rewrite <- (@process_message_result R (JDict items) c5 c) by reflexivity.
  destruct (process_message (JDict items) c5) as [[e | []] c6] eqn:E;
    pose proof (preserves_run (process_message_calls (JDict items)) E) as Hc6;
    simpl in Hc6; cbn [fst].
  - rewrite (bind_raised _ E). split; [reflexivity | assumption].
  - rewrite (bind_returned _ E), bind_now.
    match goal with
    | |- context [bind (call ?o) _ ?cx] =>
      destruct (call_calls o cx) as [raised [Hc Hr]];
        destruct (call o cx) as [[e | []] c7] eqn:E7
    end; exists raised; simpl in Hc, Hr.
    + rewrite (bind_raised _ E7). simpl. split; [congruence | assumption].
    + rewrite (bind_returned _ E7).
      unfold Logger.log_message_processed, Logger.info.
      rewrite bind_emit by (destruct (_ =? 0); reflexivity).
      rewrite emit_plain by reflexivity.
      simpl. split; [congruence |].
      destruct raised; [discriminate | reflexivity].
Qed.

Lemma outcomes_one tag o raised x :
  outcome_of tag o = Some x -> outcomes tag [ev o raised] = [x].
Proof. intros H. simpl. rewrite H. reflexivity. Qed.

Lemma handle_message_self m p body c :
  self (snd (handle_message m p body c))
  = set_message_count (message_count (self c) + 1) (self c).
Proof.
  rewrite handle_message_unfold.
  rewrite (@preserves_try_except R t t unit self (attempt m body) is_Exception
             _ (attempt_self m body) (on_failure_self m _)).
  reflexivity.
Qed.

(** Undecodable bytes: the decode error reaches the general clause. *)
Lemma handle_message_undecodable m p body c :
  utf8_valid body = false ->
  fst (handle_message m p body c) = inl not_callable
  /\ calls (snd (handle_message m p body c)) = calls c.
Proof.
  intros H. rewrite handle_message_unfold. unfold try_except.
  rewrite attempt_undecodable by assumption. cbn [is_Exception].
  rewrite on_failure_general by reflexivity. split; reflexivity.
Qed.

(** Text that is not JSON: discarded, whatever the redelivery flag. *)
Lemma handle_message_invalid_json m p body text msg c :
  bytes_decode body = inr text ->
  json_loads text = inl (JSONDecodeError msg) ->
  exists raised,
    calls (snd (handle_message m p body c))
    = (calls c ++ [ev (BasicNack (delivery_tag m) false) raised])%list
    /\ fst (handle_message m p body c)
       = match raised with
         | None => inr tt
         | Some cls => inl (AMQPError cls)
         end.
Proof.
  intros Hd Hj. rewrite handle_message_unfold. unfold try_except.
  erewrite attempt_not_loaded by eassumption. cbn [is_Exception].
  rewrite on_failure_decode by reflexivity.
  match goal with
  | |- context [call ?o ?cx] => destruct (call_calls o cx) as [raised H]
  end.
  exists raised. exact H.
Qed.

(** The handler raised: the general clause stops at [log_message_failed],
    before either [basic_nack]. *)
Lemma handle_message_handler_raised m p body text items e c :
  bytes_decode body = inr text -> json_loads text = inr (JDict items) ->
  fst (process_message (JDict items) (received c)) = inl e ->
  fst (handle_message m p body c) = inl not_callable
  /\ calls (snd (handle_message m p body c)) = calls c.
Proof.
  intros Hd Hj He. rewrite handle_message_unfold. unfold try_except.
  destruct (@attempt_decoded m body text items (received c) Hd Hj) as [_ H].
  rewrite He in H. destruct H as [Hr Hc].
  pose proof (@process_message_raises R (JDict items) (received c) e He)
    as Hex%andb_prop.
  destruct (attempt m body (received c)) as [[e' | []] c1];
    cbn [fst snd] in *; [| discriminate].
  inversion Hr; subst. destruct Hex as [Hex Hj'].
  rewrite Hex. rewrite on_failure_general.
  - split; [reflexivity | assumption].
  - destruct (is_JSONDecodeError e); [discriminate | reflexivity].
Qed.

(** The handler returned: the delivery is acknowledged. *)
Lemma handle_message_handler_returned m p body text items c :
  bytes_decode body = inr text -> json_loads text = inr (JDict items) ->
  fst (process_message (JDict items) (received c)) = inr tt ->
  exists raised,
    calls (snd (handle_message m p body c))
    = (calls c ++ [ev (BasicAck (delivery_tag m)) raised])%list
    /\ (raised = None -> fst (handle_message m p body c) = inr tt).
Proof.
  intros Hd Hj He. rewrite handle_message_unfold. unfold try_except.
  destruct (@attempt_decoded m body text items (received c) Hd Hj) as [_ H].
  rewrite He in H. destruct H as [raised [Hc Hr]]. exists raised.
  destruct (attempt m body (received c)) as [[e' | []] c1];
    cbn [fst snd] in *.
  - destruct raised as [cls |]; [| discriminate].
    inversion Hr; subst. cbn [is_Exception].
    rewrite on_failure_general by reflexivity.
    split; [assumption | discriminate].
  - split; [assumption | reflexivity].
Qed.

Lemma handle_message_at_most_one m p body c :
  (List.length (outcomes (delivery_tag m)
                         (issued c (snd (handle_message m p body c))))
   <= 1)%nat.
Proof.
  rewrite handle_message_unfold. unfold try_except.
  destruct (attempt_shape m body (received c))
    as [[Hc [e He]] | [raised [Hc Hr]]];
    destruct (attempt m body (received c)) as [[e' | []] c1];
    cbn [fst snd] in *; change (calls (received c)) with (calls c) in Hc.
  - inversion He; subst. destruct (is_Exception e) eqn:Hex.
    + destruct (is_JSONDecodeError e) eqn:Hj.
      * rewrite on_failure_decode by assumption.
        match goal with
        | |- context [call ?o ?cx] =>
          destruct (call_calls o cx) as [raised [H _]]
        end.
        cbn [calls] in H. rewrite (issued_via Hc H).
        simpl. rewrite Z.eqb_refl. simpl. lia.
      * rewrite on_failure_general by assumption. cbn [snd].
        rewrite issued_same by assumption. simpl. lia.
    + cbn [snd]. rewrite issued_same by assumption. simpl. lia.
  - discriminate.
  - destruct raised as [cls |]; [| discriminate]. inversion Hr; subst.
    cbn [is_Exception]. rewrite on_failure_general by reflexivity.
    cbn [snd]. erewrite issued_app by (cbn [calls]; eassumption).
    simpl. rewrite Z.eqb_refl. simpl. lia.
  - rewrite (issued_app Hc). simpl. rewrite Z.eqb_refl. simpl. lia.
Qed.
End HandleMessage.

(** ** The consumer: outcome of a delivery *)

Section ConsumerClaims.
Context {R : Runtime}.
Import BasicConsumer.

(** C1.  Code defect.  A payload that is not valid UTF-8 fails to decode,
    but the error is a [UnicodeDecodeError], which the clause for
    [json.JSONDecodeError] does not catch: the general clause runs, and
    [log_message_failed] raises before any [basic_nack].  The delivery is
    not discarded: [handle_message] raises and settles no outcome. *)
Theorem undecodable_bytes_not_discarded m p body c :
  utf8_valid body = false ->
  fst (handle_message m p body c) = inl not_callable
  /\ outcomes (delivery_tag m) (issued c (snd (handle_message m p body c)))
     = [].
Proof.
  intros H. destruct (@handle_message_undecodable R m p body c H) as [Hr Hc].
  split; [assumption |]. rewrite issued_same by assumption. reflexivity.
Qed.

(** Text that is not JSON is discarded, for every redelivery flag. *)
Lemma invalid_json_discarded m p body text msg c :
  bytes_decode body = inr text ->
  json_loads text = inl (JSONDecodeError msg) ->
  outcomes (delivery_tag m) (issued c (snd (handle_message m p body c)))
  = [NackDiscard].
Proof.
  intros Hd Hj.
  destruct (@handle_message_invalid_json R m p body text msg c Hd Hj)
    as [raised [Hc _]].
  rewrite (issued_app Hc). simpl. rewrite Z.eqb_refl. reflexivity.
Qed.

(** C2.  Code defect.  When the payload decodes and the handler raises,
    [handle_message] settles neither [NackRequeue] nor [NackDiscard]: for
    either value of [redelivered] it raises the [TypeError] of
    [log_message_failed] and issues no call. *)
Theorem handler_failure_not_settled m p body text items e c :
  bytes_decode body = inr text ->
  json_loads text = inr (JDict items) ->
  fst (process_message (JDict items) (received c)) = inl e ->
  fst (handle_message m p body c) = inl not_callable
  /\ outcomes (delivery_tag m) (issued c (snd (handle_message m p body c)))
     = [].
Proof.
  intros Hd Hj He.
  destruct (@handle_message_handler_raised R m p body text items e c Hd Hj He)
    as [Hr Hc].
  split; [assumption |]. rewrite issued_same by assumption. reflexivity.
Qed.

(** When the handler returns, the outcome is [Ack]. *)
Lemma handler_success_acked m p body text items c :
  bytes_decode body = inr text ->
  json_loads text = inr (JDict items) ->
  fst (process_message (JDict items) (received c)) = inr tt ->
  outcomes (delivery_tag m) (issued c (snd (handle_message m p body c)))
  = [Ack].
Proof.
  intros Hd Hj He.
  destruct (@handle_message_handler_returned R m p body text items c Hd Hj He)
    as [raised [Hc _]].
  rewrite (issued_app Hc). simpl. rewrite Z.eqb_refl. reflexivity.
Qed.

(** C5.  Code defect.  [process_message] does not count the backup
    messages.  On a message of type [system] whose text contains
    [backup]: when records of level INFO are enabled, as they are by
    default, it raises on every such message, since its first log call
    passes the key [message] in [extra]; otherwise it raises the
    simulated failure exactly when [message_count], the number of
    deliveries received so far, of any type, is a multiple of 5. *)
Theorem backup_failure_follows_delivery_count items text c :
  items_get items "type" = Some (JStr "system") ->
  items_get items "message" = Some (JStr text) ->
  contains "backup" (str_lower text) = true ->
  fst (process_message (JDict items) c)
  = if Logger.enabled INFO then inl (overwrite "message")
    else if message_count (self c) mod 5 =? 0
         then inl (PyException "Simulated backup failure")
         else inr tt.
Proof.
  intros Ht Hm Hb.
  unfold process_message, Logger.info. cbn [py_get]. rewrite Ht, Hm.
  rewrite bind_lift_inr. cbn [processing_time hashable eq_str String.eqb].
  simpl (if hashable _ then _ else _).
  repeat rewrite bind_lift_inr.
  rewrite bind_emit_reserved with (key := "message") by reflexivity.
  destruct (Logger.enabled INFO); [reflexivity |].
  rewrite bind_sleep.
  unfold bind, lift, get_self, ret, raise. simpl. rewrite Hb.
  destruct (message_count (self c) mod 5 =? 0); [reflexivity |].
  rewrite emit_plain by reflexivity. reflexivity.
Qed.

Lemma dispatch_count deliveries : forall c,
  message_count (self (snd (dispatch deliveries c)))
  = message_count (self c) + Z.of_nat (handled deliveries c).
Proof.
  induction deliveries as [| d rest IH]; intros c; simpl.
  - lia.
  - pose proof (handle_message_self (method d) (properties d) (body d) c)
      as Hs.
    unfold bind.
    destruct (handle_message (method d) (properties d) (body d) c)
      as [[e | []] c1]; simpl in Hs |- *.
    + rewrite Hs. simpl. lia.
    + rewrite IH, Hs. simpl. lia.
Qed.

(** C10.  Every delivery handed to the callback adds exactly one to
    [message_count], whatever its outcome and whether it is a redelivery,
    so [get_stats] reports under [messages_processed] the number of
    deliveries received. *)
Theorem message_count_counts_deliveries deliveries c :
  message_count (self (snd (dispatch deliveries c)))
  = message_count (self c) + Z.of_nat (handled deliveries c)
  /\ (forall m p body,
        message_count (self (snd (handle_message m p body c)))
        = message_count (self c) + 1)
  /\ fst (get_stats (snd (dispatch deliveries c)))
     = inr (JDict
              [("messages_processed",
                JInt (message_count (self c)
                      + Z.of_nat (handled deliveries c)));
               ("queue", JStr (queue_name (self (snd (dispatch deliveries c)))));
               ("uptime", JStr "running")]).
Proof.
  split; [apply dispatch_count | split].
  - intros m p body. rewrite handle_message_self. reflexivity.
  - unfold get_stats, bind, get_self, ret. simpl.
    rewrite dispatch_count. reflexivity.
Qed.
End ConsumerClaims.

(** The one-byte body [0xff], on a first delivery. *)
Lemma undecodable_bytes_not_discarded_witness :
  utf8_valid (String "255" "") = false
  /\ fst (@BasicConsumer.handle_message Reference.runtime
            (method (Demo.delivery 1 "")) (properties (Demo.delivery 1 ""))
            (String "255" "") Demo.consumer)
     = inl not_callable.
Proof.
  split; [reflexivity |].
  apply (@undecodable_bytes_not_discarded Reference.runtime
           (method (Demo.delivery 1 "")) (properties (Demo.delivery 1 ""))
           (String "255" "") Demo.consumer).
  reflexivity.
Defined.

(** The fifth sample message, with the defaults of [config.py]: the
    handler raises at its first log call. *)
Lemma handler_failure_not_settled_witness :
  fst (@BasicConsumer.handle_message Reference.runtime
         (method (Demo.delivery 5 Demo.backup_body))
         (properties (Demo.delivery 5 Demo.backup_body))
         Demo.backup_body Demo.after_four)
  = inl not_callable
  /\ outcomes 5
       (issued Demo.after_four
          (snd (@BasicConsumer.handle_message Reference.runtime
                  (method (Demo.delivery 5 Demo.backup_body))
                  (properties (Demo.delivery 5 Demo.backup_body))
                  Demo.backup_body Demo.after_four)))
     = [].
Proof.
  apply (@handler_failure_not_settled Reference.runtime
           (method (Demo.delivery 5 Demo.backup_body))
           (properties (Demo.delivery 5 Demo.backup_body))
           Demo.backup_body Demo.backup_body Demo.backup_items
           (overwrite "message") Demo.after_four).
  - reflexivity.
  - vm_compute. reflexivity.
  - vm_compute. reflexivity.
Defined.

(** C3.  Code defect.  [handle_message] never settles more than one
    outcome for a delivery, but it can settle none: on the fifth sample
    message the handler raises and no [basic_ack] or [basic_nack] is
    issued. *)
Theorem outcome_count :
  (forall (R : Runtime) m p body c,
      (List.length
         (outcomes (delivery_tag m)
                   (issued c (snd (BasicConsumer.handle_message m p body c))))
       <= 1)%nat)
  /\ outcomes 5
       (issued Demo.after_four
          (snd (@BasicConsumer.handle_message Reference.runtime
                  (method (Demo.delivery 5 Demo.backup_body))
                  (properties (Demo.delivery 5 Demo.backup_body))
                  Demo.backup_body Demo.after_four)))
     = [].
Proof.
  split.
  - intros R m p body c. apply handle_message_at_most_one.
  - vm_compute. reflexivity.
Qed.

(** The whole sample run.  With the defaults of [config.py], [connect]
    fails at [log_queue_declared] and [main] ends with status 1 before any
    delivery; the connection is closed. *)
Example sample_run :
  fst (@BasicConsumer.main Reference.runtime Demo.deliveries
         (Reference.fresh BasicConsumer.__init__ (Reference.start true)))
  = inr 1
  /\ map ev_op
         (calls (snd (@BasicConsumer.main Reference.runtime
                        Demo.deliveries
                        (Reference.fresh BasicConsumer.__init__
                                         (Reference.start true)))))
     = [OpenConnection (@RABBITMQ_CONFIG Reference.runtime); OpenChannel;
        QueueDeclare "python_basic_queue" true; StopConsuming;
        ConnectionClose].
Proof. vm_compute. split; reflexivity. Qed.

(** With [LOG_LEVEL=WARNING] four deliveries are acknowledged, the fifth
    gets no outcome, and [main] ends with status 1 after closing the
    connection. *)
Example quiet_sample_run :
  fst (@BasicConsumer.main Reference.quiet Demo.deliveries
         (Reference.fresh BasicConsumer.__init__ (Reference.start true)))
  = inr 1
  /\ map (fun tag =>
            outcomes tag
              (calls (snd (@BasicConsumer.main Reference.quiet
                             Demo.deliveries
                             (Reference.fresh BasicConsumer.__init__
                                              (Reference.start true))))))
         [1; 2; 3; 4; 5]
     = [[Ack]; [Ack]; [Ack]; [Ack]; []].
Proof. vm_compute. split; reflexivity. Qed.

(** With [LOG_LEVEL=WARNING] the first backup message, received fifth,
    fails. *)
Lemma backup_failure_follows_delivery_count_witness :
  fst (@BasicConsumer.process_message Reference.quiet
         (JDict Demo.backup_items) (received Demo.quiet_after_four))
  = inl (PyException "Simulated backup failure").
Proof.
  rewrite (@backup_failure_follows_delivery_count Reference.quiet
             Demo.backup_items "Run daily backup"
             (received Demo.quiet_after_four)).
  - reflexivity.
  - reflexivity.
  - reflexivity.
  - reflexivity.
Defined.

(** With the defaults of [config.py] every backup message fails. *)
Example backup_fails_by_default :
  fst (@BasicConsumer.process_message Reference.runtime
         (JDict Demo.backup_items) Demo.consumer)
  = inl (KeyError "Attempt to overwrite 'message' in LogRecord").
Proof. vm_compute. reflexivity. Qed.

(** ** Shutdown *)

Section ShutdownClaims.
Context {R : Runtime}.

Lemma consumer_close_returns (c : cfg BasicConsumer.t) :
  fst (BasicConsumer.close c) = inr tt.
Proof.
  unfold BasicConsumer.close, try_except.
  match goal with
  | |- fst (match ?m c with _ => _ end) = _ =>
    assert (H : raises_only is_Exception m) by frame;
      specialize (H c); destruct (m c) as [[e | []] c1]
  end.
  - rewrite (H e eq_refl). unfold Logger.error.
    rewrite emit_plain by reflexivity. reflexivity.
  - reflexivity.
Qed.

Lemma producer_close_returns (c : cfg BasicProducer.t) :
  fst (BasicProducer.close c) = inr tt.
Proof.
  unfold BasicProducer.close, try_except.
  match goal with
  | |- fst (match ?m c with _ => _ end) = _ =>
    assert (H : raises_only is_Exception m) by frame;
      specialize (H c); destruct (m c) as [[e | []] c1]
  end.
  - rewrite (H e eq_refl). unfold Logger.error.
    rewrite emit_plain by reflexivity. reflexivity.
  - reflexivity.
Qed.

Lemma topic_close_returns (c : cfg TopicProducer.t) :
  fst (TopicProducer.close c) = inr tt.
Proof.
  unfold TopicProducer.close, try_except.
  match goal with
  | |- fst (match ?m c with _ => _ end) = _ =>
    assert (H : raises_only is_Exception m) by frame;
      specialize (H c); destruct (m c) as [[e | []] c1]
  end.
  - rewrite (H e eq_refl). unfold Logger.error.
    rewrite emit_plain by reflexivity. reflexivity.
  - reflexivity.
Qed.

Lemma times_returns {O} (m : M O unit) :
  (forall c, fst (m c) = inr tt) ->
  forall n c, fst (times n m c) = inr tt.
Proof.
  intros Hm n. induction n as [| n IH]; intros c; simpl; [reflexivity |].
  unfold bind. specialize (Hm c).
  destruct (m c) as [[e | []] c1]; simpl in Hm; [discriminate | apply IH].
Qed.

(** Unfold a [close], split on the fields, on [is_closed], on what each
    call does and on the levels, and read calls and records off the
    result. *)
Ltac run_teardown :=
  unfold teardown_logged, emitted;
  cbv [try_except Logger.info Logger.error Logger.emit bind log call
       get_self ret raise when connection_is_closed];
  simpl;
  repeat match goal with
         | |- context [pika ?o ?w] =>
           destruct (pika o w) as [[? | []] ?]; simpl
         | |- context [match ?x with Some _ => _ | None => _ end] =>
           destruct x; simpl
         | |- context [is_closed ?w] =>
           destruct (is_closed w); simpl
         | |- context [Logger.enabled ?l] =>
           destruct (Logger.enabled l); simpl
         end;
  eexists;
  (split;
   [ first [ erewrite issued_2 by reflexivity
           | erewrite issued_1 by reflexivity
           | erewrite issued_0 by reflexivity ];
     simpl; repeat split; reflexivity
   | simpl; rewrite ?app_nil_r; reflexivity ]).

Lemma consumer_close_logged (c : cfg BasicConsumer.t) :
  teardown_logged c (snd (BasicConsumer.close c)).
Proof. unfold BasicConsumer.close. run_teardown. Qed.

Lemma producer_close_logged (c : cfg BasicProducer.t) :
  teardown_logged c (snd (BasicProducer.close c)).
Proof. unfold BasicProducer.close. run_teardown. Qed.

Lemma topic_close_logged (c : cfg TopicProducer.t) :
  teardown_logged c (snd (TopicProducer.close c)).
Proof. unfold TopicProducer.close. run_teardown. Qed.

(** C9.  [close] returns normally on a consumer, a producer and a topic
    producer in every state of the object and of the broker, and so does
    any number of calls in a row.  What a teardown call raises is caught
    and logged: the calls of a [close] stop at the first one that
    raises, and then the log gains the record [Error closing connection]
    of level ERROR, and nothing else; when no call raised it gains the
    record of success. *)
Theorem close_never_raises (n : nat) :
  (forall c, fst (times n BasicConsumer.close c) = inr tt)
  /\ (forall c, fst (times n BasicProducer.close c) = inr tt)
  /\ (forall c, fst (times n TopicProducer.close c) = inr tt)
  /\ (forall c, teardown_logged c (snd (BasicConsumer.close c)))
  /\ (forall c, teardown_logged c (snd (BasicProducer.close c)))
  /\ (forall c, teardown_logged c (snd (TopicProducer.close c))).
Proof.
  repeat split; intros c;
    try (apply times_returns; intros c';
         first [ apply consumer_close_returns
               | apply producer_close_returns
               | apply topic_close_returns ]).
  - apply consumer_close_logged.
  - apply producer_close_logged.
  - apply topic_close_logged.
Qed.

Import BasicConsumer.

Lemma stop_run c :
  self (snd (stop c)) = set_running false (self c)
  /\ match channel (self c) with
     | Some _ =>
       exists raised,
         issued c (snd (stop c)) = [ev StopConsuming raised]
         /\ fst (stop c) = match raised with
                           | None => inr tt
                           | Some cls => inl (AMQPError cls)
                           end
     | None => issued c (snd (stop c)) = [] /\ fst (stop c) = inr tt
     end.
Proof.
  cbv [stop update bind get_self set_self ret].
  cbn [self channel set_running].
  destruct (channel (self c)).
  - match goal with
    | |- context [call ?o ?cx] =>
      destruct (call_calls o cx) as [raised [Hc Hr]];
        pose proof (call_self o cx) as Hs
    end.
    split; [exact Hs |]. exists raised.
    split; [apply issued_app; exact Hc | exact Hr].
  - split; [reflexivity |].
    split; [apply issued_same; reflexivity | reflexivity].
Qed.

Lemma close_run c :
  channel (self c) = Some TheChannel ->
  connection (self c) = Some TheConnection ->
  fst (pika StopConsuming (world c)) = inr tt ->
  is_closed (snd (pika StopConsuming (world c))) = false ->
  exists raised,
    issued c (snd (close c))
    = [ev StopConsuming None; ev ConnectionClose raised].
Proof.
  intros Hch Hco Hstop Hopen.
  unfold close, try_except. rewrite bind_get_self. rewrite Hch, Hco.
  unfold bind at 1, call at 1.
  destruct (pika StopConsuming (world c)) as [[cls | []] w1];
    simpl in Hstop, Hopen; [discriminate |].
  unfold bind at 1, bind at 1, connection_is_closed, ret. cbn [world].
  rewrite Hopen. cbn [negb when].
  match goal with
  | |- context [bind (call ?o) _ ?cx] =>
    destruct (call_calls o cx) as [raised [Hc Hr]];
      destruct (call o cx) as [[e | []] c2] eqn:E
  end; exists raised; cbn [fst snd calls] in Hc, Hr.
  - rewrite (bind_raised _ E). cbn [is_Exception].
    destruct raised as [cls |]; [| discriminate]. inversion Hr; subst.
    apply issued_app. unfold Logger.error.
    rewrite emit_plain by reflexivity.
    cbn [is_Exception snd calls noted].
    rewrite Hc. rewrite <- app_assoc. reflexivity.
  - rewrite (bind_returned _ E). apply issued_app.
    unfold Logger.info.
    rewrite emit_plain by reflexivity.
    cbn [is_Exception snd calls noted].
    rewrite Hc. rewrite <- app_assoc. reflexivity.
Qed.

(** C4, as amended.  [stop] clears [running] and, when there is a
    channel, asks it exactly once to stop consuming, raising what that
    call raises; without a channel it issues no call.  It issues
    nothing else: no ack and no nack, so that it settles no delivery,
    and no close.  The connection is closed by [close]: with a channel
    and a connection that is not closed, when [stop_consuming] returns,
    [close] goes on to call [connection.close()]. *)
Theorem stop_then_close :
  (forall c,
      self (snd (stop c)) = set_running false (self c)
      /\ match channel (self c) with
         | Some _ =>
           exists raised,
             issued c (snd (stop c)) = [ev StopConsuming raised]
             /\ fst (stop c) = match raised with
                               | None => inr tt
                               | Some cls => inl (AMQPError cls)
                               end
         | None => issued c (snd (stop c)) = [] /\ fst (stop c) = inr tt
         end)
  /\ (forall c tag,
        outcomes tag (issued c (snd (stop c))) = []
        /\ existsb is_close (map ev_op (issued c (snd (stop c)))) = false)
  /\ (forall c,
        channel (self c) = Some TheChannel ->
        connection (self c) = Some TheConnection ->
        fst (pika StopConsuming (world c)) = inr tt ->
        is_closed (snd (pika StopConsuming (world c))) = false ->
        exists raised,
          issued c (snd (close c))
          = [ev StopConsuming None; ev ConnectionClose raised]).
Proof.
  split; [apply stop_run | split; [| apply close_run]].
  intros c tag. destruct (stop_run c) as [_ H].
  destruct (channel (self c)).
  - destruct H as (raised & -> & _). split; reflexivity.
  - destruct H as [-> _]. split; reflexivity.
Qed.
End ShutdownClaims.

(** [stop] neither settles nor closes.  When the loop has ended on the
    five sample deliveries, the fifth has been handed to the callback and
    has no outcome.  [stop] then returns normally; its only call is
    [stop_consuming]; the fifth delivery is still without outcome, and the
    connection is still open. *)
Lemma stop_neither_settles_nor_closes :
  BasicConsumer.message_count (self Demo.abandoned) = 5
  /\ outcomes 5 (calls Demo.abandoned) = []
  /\ fst (@BasicConsumer.stop Reference.quiet Demo.abandoned) = inr tt
  /\ issued Demo.abandoned
            (snd (@BasicConsumer.stop Reference.quiet Demo.abandoned))
     = [ev StopConsuming None]
  /\ outcomes 5
       (calls (snd (@BasicConsumer.stop Reference.quiet Demo.abandoned)))
     = []
  /\ existsb is_close
       (map ev_op
            (issued Demo.abandoned
                    (snd (@BasicConsumer.stop Reference.quiet
                            Demo.abandoned))))
     = false
  /\ Reference.closed
       (world (snd (@BasicConsumer.stop Reference.quiet Demo.abandoned)))
     = false.
Proof. vm_compute. repeat split. Qed.

(** [close] on a connected consumer closes the connection. *)
Lemma stop_then_close_witness :
  exists raised,
    issued Demo.quiet_consumer
           (snd (@BasicConsumer.close Reference.quiet Demo.quiet_consumer))
    = [ev StopConsuming None; ev ConnectionClose raised].
Proof.
  apply (proj2 (proj2 (@stop_then_close Reference.quiet))
               Demo.quiet_consumer);
    reflexivity.
Defined.


(** ** The publishers *)

Section ProducerClaims.
Context {R : Runtime}.

Lemma truthy_or_else mid :
  truthy mid = true -> or_else mid "" <> "" /\ mid = Some (or_else mid "").
Proof.
  destruct mid as [[| a s] |]; simpl; intros H; try discriminate.
  split; [discriminate | reflexivity].
Qed.

Lemma basic_choose mid b (c : cfg BasicProducer.t) :
  exists chosen c1,
    BasicProducer.choose_message_id mid b c = (inr chosen, c1)
    /\ self c1 = self c /\ calls c1 = calls c
    /\ chosen <> "" /\ (truthy mid = true -> mid = Some chosen).
Proof.
  unfold BasicProducer.choose_message_id. destruct (truthy mid) eqn:T.
  - exists (or_else mid ""), c. destruct (truthy_or_else mid T) as [H1 H2].
    repeat split; auto.
  - rewrite bind_now. eexists _, _. split; [reflexivity |].
    repeat split; [discriminate | discriminate].
Qed.

Lemma topic_choose mid b (c : cfg TopicProducer.t) :
  exists chosen c1,
    TopicProducer.choose_message_id mid b c = (inr chosen, c1)
    /\ self c1 = self c /\ calls c1 = calls c
    /\ chosen <> "" /\ (truthy mid = true -> mid = Some chosen).
Proof.
  unfold TopicProducer.choose_message_id. destruct (truthy mid) eqn:T.
  - exists (or_else mid ""), c. destruct (truthy_or_else mid T) as [H1 H2].
    repeat split; auto.
  - rewrite bind_now. eexists _, _. split; [reflexivity |].
    repeat split; [discriminate | discriminate].
Qed.

(** The rest of a [send_message] once the id is chosen: one publish call,
    whose failure is logged and raised again. *)
Ltac publish_and_log Hs Hc Hne Hsup :=
  rewrite bind_get_self;
  right;
  match goal with
  | |- context [bind (call ?o) _ ?cx] =>
    let raised := fresh "raised" in
    let Hcall := fresh "Hcall" in
    let Hr := fresh "Hr" in
    let Ecall := fresh "Ecall" in
    destruct (call_calls o cx) as [raised [Hcall Hr]];
    destruct (call o cx) as [[? | []] ?] eqn:Ecall;
    cbn [fst snd] in Hcall, Hr;
    first [ rewrite (bind_raised _ Ecall)
          | rewrite (bind_returned _ Ecall) ];
    destruct raised; try discriminate; try (inversion Hr; subst);
    unfold Logger.log_message_sent, Logger.info, Logger.error;
    cbn [is_Exception];
    repeat rewrite bind_emit by reflexivity;
    rewrite ?emit_plain by reflexivity;
    cbn [is_Exception raise fst snd calls noted];
    rewrite Hs in *; rewrite Hc in Hcall;
    do 3 eexists;
    (split; [apply issued_app; exact Hcall |]);
    (split; [| reflexivity]);
    (split; [reflexivity | split; [reflexivity |]]);
    (eexists; split; [reflexivity | split; assumption])
  end.

Lemma basic_send_shape message mid (c : cfg BasicProducer.t) :
  (issued c (snd (BasicProducer.send_message message mid c)) = []
   /\ exists e, fst (BasicProducer.send_message message mid c) = inl e)
  \/ exists b props raised,
      issued c (snd (BasicProducer.send_message message mid c))
      = [ev (BasicPublish "" (BasicProducer.queue_name (self c)) b props)
            raised]
      /\ wire_ok (fst (time_time (world c))) mid props
      /\ fst (BasicProducer.send_message message mid c)
         = match raised with
           | None => inr tt
           | Some cls => inl (AMQPError cls)
           end.
Proof.
  unfold BasicProducer.send_message. rewrite bind_get_self.
  destruct (BasicProducer.channel (self c)).
  2: { left. split; [apply issued_same; reflexivity | eexists; reflexivity]. }
  unfold try_except.
  destruct (json_dumps message) as [e | payload].
  { rewrite bind_lift_inl. left. unfold Logger.error.
    destruct (is_Exception e); rewrite ?bind_emit by reflexivity;
      (split; [apply issued_same; reflexivity | eexists; reflexivity]). }
  rewrite bind_lift_inr, bind_now.
  match goal with
  | |- context [bind (BasicProducer.choose_message_id ?i ?x) _ ?cx] =>
    destruct (basic_choose i x cx) as (chosen & c1 & E & Hs & Hc & Hne & Hsup)
  end.
  rewrite (bind_returned _ E). cbv zeta. cbn [self calls] in Hs, Hc.
  publish_and_log Hs Hc Hne Hsup.
Qed.

Lemma topic_send_shape key message mid (c : cfg TopicProducer.t) :
  (issued c (snd (TopicProducer.send_message key message mid c)) = []
   /\ exists e, fst (TopicProducer.send_message key message mid c) = inl e)
  \/ exists b props raised,
      issued c (snd (TopicProducer.send_message key message mid c))
      = [ev (BasicPublish (TopicProducer.exchange_name (self c)) key b props)
            raised]
      /\ wire_ok (fst (time_time (world c))) mid props
      /\ fst (TopicProducer.send_message key message mid c)
         = match raised with
           | None => inr tt
           | Some cls => inl (AMQPError cls)
           end.
Proof.
  unfold TopicProducer.send_message. rewrite bind_get_self.
  destruct (TopicProducer.channel (self c)).
  2: { left. split; [apply issued_same; reflexivity | eexists; reflexivity]. }
  unfold try_except.
  destruct (json_dumps message) as [e | payload].
  { rewrite bind_lift_inl. left. unfold Logger.error.
    destruct (is_Exception e); rewrite ?bind_emit by reflexivity;
      (split; [apply issued_same; reflexivity | eexists; reflexivity]). }
  rewrite bind_lift_inr, bind_now.
  match goal with
  | |- context [bind (TopicProducer.choose_message_id ?i ?x) _ ?cx] =>
    destruct (topic_choose i x cx) as (chosen & c1 & E & Hs & Hc & Hne & Hsup)
  end.
  rewrite (bind_returned _ E). cbv zeta. cbn [self calls] in Hs, Hc.
  publish_and_log Hs Hc Hne Hsup.
Qed.

(** C6.  When the publish call of [send_message] fails, [send_message]
    raises that very error to its caller, and the publish call was issued
    once: the failure is neither swallowed nor retried. *)
Theorem publish_failure_is_raised message mid c exchange key b props cls :
  In (ev (BasicPublish exchange key b props) (Some cls))
     (issued c (snd (BasicProducer.send_message message mid c))) ->
  fst (BasicProducer.send_message message mid c) = inl (AMQPError cls)
  /\ List.length
       (published (issued c (snd (BasicProducer.send_message message mid c))))
     = 1%nat.
Proof.
  intros Hin.
  destruct (basic_send_shape message mid c)
    as [[Hnone _] | (b' & props' & raised & Hone & _ & Hr)].
  - rewrite Hnone in Hin. destruct Hin.
  - rewrite Hone in Hin |- *. destruct Hin as [Heq | []].
    inversion Heq; subst. split; [assumption | reflexivity].
Qed.

(** The same for the topic publisher. *)
Lemma topic_publish_failure_is_raised key' message mid c exchange key b
      props cls :
  In (ev (BasicPublish exchange key b props) (Some cls))
     (issued c (snd (TopicProducer.send_message key' message mid c))) ->
  fst (TopicProducer.send_message key' message mid c) = inl (AMQPError cls).
Proof.
  intros Hin.
  destruct (topic_send_shape key' message mid c)
    as [[Hnone _] | (b' & props' & raised & Hone & _ & Hr)].
  - rewrite Hnone in Hin. destruct Hin.
  - rewrite Hone in Hin. destruct Hin as [Heq | []].
    inversion Heq; subst. assumption.
Qed.

(** C7.  Every message either publisher hands to pika carries
    [delivery_mode = 2], as [timestamp] the whole seconds read from the
    clock when the properties are built, and a non-empty [message_id],
    which is the caller's whenever the caller gave a non-empty one. *)
Theorem published_properties :
  (forall message mid (c : cfg BasicProducer.t),
      Forall (wire_ok (fst (time_time (world c))) mid)
             (published
                (issued c (snd (BasicProducer.send_message message mid c)))))
  /\ (forall key message mid (c : cfg TopicProducer.t),
        Forall (wire_ok (fst (time_time (world c))) mid)
               (published
                  (issued c
                     (snd (TopicProducer.send_message key message mid c))))).
Proof.
  split.
  - intros message mid c.
    destruct (basic_send_shape message mid c)
      as [[Hnone _] | (b & props & raised & Hone & Hw & _)].
    + rewrite Hnone. constructor.
    + rewrite Hone. simpl. constructor; [assumption | constructor].
  - intros key message mid c.
    destruct (topic_send_shape key message mid c)
      as [[Hnone _] | (b & props & raised & Hone & Hw & _)].
    + rewrite Hnone. constructor.
    + rewrite Hone. simpl. constructor; [assumption | constructor].
Qed.
End ProducerClaims.

(** A broker that cannot be reached. *)
Lemma publish_failure_is_raised_witness :
  fst (@BasicProducer.send_message Reference.runtime
         (JDict [("id", JInt 1); ("type", JStr "greeting")]) None
         (Demo.producer false))
  = inl (AMQPError "AMQPConnectionError").
Proof.
  eapply proj1.
  eapply (@publish_failure_is_raised Reference.runtime
            (JDict [("id", JInt 1); ("type", JStr "greeting")]) None
            (Demo.producer false)).
  vm_compute. left. reflexivity.
Defined.

(** What the publishers put on the wire for one sample message each. *)
Example basic_producer_publishes :
  published
    (issued (Demo.producer true)
       (snd (@BasicProducer.send_message Reference.runtime
               (JDict [("id", JInt 1); ("type", JStr "greeting")]) None
               (Demo.producer true))))
  = [{| delivery_mode := Some 2; timestamp := Some 1759320000;
        message_id := Some "msg-1759320001-995" |}].
Proof. vm_compute. reflexivity. Qed.

Example topic_producer_publishes :
  map ev_op
    (issued Demo.topic_producer
       (snd (@TopicProducer.send_analytics_message Reference.runtime
               "user" "login" "web" (JInt 1) Demo.topic_producer)))
  = [BasicPublish "python_topic_exchange" "analytics.user.login"
       (Demo.quoted "{'category': 'user', 'action': 'login', 'label': 'web', 'value': 1, 'timestamp': '2025-10-01 12:00:00', 'id': 'analytics-1759320000'}")
       {| delivery_mode := Some 2; timestamp := Some 1759320001;
          message_id := Some "analytics-user-login" |}].
Proof. vm_compute. reflexivity. Qed.

(** ** Routing keys *)

Section MatcherClaims.
Import RoutingKeyMatcher.

Lemma walk_literals pattern : forall segments,
  literal_only pattern = true ->
  (walk pattern segments = true <-> pattern = map Literal segments).
Proof.
  induction pattern as [| seg pattern IH]; intros segments Hlit.
  - destruct segments; simpl; split; intros H; try reflexivity;
      discriminate.
  - destruct seg as [text | |]; simpl in Hlit; try discriminate.
    destruct segments as [| s segments]; simpl.
    + split; intros H; discriminate.
    + rewrite andb_true_iff, String.eqb_eq, (IH segments Hlit).
      split.
      * intros [-> ->]. reflexivity.
      * intros H. inversion H; subst. split; reflexivity.
Qed.

(** C8.  A pattern made of literal segments only matches a key exactly
    when it is the sequence of the key's segments, the key being split on
    the dots. *)
Theorem literal_pattern_matches_exactly pattern key :
  literal_only pattern = true ->
  (matches pattern key = true <-> pattern = map Literal (split_key key)).
Proof. intros Hlit. unfold matches. apply walk_literals. assumption. Qed.

(** The matches the specification lists. *)
Example matches_star_star_two : matches [Star; Star] "a.b" = true.
Proof. reflexivity. Qed.

Example matches_star_star_three : matches [Star; Star] "a.b.c" = false.
Proof. reflexivity. Qed.

Example matches_hash_any : matches [Hash] "a.b.c" = true.
Proof. reflexivity. Qed.

Example matches_hash_empty_tail : matches [Literal "a"; Hash] "a" = true.
Proof. reflexivity. Qed.

Example matches_literal_mismatch : matches [Literal "a"; Hash] "b.c" = false.
Proof. reflexivity. Qed.
End MatcherClaims.

(** A routing key of [topic_producer.py] against its own segments. *)
Lemma literal_pattern_matches_exactly_witness :
  RoutingKeyMatcher.matches
    [RoutingKeyMatcher.Literal "user"; RoutingKeyMatcher.Literal "create";
     RoutingKeyMatcher.Literal "account"]
    "user.create.account"
  = true.
Proof.
  apply (proj2 (@literal_pattern_matches_exactly
                  [RoutingKeyMatcher.Literal "user";
                   RoutingKeyMatcher.Literal "create";
                   RoutingKeyMatcher.Literal "account"]
                  "user.create.account" eq_refl)).
  reflexivity.
Defined.

(** ** More on the consumer *)

Section ConsumerRuns.
Context {R : Runtime}.
Import BasicConsumer.

(** All that one callback can issue, with what it then returns. *)
Lemma handle_message_calls m p body c :
  (calls (snd (handle_message m p body c)) = calls c
   /\ exists e, fst (handle_message m p body c) = inl e)
  \/ (exists raised,
        calls (snd (handle_message m p body c))
        = (calls c ++ [ev (BasicNack (delivery_tag m) false) raised])%list
        /\ fst (handle_message m p body c)
           = match raised with
             | None => inr tt
             | Some cls => inl (AMQPError cls)
             end)
  \/ (exists raised,
        calls (snd (handle_message m p body c))
        = (calls c ++ [ev (BasicAck (delivery_tag m)) raised])%list
        /\ fst (handle_message m p body c)
           = match raised with
             | None => inr tt
             | Some cls => inl not_callable
             end).
Proof.
  rewrite handle_message_unfold. unfold try_except.
  destruct (attempt_shape m body (received c))
    as [[Hc [e He]] | [raised [Hc Hr]]];
    destruct (attempt m body (received c)) as [[e' | []] c1];
    cbn [fst snd] in *; change (calls (received c)) with (calls c) in Hc.
  - inversion He; subst. destruct (is_Exception e) eqn:Hex.
    + destruct (is_JSONDecodeError e) eqn:Hj.
      * right. left. rewrite on_failure_decode by assumption.
        match goal with
        | |- context [call ?o ?cx] =>
          destruct (call_calls o cx) as [raised [H Hr]]
        end.
        cbn [calls noted] in H. exists raised. split; [congruence | assumption].
      * left. rewrite on_failure_general by assumption. cbn [fst snd calls noted].
        split; [assumption | eexists; reflexivity].
    + left. cbn [fst snd]. split; [assumption | eexists; reflexivity].
  - discriminate.
  - destruct raised as [cls |]; [| discriminate]. inversion Hr; subst.
    right. right. exists (Some cls). cbn [is_Exception].
    rewrite on_failure_general by reflexivity. cbn [fst snd calls noted].
    split; [assumption | reflexivity].
  - right. right. exists raised. cbn [fst snd].
    destruct raised; [discriminate |]. split; [assumption | reflexivity].
Qed.

(** X3.  Whatever the payload and the redelivery flag, the only calls a
    callback issues are [basic_ack] and [basic_nack(requeue=False)] under
    the tag of the delivery it was given: the consumer never asks the
    broker to requeue, and never settles another delivery. *)
Theorem callback_never_requeues m p body c :
  Forall (fun e => ev_op e = BasicAck (delivery_tag m)
                   \/ ev_op e = BasicNack (delivery_tag m) false)
         (issued c (snd (handle_message m p body c))).
Proof.
  destruct (handle_message_calls m p body c)
    as [[Hc _] | [[raised [Hc _]] | [raised [Hc _]]]].
  - rewrite (issued_same Hc). constructor.
  - rewrite (issued_app Hc).
    constructor; [right; reflexivity | constructor].
  - rewrite (issued_app Hc).
    constructor; [left; reflexivity | constructor].
Qed.

Lemma handle_message_returned m p body c :
  fst (handle_message m p body c) = inr tt ->
  exists e,
    calls (snd (handle_message m p body c)) = (calls c ++ [e])%list
    /\ ev_raised e = None
    /\ (ev_op e = BasicAck (delivery_tag m)
        \/ ev_op e = BasicNack (delivery_tag m) false).
Proof.
  intros Hr.
  destruct (handle_message_calls m p body c)
    as [[_ [e He]] | [[raised [Hc Hf]] | [raised [Hc Hf]]]].
  - congruence.
  - rewrite Hr in Hf. destruct raised; [discriminate |].
    eexists. split; [exact Hc |]. split; [reflexivity | right; reflexivity].
  - rewrite Hr in Hf. destruct raised; [discriminate |].
    eexists. split; [exact Hc |]. split; [reflexivity | left; reflexivity].
Qed.

Lemma dispatch_settles deliveries : forall c,
  fst (dispatch deliveries c) = inr tt ->
  exists evs,
    calls (snd (dispatch deliveries c)) = (calls c ++ evs)%list
    /\ Forall2 settled deliveries evs.
Proof.
  induction deliveries as [| d rest IH]; intros c Hr.
  - exists []. split; [simpl; rewrite app_nil_r; reflexivity | constructor].
  - simpl in Hr |- *. unfold bind in Hr |- *.
    pose proof (handle_message_returned (method d) (properties d) (body d) c)
      as Hd.
    destruct (handle_message (method d) (properties d) (body d) c)
      as [[e | []] c1]; [discriminate |].
    destruct (Hd eq_refl) as (e & Hc & Hok & Hop). cbn [snd] in Hc.
    destruct (IH c1 Hr) as (evs & Hcs & Hall).
    exists (e :: evs). split.
    + rewrite Hcs, Hc, <- app_assoc. reflexivity.
    + constructor; [split; assumption | assumption].
Qed.

(** X10.  When the consume loop returns normally, the calls it issued
    are, in delivery order, one call per delivery, each one a [basic_ack]
    or a [basic_nack(requeue=False)] under that delivery's tag, and each
    one returned. *)
Theorem loop_settles_in_order deliveries c :
  fst (dispatch deliveries c) = inr tt ->
  Forall2 settled deliveries (issued c (snd (dispatch deliveries c))).
Proof.
  intros Hr. destruct (dispatch_settles deliveries c Hr) as (evs & Hc & H).
  rewrite (issued_app Hc). assumption.
Qed.
End ConsumerRuns.

(** The first four sample messages with [LOG_LEVEL=WARNING], all
    acknowledged. *)
Lemma loop_settles_in_order_witness :
  Forall2 settled Demo.first_four
          (issued Demo.quiet_consumer
                  (snd (@BasicConsumer.dispatch Reference.quiet
                          Demo.first_four Demo.quiet_consumer))).
Proof.
  apply (@loop_settles_in_order Reference.quiet Demo.first_four
                                Demo.quiet_consumer).
  vm_compute. reflexivity.
Defined.

(** ** More on the handler *)

Section HandlerRuns.
Context {R : Runtime}.
Import BasicConsumer.

(** What the handler returns on a [dict] whose type is a string: the
    error of its first log call when INFO is enabled, since [extra] has
    the key [message]; otherwise what the type and the text decide. *)
Lemma process_message_str_type items ty c :
  message_type items = JStr ty ->
  fst (process_message (JDict items) c)
  = if Logger.enabled INFO then inl (overwrite "message")
    else if String.eqb ty "system" then
      match py_get (JDict items) "message" (JStr "") with
      | inr (JStr s) =>
        if contains "backup" (str_lower s) then
          if message_count (self c) mod 5 =? 0
          then inl (PyException "Simulated backup failure")
          else inr tt
        else inr tt
      | inr _ => inl (AttributeError "object has no attribute 'lower'")
      | inl e => inl e
      end
    else inr tt.
Proof.
  intros Ht. unfold process_message, Logger.info. cbn [py_get].
  fold (message_type items). rewrite Ht.
  rewrite bind_lift_inr. unfold processing_time. cbn [hashable eq_str].
  repeat rewrite bind_lift_inr.
  rewrite bind_emit_reserved with (key := "message") by reflexivity.
  destruct (Logger.enabled INFO); [reflexivity |].
  rewrite bind_sleep.
  unfold bind, lift, get_self, ret, raise. cbn [fst snd self].
  destruct (String.eqb ty "system");
    [| rewrite emit_plain by reflexivity; reflexivity].
  destruct (items_get items "message") as [[] |]; cbn; try reflexivity;
    match goal with
    | |- context [contains "backup" ?x] => destruct (contains "backup" x)
    end; try reflexivity;
    try (destruct (message_count (self c) mod 5 =? 0); try reflexivity);
    rewrite emit_plain by reflexivity; reflexivity.
Qed.


(** X5.  The handler settles nothing: [process_message] issues no call
    to the broker and leaves every field of the consumer as it was,
    whether it returns or raises. *)
Theorem handler_decides_nothing d c :
  self (snd (process_message d c)) = self c
  /\ issued c (snd (process_message d c)) = [].
Proof.
  split; [apply process_message_self |].
  apply issued_same. apply process_message_calls.
Qed.

(** X6.  On a message whose type is a string other than [system], or
    that has no type at all, the result of [process_message] depends on
    the log level alone, whatever the other fields and however many
    deliveries came before: with INFO enabled, as by default, it raises
    the [KeyError] of its first log call, whose [extra] has the key
    [message]; with INFO disabled it returns normally. *)
Theorem other_types_follow_log_level items ty c :
  message_type items = JStr ty ->
  ty <> "system" ->
  fst (process_message (JDict items) c)
  = if Logger.enabled INFO then inl (overwrite "message") else inr tt.
Proof.
  intros Ht Hne. rewrite (@process_message_str_type items ty c Ht).
  destruct (String.eqb ty "system") eqn:E; [| reflexivity].
  apply String.eqb_eq in E. contradiction.
Qed.


Lemma attempt_not_dict m body text data c :
  bytes_decode body = inr text ->
  json_loads text = inr data ->
  is_dict data = false ->
  exists e,
    fst (attempt m body c) = inl e /\ handler_error e = true
    /\ calls (snd (attempt m body c)) = calls c.
Proof.
  intros Hd Hj Hn. unfold attempt, Logger.log_message_received, Logger.info.
  rewrite Hd, bind_lift_inr, Hj, bind_lift_inr, bind_strftime.
  rewrite bind_emit by reflexivity.
  destruct data; try discriminate; cbn [py_get]; rewrite bind_lift_inl;
    eexists; (split; [reflexivity | split; reflexivity]).
Qed.

(** X4.  A payload that is valid JSON but not an object (a list, a
    number, a string, [null]) is never settled: [handle_message] issues
    neither ack nor nack and raises. *)
Theorem non_object_payload_not_settled m p body text data c :
  bytes_decode body = inr text ->
  json_loads text = inr data ->
  is_dict data = false ->
  fst (handle_message m p body c) = inl not_callable
  /\ issued c (snd (handle_message m p body c)) = [].
Proof.
  intros Hd Hj Hn. rewrite handle_message_unfold. unfold try_except.
  destruct (@attempt_not_dict m body text data (received c) Hd Hj Hn)
    as (e & He & Hh & Hc).
  destruct (attempt m body (received c)) as [[e' | []] c1];
    cbn [fst snd] in *; [| discriminate].
  inversion He; subst. apply andb_prop in Hh as [Hex Hnj].
  rewrite Hex. rewrite on_failure_general.
  - split; [reflexivity | apply issued_same; assumption].
  - destruct (is_JSONDecodeError e); [discriminate | reflexivity].
Qed.

(** X1.  A payload that is valid UTF-8 but not JSON is rejected once,
    without requeue, for either value of the redelivery flag;
    [handle_message] returns normally when that [basic_nack] does and
    raises its error otherwise. *)
Theorem invalid_json_rejected_once m p body text msg c :
  bytes_decode body = inr text ->
  json_loads text = inl (JSONDecodeError msg) ->
  exists raised,
    issued c (snd (handle_message m p body c))
    = [ev (BasicNack (delivery_tag m) false) raised]
    /\ fst (handle_message m p body c)
       = match raised with
         | None => inr tt
         | Some cls => inl (AMQPError cls)
         end.
Proof.
  intros Hd Hj.
  destruct (@handle_message_invalid_json R m p body text msg c Hd Hj)
    as [raised [Hc Hr]].
  exists raised. split; [apply issued_app; assumption | assumption].
Qed.

(** X2.  When the payload decodes to an object and the handler returns,
    which it only does with INFO disabled, the delivery is acknowledged
    once under its own tag.  If that [basic_ack] raises, no nack follows:
    [handle_message] raises. *)
Theorem handled_message_acked_once m p body text items c :
  bytes_decode body = inr text ->
  json_loads text = inr (JDict items) ->
  fst (process_message (JDict items) (received c)) = inr tt ->
  exists raised,
    issued c (snd (handle_message m p body c))
    = [ev (BasicAck (delivery_tag m)) raised]
    /\ fst (handle_message m p body c)
       = match raised with
         | None => inr tt
         | Some cls => inl not_callable
         end.
Proof.
  intros Hd Hj He. rewrite handle_message_unfold. unfold try_except.
  destruct (@attempt_decoded R m body text items (received c) Hd Hj)
    as [_ H].
  rewrite He in H. destruct H as [raised [Hc Hr]]. exists raised.
  destruct (attempt m body (received c)) as [[e' | []] c1];
    cbn [fst snd] in *.
  - destruct raised as [cls |]; [| discriminate].
    inversion Hr; subst. cbn [is_Exception].
    rewrite on_failure_general by reflexivity. cbn [fst snd].
    split; [apply issued_app; assumption | reflexivity].
  - destruct raised; [discriminate |].
    split; [apply issued_app; assumption | reflexivity].
Qed.
End HandlerRuns.

(** A message with no type, as the first delivery, with
    [LOG_LEVEL=WARNING]. *)
Lemma other_types_follow_log_level_witness :
  fst (@BasicConsumer.process_message Reference.quiet
         (JDict [("id", JInt 7); ("message", JStr "backup now")])
         (received Demo.quiet_consumer))
  = inr tt.
Proof.
  apply (@other_types_follow_log_level Reference.quiet
           [("id", JInt 7); ("message", JStr "backup now")] "unknown"
           (received Demo.quiet_consumer)).
  - reflexivity.
  - discriminate.
Defined.

(** The same message with the defaults of [config.py]. *)
Example other_types_fail_by_default :
  fst (@BasicConsumer.process_message Reference.runtime
         (JDict [("id", JInt 7); ("message", JStr "backup now")])
         (received Demo.consumer))
  = inl (KeyError "Attempt to overwrite 'message' in LogRecord").
Proof. vm_compute. reflexivity. Qed.


(** The body [[1, 2]]. *)
Lemma non_object_payload_not_settled_witness :
  fst (@BasicConsumer.handle_message Reference.runtime
         (method (Demo.delivery 1 "")) (properties (Demo.delivery 1 ""))
         "[1, 2]" Demo.consumer)
  = inl not_callable
  /\ issued Demo.consumer
       (snd (@BasicConsumer.handle_message Reference.runtime
               (method (Demo.delivery 1 "")) (properties (Demo.delivery 1 ""))
               "[1, 2]" Demo.consumer))
     = [].
Proof.
  apply (@non_object_payload_not_settled Reference.runtime
           (method (Demo.delivery 1 "")) (properties (Demo.delivery 1 ""))
           "[1, 2]" "[1, 2]" (JList [JInt 1; JInt 2]) Demo.consumer).
  - reflexivity.
  - vm_compute. reflexivity.
  - reflexivity.
Defined.

(** The body [{bad], on a redelivery. *)
Lemma invalid_json_rejected_once_witness :
  exists raised,
    issued Demo.consumer
      (snd (@BasicConsumer.handle_message Reference.runtime
              {| delivery_tag := 3; redelivered := true |}
              (properties (Demo.delivery 3 "")) "{bad" Demo.consumer))
    = [ev (BasicNack 3 false) raised]
    /\ fst (@BasicConsumer.handle_message Reference.runtime
              {| delivery_tag := 3; redelivered := true |}
              (properties (Demo.delivery 3 "")) "{bad" Demo.consumer)
       = match raised with
         | None => inr tt
         | Some cls => inl (AMQPError cls)
         end.
Proof.
  apply (@invalid_json_rejected_once Reference.runtime
           {| delivery_tag := 3; redelivered := true |}
           (properties (Demo.delivery 3 "")) "{bad" "{bad" "Expecting value"
           Demo.consumer).
  - reflexivity.
  - vm_compute. reflexivity.
Defined.

(** The first sample message, as the first delivery, with
    [LOG_LEVEL=WARNING]. *)
Lemma handled_message_acked_once_witness :
  exists raised,
    issued Demo.quiet_consumer
      (snd (@BasicConsumer.handle_message Reference.quiet
              (method (Demo.delivery 1 "")) (properties (Demo.delivery 1 ""))
              (nth 0 Demo.bodies "") Demo.quiet_consumer))
    = [ev (BasicAck 1) raised]
    /\ fst (@BasicConsumer.handle_message Reference.quiet
              (method (Demo.delivery 1 "")) (properties (Demo.delivery 1 ""))
              (nth 0 Demo.bodies "") Demo.quiet_consumer)
       = match raised with
         | None => inr tt
         | Some cls => inl not_callable
         end.
Proof.
  apply (@handled_message_acked_once Reference.quiet
           (method (Demo.delivery 1 "")) (properties (Demo.delivery 1 ""))
           (nth 0 Demo.bodies "") (nth 0 Demo.bodies "")
           [("id", JInt 1); ("type", JStr "greeting");
            ("message", JStr "Hello RabbitMQ from Python!");
            ("timestamp", JStr "2025-10-01 12:00:00")]
           Demo.quiet_consumer).
  - reflexivity.
  - vm_compute. reflexivity.
  - vm_compute. reflexivity.
Defined.

(** ** Connecting *)

Section ConnectRuns.
Context {R : Runtime}.

(** Unfold a [connect] and split on what each pika call does and on
    the log levels. *)
Ltac run_connect :=
  cbv [try_except Logger.info Logger.error Logger.log_connection
       Logger.log_queue_declared Logger.log_exchange_declared
       Logger.warning Logger.emit bind log call get_self set_self ret
       raise];
  simpl;
  repeat match goal with
         | |- context [pika ?o ?w] =>
           destruct (pika o w) as [[? | []] ?]; simpl
         | |- context [Logger.enabled ?l] =>
           destruct (Logger.enabled l); simpl
         end.

(** Read the calls off the result of a [connect]. *)
Ltac connect_calls :=
  first [ erewrite issued_4 by reflexivity
        | erewrite issued_3 by reflexivity
        | erewrite issued_2 by reflexivity
        | erewrite issued_1 by reflexivity ];
  simpl; repeat split; try lia; try discriminate;
  first [ left; eexists; repeat split; reflexivity
        | right; repeat split; reflexivity
        | idtac ].

(** X8.  [BasicConsumer.connect] issues its calls in source order
    (connection, channel, queue declaration, prefetch) and stops at the
    first one that raises, whose error it raises.  With INFO enabled, as
    by default, it never returns normally and never sets the prefetch:
    once the queue is declared, [log_queue_declared] raises the
    [KeyError] of the key [name], which [connect] raises in its turn.
    With INFO disabled it returns normally exactly when all four calls
    returned.  The [connection] and [channel] fields are set exactly
    when the call that creates them returned, also when [connect]
    raises. *)
Theorem consumer_connect_trace (c : cfg BasicConsumer.t) :
  map ev_op (issued c (snd (BasicConsumer.connect c)))
  = firstn (List.length (issued c (snd (BasicConsumer.connect c))))
           (consumer_connect_calls (BasicConsumer.queue_name (self c)))
  /\ match fst (BasicConsumer.connect c) with
     | inr _ =>
       Logger.enabled INFO = false
       /\ List.length (issued c (snd (BasicConsumer.connect c))) = 4%nat
       /\ stops_at None (issued c (snd (BasicConsumer.connect c)))
     | inl e =>
       (exists cls,
           e = AMQPError cls
           /\ stops_at (Some cls) (issued c (snd (BasicConsumer.connect c))))
       \/ (Logger.enabled INFO = true
           /\ e = overwrite "name"
           /\ List.length (issued c (snd (BasicConsumer.connect c)))
              = 3%nat
           /\ stops_at None (issued c (snd (BasicConsumer.connect c))))
     end
  /\ (if Logger.enabled INFO
      then (List.length (issued c (snd (BasicConsumer.connect c)))
            <= 3)%nat
      else True)
  /\ BasicConsumer.connection (self (snd (BasicConsumer.connect c)))
     = match issued c (snd (BasicConsumer.connect c)) with
       | [] => BasicConsumer.connection (self c)
       | e :: _ =>
         match ev_raised e with
         | None => Some TheConnection
         | Some _ => BasicConsumer.connection (self c)
         end
       end
  /\ BasicConsumer.channel (self (snd (BasicConsumer.connect c)))
     = match issued c (snd (BasicConsumer.connect c)) with
       | _ :: e :: _ =>
         match ev_raised e with
         | None => Some TheChannel
         | Some _ => BasicConsumer.channel (self c)
         end
       | _ => BasicConsumer.channel (self c)
       end.
Proof.
  cbv [BasicConsumer.connect BasicConsumer.update].
  run_connect; connect_calls.
Qed.

(** X9.  The producers' [connect] issue their three calls in source
    order (connection, channel, then the queue or the exchange
    declaration) and stop at the first one that raises, whose error they
    raise.  With INFO enabled, as by default, they never return
    normally: once the three calls returned, [log_queue_declared] and
    [log_exchange_declared] raise the [KeyError] of the key [name], with
    the channel set.  With INFO disabled they return normally exactly
    when the three calls returned. *)
Theorem producer_connect_trace :
  (forall c : cfg BasicProducer.t,
      map ev_op (issued c (snd (BasicProducer.connect c)))
      = firstn (List.length (issued c (snd (BasicProducer.connect c))))
               (producer_connect_calls (BasicProducer.queue_name (self c)))
      /\ match fst (BasicProducer.connect c) with
         | inr _ =>
           Logger.enabled INFO = false
           /\ List.length (issued c (snd (BasicProducer.connect c)))
              = 3%nat
           /\ stops_at None (issued c (snd (BasicProducer.connect c)))
           /\ BasicProducer.channel (self (snd (BasicProducer.connect c)))
              = Some TheChannel
         | inl e =>
           (exists cls,
               e = AMQPError cls
               /\ stops_at (Some cls)
                           (issued c (snd (BasicProducer.connect c))))
           \/ (Logger.enabled INFO = true
               /\ e = overwrite "name"
               /\ List.length (issued c (snd (BasicProducer.connect c)))
                  = 3%nat
               /\ stops_at None (issued c (snd (BasicProducer.connect c)))
               /\ BasicProducer.channel
                    (self (snd (BasicProducer.connect c)))
                  = Some TheChannel)
         end)
  /\ (forall c : cfg TopicProducer.t,
        map ev_op (issued c (snd (TopicProducer.connect c)))
        = firstn (List.length (issued c (snd (TopicProducer.connect c))))
                 (topic_connect_calls
                    (TopicProducer.exchange_name (self c))
                    (TopicProducer.exchange_type (self c)))
        /\ match fst (TopicProducer.connect c) with
           | inr _ =>
             Logger.enabled INFO = false
             /\ List.length (issued c (snd (TopicProducer.connect c)))
                = 3%nat
             /\ stops_at None (issued c (snd (TopicProducer.connect c)))
             /\ TopicProducer.channel (self (snd (TopicProducer.connect c)))
                = Some TheChannel
           | inl e =>
             (exists cls,
                 e = AMQPError cls
                 /\ stops_at (Some cls)
                             (issued c (snd (TopicProducer.connect c))))
             \/ (Logger.enabled INFO = true
                 /\ e = overwrite "name"
                 /\ List.length (issued c (snd (TopicProducer.connect c)))
                    = 3%nat
                 /\ stops_at None
                              (issued c (snd (TopicProducer.connect c)))
                 /\ TopicProducer.channel
                      (self (snd (TopicProducer.connect c)))
                    = Some TheChannel)
           end).
Proof.
  split; intros c.
  - cbv [BasicProducer.connect BasicProducer.update].
    run_connect; connect_calls.
  - cbv [TopicProducer.connect TopicProducer.update].
    run_connect; connect_calls.
Qed.
End ConnectRuns.

(** ** The consume loop, shutdown and exit status *)

Section LoopRuns.
Context {R : Runtime}.
Import BasicConsumer.

Lemma dispatch_calls deliveries : forall c,
  exists evs,
    calls (snd (dispatch deliveries c)) = (calls c ++ evs)%list
    /\ Forall settles evs
    /\ (fst (dispatch deliveries c) = inr tt \/ exists e,
           fst (dispatch deliveries c) = inl e).
Proof.
  induction deliveries as [| d rest IH]; intros c.
  - exists []. simpl. rewrite app_nil_r. repeat split; auto.
  - simpl. unfold bind.
    pose proof (handle_message_calls (method d) (properties d) (body d) c)
      as H.
    destruct (handle_message (method d) (properties d) (body d) c)
      as [[e | []] c1]; cbn [fst snd] in H |- *.
    + destruct H as [[Hc _] | [[raised [Hc _]] | [raised [Hc _]]]].
      * exists []. rewrite app_nil_r. repeat split; eauto.
      * eexists. split; [exact Hc |]. split; [| eauto].
        constructor; [| constructor]. eexists. right. reflexivity.
      * eexists. split; [exact Hc |]. split; [| eauto].
        constructor; [| constructor]. eexists. left. reflexivity.
    + destruct (IH c1) as (evs & Hcs & Hall & Hres).
      destruct H as [[_ [e He]] | [[raised [Hc _]] | [raised [Hc _]]]];
        [discriminate | |];
        (match type of Hc with
         | _ = (_ ++ [?e0])%list => exists (e0 :: evs)
         end;
         split; [rewrite Hcs, Hc, <- app_assoc; reflexivity |];
         split; [| assumption]; constructor; [| assumption]; eexists).
      * right. reflexivity.
      * left. reflexivity.
Qed.

(** X11.  On a consumer with a channel, [start_consuming] first
    registers the callback with [auto_ack=False] on the consumer's
    queue; every call after that one is a [basic_ack] or a
    [basic_nack(requeue=False)]; and when the registration raises, no
    delivery is handled. *)
Theorem start_consuming_trace deliveries c ch :
  channel (self c) = Some ch ->
  exists raised rest,
    issued c (snd (start_consuming deliveries c))
    = ev (BasicConsume (queue_name (self c)) false) raised :: rest
    /\ Forall settles rest
    /\ (raised <> None ->
        rest = []
        /\ self (snd (start_consuming deliveries c)) = self c).
Proof.
  intros Hch. unfold start_consuming, Logger.info.
  rewrite bind_get_self, Hch. repeat rewrite bind_emit by reflexivity.
  match goal with
  | |- context [bind (call ?o) _ ?cx] =>
    destruct (call_calls o cx) as [raised [Hc Hr]];
      pose proof (call_self o cx) as Hs;
      destruct (call o cx) as [[e | []] c1] eqn:E
  end; cbn [fst snd calls self noted] in Hc, Hr, Hs.
  - rewrite (bind_raised _ E). exists raised, []. cbn [snd].
    split; [apply issued_app; assumption |]. split; [constructor |].
    intros _. split; [reflexivity | assumption].
  - rewrite (bind_returned _ E).
    destruct (dispatch_calls deliveries c1) as (evs & Hcs & Hall & _).
    exists raised, evs. split.
    + apply issued_app. rewrite Hcs, Hc, <- app_assoc. reflexivity.
    + split; [assumption |]. intros Hne.
      destruct raised; [discriminate | contradiction].
Qed.

Lemma close_self : preserves self close.
Proof. unfold close. frame. Qed.

(** X12.  [signal_handler] never returns normally and leaves [running]
    cleared.  When [stop] returns, which it does unless its
    [stop_consuming] raises, the handler runs [close] on what [stop] left
    and then raises [SystemExit(0)].  When the [stop_consuming] of [stop]
    raises, that error propagates at once: [close] is not run and no
    [SystemExit] is raised. *)
Theorem signal_handler_exits signum c :
  running (self (snd (signal_handler signum c))) = false
  /\ match channel (self c) with
     | Some _ =>
       exists raised,
         issued c (snd (stop (signalled c))) = [ev StopConsuming raised]
         /\ signal_handler signum c
            = match raised with
              | None =>
                (inl (SystemExit 0), snd (close (snd (stop (signalled c)))))
              | Some cls => (inl (AMQPError cls), snd (stop (signalled c)))
              end
     | None =>
       issued c (snd (stop (signalled c))) = []
       /\ signal_handler signum c
          = (inl (SystemExit 0), snd (close (snd (stop (signalled c)))))
     end.
Proof.
  unfold signal_handler, Logger.info. rewrite bind_emit by reflexivity.
  fold (signalled c).
  destruct (stop_run (signalled c)) as [Hs Hrun].
  change (self (signalled c)) with (self c) in Hs, Hrun.
  change (issued (signalled c)) with (issued c) in Hrun.
  assert (Hclose : forall c1 : cfg t,
             bind close (fun _ => raise (SystemExit 0)) c1
             = (inl (SystemExit 0) : result unit, snd (close c1))).
  { intros c1. unfold bind. pose proof (consumer_close_returns c1) as H.
    destruct (close c1) as [[e | []] c2]; [discriminate | reflexivity]. }
  destruct (stop (signalled c)) as [r c1] eqn:E. cbn [fst snd] in *.
  destruct (channel (self c)).
  - destruct Hrun as (raised & Hi & Hr). subst r. split.
    + destruct raised.
      * rewrite (bind_raised _ E). cbn [snd]. rewrite Hs. reflexivity.
      * rewrite (bind_returned _ E), Hclose. cbn [snd].
        rewrite close_self, Hs. reflexivity.
    + exists raised. split; [exact Hi |]. destruct raised.
      * rewrite (bind_raised _ E). reflexivity.
      * rewrite (bind_returned _ E). apply Hclose.
  - destruct Hrun as [Hi Hr]. subst r.
    rewrite (bind_returned _ E), Hclose. cbn [snd].
    split; [rewrite close_self, Hs; reflexivity |].
    split; [exact Hi | reflexivity].
Qed.

(** How a [main] ends: the status of its body, or 1 for an [Exception];
    the teardown runs in every case and does not change the status. *)
Lemma guarded_main {O} (body : M O Z) (teardown : M O unit) text c :
  (forall c', fst (teardown c') = inr tt) ->
  fst (try_finally
         (try_except body is_Exception
                     (fun e => Logger.error text [] ;; ret 1))
         teardown c)
  = match fst (body c) with
    | inr z => inr z
    | inl e => if is_Exception e then inr 1 else inl e
    end.
Proof.
  intros Ht. unfold try_finally, try_except.
  destruct (body c) as [[e | z] c1]; cbn [fst].
  - destruct (is_Exception e).
    + unfold Logger.error. rewrite bind_emit by reflexivity. cbn [ret].
      match goal with
      | |- context [teardown ?cx] =>
        specialize (Ht cx); destruct (teardown cx) as [[e' | []] c2]
      end; [discriminate | reflexivity].
    + specialize (Ht c1). destruct (teardown c1) as [[e' | []] c2];
        [discriminate | reflexivity].
  - specialize (Ht c1). destruct (teardown c1) as [[e' | []] c2];
      [discriminate | reflexivity].
Qed.

(** Where a [main] ends: where its teardown ends when run on what the
    [try] statement left. *)
Lemma guarded_main_state {O} (body : M O Z) (teardown : M O unit) text c :
  snd (try_finally
         (try_except body is_Exception
                     (fun e => Logger.error text [] ;; ret 1))
         teardown c)
  = snd (teardown (handled_failure text (body c))).
Proof.
  unfold try_finally, try_except, handled_failure.
  destruct (body c) as [[e | z] c1]; cbn [fst snd].
  - destruct (is_Exception e).
    + unfold Logger.error. rewrite bind_emit by reflexivity. cbn [ret].
      match goal with
      | |- context [teardown ?cx] =>
        destruct (teardown cx) as [[e' | []] c2]
      end; reflexivity.
    + destruct (teardown c1) as [[e' | []] c2]; reflexivity.
  - destruct (teardown c1) as [[e' | []] c2]; reflexivity.
Qed.

(** X13.  The consumer's [main] ends with status 0 exactly when
    [connect] and the consume loop returned, and with status 1 when
    either raised an [Exception]; the [close] of its [finally] clause
    never changes that, and a [SystemExit] passes through.  The
    [KeyboardInterrupt] clause has no part in this: [main] installs
    [signal_handler] for SIGINT, so the interrupt is not raised. *)
Theorem consumer_main_status deliveries c :
  fst (main deliveries c)
  = match fst ((connect ;; start_consuming deliveries) c) with
    | inr _ => inr 0
    | inl e => if is_Exception e then inr 1 else inl e
    end.
Proof.
  unfold main. rewrite (guarded_main _ _ _ _ consumer_close_returns).
  unfold bind. destruct (connect c) as [[e | []] c1]; cbn [fst];
    [reflexivity |].
  destruct (start_consuming deliveries c1) as [[e | []] c2]; reflexivity.
Qed.
End LoopRuns.

(** The consumer of the sample traffic: a channel exists. *)
Lemma start_consuming_trace_witness :
  exists raised rest,
    issued Demo.consumer
      (snd (@BasicConsumer.start_consuming Reference.runtime
              Demo.deliveries Demo.consumer))
    = ev (BasicConsume "python_basic_queue" false) raised :: rest
    /\ Forall settles rest
    /\ (raised <> None ->
        rest = []
        /\ self (snd (@BasicConsumer.start_consuming Reference.runtime
                        Demo.deliveries Demo.consumer))
           = self Demo.consumer).
Proof.
  apply (@start_consuming_trace Reference.runtime Demo.deliveries
                                Demo.consumer TheChannel).
  reflexivity.
Defined.


(** ** More on the publishers *)

Section PublisherRuns.
Context {R : Runtime}.

Lemma mod_1000 (h : Z) : 0 <= h mod 1000 < 1000.
Proof. apply Z.mod_pos_bound. lia. Qed.

Lemma bind_bind {O A B C} (m : M O A) (f : A -> M O B) (k : B -> M O C) c :
  bind (bind m f) k c = bind m (fun a => bind (f a) k) c.
Proof. unfold bind. destruct (m c) as [[e | a] c1]; reflexivity. Qed.

(** A publish of [body] under [key], once the channel is known to exist
    and the message is serialized: the id is chosen, the call issued, its
    failure logged and raised again. *)
Ltac publish_run Hid :=
  rewrite bind_get_self;
  match goal with
  | |- context [bind (call ?o) _ ?cx] =>
    let raised := fresh "raised" in
    let Hc := fresh "Hc" in
    let Hr := fresh "Hr" in
    let E := fresh "E" in
    destruct (call_calls o cx) as [raised [Hc Hr]];
    pose proof (call_self o cx) as Hs;
    destruct (call o cx) as [[? | []] ?] eqn:E;
    cbn [fst snd calls self] in Hc, Hr, Hs;
    first [ rewrite (bind_raised _ E) | rewrite (bind_returned _ E) ];
    destruct raised; try discriminate; try (inversion Hr; subst);
    unfold Logger.log_message_sent, Logger.info, Logger.error;
    cbn [is_Exception];
    repeat rewrite bind_emit by reflexivity;
    rewrite ?emit_plain by reflexivity;
    cbn [is_Exception raise fst snd calls self noted];
    do 2 eexists;
    (split; [exact Hc |]);
    (split; [exact Hs |]);
    (split; [reflexivity |]);
    exact Hid
  end.

Lemma basic_send_run message mid b ch (c : cfg BasicProducer.t) :
  BasicProducer.channel (self c) = Some ch ->
  json_dumps message = inr b ->
  exists id raised,
    calls (snd (BasicProducer.send_message message mid c))
    = (calls c
       ++ [ev (BasicPublish "" (BasicProducer.queue_name (self c)) b
                 {| delivery_mode := Some 2;
                    timestamp := Some (fst (time_time (world c)));
                    message_id := Some id |})
              raised])%list
    /\ self (snd (BasicProducer.send_message message mid c)) = self c
    /\ fst (BasicProducer.send_message message mid c)
       = match raised with
         | None => inr tt
         | Some cls => inl (AMQPError cls)
         end
    /\ (truthy mid = true -> mid = Some id)
    /\ (truthy mid = false ->
        exists t k,
          0 <= k < 1000
          /\ id = "msg-" ++ str_of_int t ++ "-" ++ str_of_int k).
Proof.
  intros Hch Hj. unfold BasicProducer.send_message.
  rewrite bind_get_self, Hch. unfold try_except.
  rewrite Hj, bind_lift_inr, bind_now.
  unfold BasicProducer.choose_message_id.
  destruct (truthy mid) eqn:T.
  - rewrite bind_ret. cbv zeta.
    assert (Hid : (true = true -> mid = Some (or_else mid ""))
                  /\ (true = false ->
                      exists t k,
                        0 <= k < 1000
                        /\ or_else mid ""
                           = "msg-" ++ str_of_int t ++ "-" ++ str_of_int k)).
    { split; [| discriminate]. intros _.
      destruct mid as [[| a s] |]; try discriminate. reflexivity. }
    publish_run Hid.
  - rewrite bind_bind, bind_now, bind_ret. cbv zeta.
    match goal with
    | |- context [Some ("msg-" ++ str_of_int ?t ++ "-" ++ str_of_int ?k)] =>
      assert (Hid : (false = true ->
                     mid = Some ("msg-" ++ str_of_int t ++ "-"
                                 ++ str_of_int k))
                    /\ (false = false ->
                        exists t' k',
                          0 <= k' < 1000
                          /\ "msg-" ++ str_of_int t ++ "-" ++ str_of_int k
                             = "msg-" ++ str_of_int t' ++ "-"
                               ++ str_of_int k'))
        by (split; [discriminate |]; intros _; exists t, k;
            split; [apply mod_1000 | reflexivity])
    end.
    publish_run Hid.
Qed.

Lemma topic_send_run key message mid b ch (c : cfg TopicProducer.t) :
  TopicProducer.channel (self c) = Some ch ->
  json_dumps message = inr b ->
  exists id raised,
    calls (snd (TopicProducer.send_message key message mid c))
    = (calls c
       ++ [ev (BasicPublish (TopicProducer.exchange_name (self c)) key b
                 {| delivery_mode := Some 2;
                    timestamp := Some (fst (time_time (world c)));
                    message_id := Some id |})
              raised])%list
    /\ self (snd (TopicProducer.send_message key message mid c)) = self c
    /\ fst (TopicProducer.send_message key message mid c)
       = match raised with
         | None => inr tt
         | Some cls => inl (AMQPError cls)
         end
    /\ (truthy mid = true -> mid = Some id)
    /\ (truthy mid = false ->
        exists t k,
          0 <= k < 1000
          /\ id = "topic-" ++ str_of_int t ++ "-" ++ str_of_int k).
Proof.
  intros Hch Hj. unfold TopicProducer.send_message.
  rewrite bind_get_self, Hch. unfold try_except.
  rewrite Hj, bind_lift_inr, bind_now.
  unfold TopicProducer.choose_message_id.
  destruct (truthy mid) eqn:T.
  - rewrite bind_ret. cbv zeta.
    assert (Hid : (true = true -> mid = Some (or_else mid ""))
                  /\ (true = false ->
                      exists t k,
                        0 <= k < 1000
                        /\ or_else mid ""
                           = "topic-" ++ str_of_int t ++ "-"
                             ++ str_of_int k)).
    { split; [| discriminate]. intros _.
      destruct mid as [[| a s] |]; try discriminate. reflexivity. }
    publish_run Hid.
  - rewrite bind_bind, bind_now, bind_ret. cbv zeta.
    match goal with
    | |- context [Some ("topic-" ++ str_of_int ?t ++ "-" ++ str_of_int ?k)] =>
      assert (Hid : (false = true ->
                     mid = Some ("topic-" ++ str_of_int t ++ "-"
                                 ++ str_of_int k))
                    /\ (false = false ->
                        exists t' k',
                          0 <= k' < 1000
                          /\ "topic-" ++ str_of_int t ++ "-" ++ str_of_int k
                             = "topic-" ++ str_of_int t' ++ "-"
                               ++ str_of_int k'))
        by (split; [discriminate |]; intros _; exists t, k;
            split; [apply mod_1000 | reflexivity])
    end.
    publish_run Hid.
Qed.

(** Every way a [send_message] can run, by the calls it leaves. *)
Lemma basic_send_calls message mid (c : cfg BasicProducer.t) :
  (calls (snd (BasicProducer.send_message message mid c)) = calls c
   /\ self (snd (BasicProducer.send_message message mid c)) = self c
   /\ exists e, fst (BasicProducer.send_message message mid c) = inl e)
  \/ exists b id raised,
      json_dumps message = inr b
      /\ calls (snd (BasicProducer.send_message message mid c))
         = (calls c
            ++ [ev (BasicPublish "" (BasicProducer.queue_name (self c)) b
                      {| delivery_mode := Some 2;
                         timestamp := Some (fst (time_time (world c)));
                         message_id := Some id |})
                   raised])%list
      /\ self (snd (BasicProducer.send_message message mid c)) = self c
      /\ fst (BasicProducer.send_message message mid c)
         = match raised with
           | None => inr tt
           | Some cls => inl (AMQPError cls)
           end
      /\ (truthy mid = true -> mid = Some id).
Proof.
  destruct (BasicProducer.channel (self c)) as [ch |] eqn:Hch.
  - destruct (json_dumps message) as [e | b] eqn:Hj.
    + left. unfold BasicProducer.send_message.
      rewrite bind_get_self, Hch. unfold try_except.
      rewrite Hj, bind_lift_inl.
      destruct (is_Exception e); unfold Logger.error;
        rewrite ?bind_emit by reflexivity;
        cbn [raise fst snd calls self noted];
        repeat split; eauto.
    + right.
      destruct (basic_send_run message mid c Hch Hj)
        as (id & raised & H1 & H2 & H3 & H4 & _).
      exists b, id, raised. repeat split; assumption || reflexivity.
  - left. unfold BasicProducer.send_message.
    rewrite bind_get_self, Hch. unfold raise. cbn [fst snd].
    repeat split; eauto.
Qed.

Lemma topic_send_calls key message mid (c : cfg TopicProducer.t) :
  (calls (snd (TopicProducer.send_message key message mid c)) = calls c
   /\ self (snd (TopicProducer.send_message key message mid c)) = self c
   /\ exists e, fst (TopicProducer.send_message key message mid c) = inl e)
  \/ exists b id raised,
      calls (snd (TopicProducer.send_message key message mid c))
      = (calls c
         ++ [ev (BasicPublish (TopicProducer.exchange_name (self c)) key b
                   {| delivery_mode := Some 2;
                      timestamp := Some (fst (time_time (world c)));
                      message_id := Some id |})
                raised])%list
      /\ self (snd (TopicProducer.send_message key message mid c)) = self c
      /\ fst (TopicProducer.send_message key message mid c)
         = match raised with
           | None => inr tt
           | Some cls => inl (AMQPError cls)
           end
      /\ (truthy mid = true -> mid = Some id).
Proof.
  destruct (TopicProducer.channel (self c)) as [ch |] eqn:Hch.
  - destruct (json_dumps message) as [e | b] eqn:Hj.
    + left. unfold TopicProducer.send_message.
      rewrite bind_get_self, Hch. unfold try_except.
      rewrite Hj, bind_lift_inl.
      destruct (is_Exception e); unfold Logger.error;
        rewrite ?bind_emit by reflexivity;
        cbn [raise fst snd calls self noted];
        repeat split; eauto.
    + right.
      destruct (topic_send_run key message mid c Hch Hj)
        as (id & raised & H1 & H2 & H3 & H4 & _).
      exists b, id, raised. repeat split; assumption.
  - left. unfold TopicProducer.send_message.
    rewrite bind_get_self, Hch. unfold raise. cbn [fst snd].
    repeat split; eauto.
Qed.

(** X14.  With a channel and a message that serializes to [b],
    [BasicProducer.send_message] issues exactly one call: a publish of
    [b] to the default exchange under the queue's name, persistent and
    stamped with the clock.  The id is the caller's when it is a
    non-empty string; otherwise ([None] or the empty string) it is
    [msg-<seconds>-<k>] with [k] between 0 and 999.  The method returns
    normally exactly when the publish does. *)
Theorem basic_publish_trace message mid b ch (c : cfg BasicProducer.t) :
  BasicProducer.channel (self c) = Some ch ->
  json_dumps message = inr b ->
  exists id raised,
    issued c (snd (BasicProducer.send_message message mid c))
    = [ev (BasicPublish "" (BasicProducer.queue_name (self c)) b
             {| delivery_mode := Some 2;
                timestamp := Some (fst (time_time (world c)));
                message_id := Some id |})
          raised]
    /\ fst (BasicProducer.send_message message mid c)
       = match raised with
         | None => inr tt
         | Some cls => inl (AMQPError cls)
         end
    /\ (truthy mid = true -> mid = Some id)
    /\ (truthy mid = false ->
        exists t k,
          0 <= k < 1000
          /\ id = "msg-" ++ str_of_int t ++ "-" ++ str_of_int k).
Proof.
  intros Hch Hj.
  destruct (basic_send_run message mid c Hch Hj)
    as (id & raised & H1 & _ & H3 & H4 & H5).
  exists id, raised. repeat split; try assumption.
  apply issued_app. assumption.
Qed.

(** X15.  The same for [TopicProducer.send_message]: one publish of the
    serialized message to the topic exchange under the routing key it
    was given; a generated id is [topic-<seconds>-<k>], [k] between 0
    and 999. *)
Theorem topic_publish_trace key message mid b ch (c : cfg TopicProducer.t) :
  TopicProducer.channel (self c) = Some ch ->
  json_dumps message = inr b ->
  exists id raised,
    issued c (snd (TopicProducer.send_message key message mid c))
    = [ev (BasicPublish (TopicProducer.exchange_name (self c)) key b
             {| delivery_mode := Some 2;
                timestamp := Some (fst (time_time (world c)));
                message_id := Some id |})
          raised]
    /\ fst (TopicProducer.send_message key message mid c)
       = match raised with
         | None => inr tt
         | Some cls => inl (AMQPError cls)
         end
    /\ (truthy mid = true -> mid = Some id)
    /\ (truthy mid = false ->
        exists t k,
          0 <= k < 1000
          /\ id = "topic-" ++ str_of_int t ++ "-" ++ str_of_int k).
Proof.
  intros Hch Hj.
  destruct (topic_send_run key message mid c Hch Hj)
    as (id & raised & H1 & _ & H3 & H4 & H5).
  exists id, raised. repeat split; try assumption.
  apply issued_app. assumption.
Qed.

(** X16.  Before [connect] nothing is sent or consumed: without a
    channel, both [send_message] and [start_consuming] raise
    [RuntimeError] at once, issuing no call, logging nothing and
    changing no field. *)
Theorem not_connected_refused :
  (forall message mid (c : cfg BasicProducer.t),
      BasicProducer.channel (self c) = None ->
      BasicProducer.send_message message mid c
      = (inl (RuntimeError "Not connected. Call connect() first."), c))
  /\ (forall key message mid (c : cfg TopicProducer.t),
        TopicProducer.channel (self c) = None ->
        TopicProducer.send_message key message mid c
        = (inl (RuntimeError "Not connected. Call connect() first."), c))
  /\ (forall deliveries (c : cfg BasicConsumer.t),
        BasicConsumer.channel (self c) = None ->
        BasicConsumer.start_consuming deliveries c
        = (inl (RuntimeError "Not connected. Call connect() first."), c)).
Proof.
  repeat split; intros.
  - unfold BasicProducer.send_message. rewrite bind_get_self, H.
    reflexivity.
  - unfold TopicProducer.send_message. rewrite bind_get_self, H.
    reflexivity.
  - unfold BasicConsumer.start_consuming. rewrite bind_get_self, H.
    reflexivity.
Qed.

Lemma send_messages_from_calls messages delay : forall i c,
  exists evs,
    calls (snd (BasicProducer.send_messages_from i messages delay c))
    = (calls c ++ evs)%list
    /\ batch (BasicProducer.queue_name (self c)) i messages evs
    /\ (fst (BasicProducer.send_messages_from i messages delay c) = inr tt ->
        List.length evs = List.length messages
        /\ Forall (fun e => ev_raised e = None) evs).
Proof.
  induction messages as [| message rest IH]; intros i c.
  - exists []. simpl. rewrite app_nil_r. repeat split; auto.
  - cbn [BasicProducer.send_messages_from]. rewrite bind_now.
    match goal with
    | |- context [bind (BasicProducer.send_message ?x ?y) _ ?cx] =>
      destruct (basic_send_calls x y cx)
        as [(Hc & _ & e & He)
           | (b & id & raised & Hj & Hc & Hs & Hr & Hid)];
        destruct (BasicProducer.send_message x y cx)
          as [[e' | []] c1] eqn:E
    end; cbn [fst snd calls self world] in *.
    + rewrite (bind_raised _ E). exists []. cbn [fst snd].
      rewrite app_nil_r. repeat split; simpl; auto; discriminate.
    + discriminate.
    + rewrite (bind_raised _ E). eexists. cbn [fst snd].
      split; [exact Hc |]. simpl. split; [| discriminate].
      split; [| split; [intros H; exfalso; apply H; reflexivity
                       | exact I]].
      specialize (Hid eq_refl). inversion Hid; subst id.
      exists b. do 2 eexists. split; [exact Hj | reflexivity].
    + rewrite (bind_returned _ E).
      match goal with
      | |- context [bind (when ?bb ?mm) _ c1] =>
        assert (Hw : exists c2, when bb mm c1 = (inr tt, c2)
                                /\ calls c2 = calls c1
                                /\ self c2 = self c1)
          by (destruct bb; eexists; repeat split; reflexivity);
          destruct Hw as (c2 & Ew & Hc2 & Hs2); rewrite (bind_returned _ Ew)
      end.
      destruct (IH (i + 1) c2) as (evs & Hcs & Hb & Hok).
      rewrite Hs2, Hs in Hb.
      destruct raised; [discriminate |].
      eexists (_ :: evs). split.
      * rewrite Hcs, Hc2, Hc, <- app_assoc. reflexivity.
      * simpl. split.
        -- split; [| split; [intros _; reflexivity | exact Hb]].
           specialize (Hid eq_refl). inversion Hid; subst id.
           exists b. do 2 eexists. split; [exact Hj | reflexivity].
        -- intros H. destruct (Hok H) as [Hl Hall].
           split; [rewrite Hl; reflexivity |].
           constructor; [reflexivity | exact Hall].
Qed.

(** X17.  The calls of [send_messages] are publishes of its messages,
    one each and in the order of the list, starting with the first and
    stopping at the first send that raises: the [k]-th call carries the
    serialization of the [k]-th message to the default exchange under
    the name of the queue, with the id [batch-k-<seconds>], counting
    from 1, and every call but the last one returned.  When
    [send_messages] returns normally there is one call for every
    message, and all of them returned. *)
Theorem send_messages_in_order messages delay (c : cfg BasicProducer.t) :
  batch (BasicProducer.queue_name (self c)) 0 messages
        (issued c (snd (BasicProducer.send_messages messages delay c)))
  /\ (fst (BasicProducer.send_messages messages delay c) = inr tt ->
      List.length
        (issued c (snd (BasicProducer.send_messages messages delay c)))
      = List.length messages
      /\ Forall (fun e => ev_raised e = None)
                (issued c
                   (snd (BasicProducer.send_messages messages delay c)))).
Proof.
  unfold BasicProducer.send_messages.
  destruct (send_messages_from_calls messages delay 0 c)
    as (evs & Hc & H1 & H2).
  rewrite (issued_app Hc). split; assumption.
Qed.
End PublisherRuns.

(** The first sample message with no id, on a connected producer. *)
Lemma basic_publish_trace_witness :
  exists id raised,
    issued (Demo.producer true)
      (snd (@BasicProducer.send_message Reference.runtime
              (JDict [("id", JInt 1); ("type", JStr "greeting")]) (Some "")
              (Demo.producer true)))
    = [ev (BasicPublish "" "python_basic_queue"
             (Demo.quoted "{'id': 1, 'type': 'greeting'}")
             {| delivery_mode := Some 2; timestamp := Some 1759320000;
                message_id := Some id |})
          raised]
    /\ fst (@BasicProducer.send_message Reference.runtime
              (JDict [("id", JInt 1); ("type", JStr "greeting")]) (Some "")
              (Demo.producer true))
       = match raised with
         | None => inr tt
         | Some cls => inl (AMQPError cls)
         end
    /\ (truthy (Some "") = true -> Some "" = Some id)
    /\ (truthy (Some "") = false ->
        exists t k,
          0 <= k < 1000 /\ id = "msg-" ++ str_of_int t ++ "-" ++ str_of_int k).
Proof.
  apply (@basic_publish_trace Reference.runtime
           (JDict [("id", JInt 1); ("type", JStr "greeting")]) (Some "")
           (Demo.quoted "{'id': 1, 'type': 'greeting'}") TheChannel
           (Demo.producer true)).
  - reflexivity.
  - reflexivity.
Defined.

(** A topic message with the caller's id. *)
Lemma topic_publish_trace_witness :
  exists id raised,
    issued Demo.topic_producer
      (snd (@TopicProducer.send_message Reference.runtime "user.create.account"
              (JDict [("user_id", JInt 12345)]) (Some "event-user-create")
              Demo.topic_producer))
    = [ev (BasicPublish "python_topic_exchange" "user.create.account"
             (Demo.quoted "{'user_id': 12345}")
             {| delivery_mode := Some 2; timestamp := Some 1759320000;
                message_id := Some id |})
          raised]
    /\ fst (@TopicProducer.send_message Reference.runtime
              "user.create.account" (JDict [("user_id", JInt 12345)])
              (Some "event-user-create") Demo.topic_producer)
       = match raised with
         | None => inr tt
         | Some cls => inl (AMQPError cls)
         end
    /\ (truthy (Some "event-user-create") = true ->
        Some "event-user-create" = Some id)
    /\ (truthy (Some "event-user-create") = false ->
        exists t k,
          0 <= k < 1000
          /\ id = "topic-" ++ str_of_int t ++ "-" ++ str_of_int k).
Proof.
  apply (@topic_publish_trace Reference.runtime "user.create.account"
           (JDict [("user_id", JInt 12345)]) (Some "event-user-create")
           (Demo.quoted "{'user_id': 12345}") TheChannel
           Demo.topic_producer).
  - reflexivity.
  - reflexivity.
Defined.

(** A producer that never connected. *)
Lemma not_connected_refused_witness :
  @BasicProducer.send_message Reference.runtime JNull None
    (Reference.fresh BasicProducer.__init__ (Reference.start true))
  = (inl (RuntimeError "Not connected. Call connect() first."),
     Reference.fresh BasicProducer.__init__ (Reference.start true)).
Proof.
  apply (proj1 (@not_connected_refused Reference.runtime)).
  reflexivity.
Defined.

(** ** The topic helpers and the publishers' [main] *)

Section TopicRuns.
Context {R : Runtime}.
Import TopicProducer.

(** What a helper leaves once it has built its message: at most one
    publish, under the key and the id it computed. *)
Lemma routed_send key message id (c0 c : cfg t) :
  truthy (Some id) = true ->
  calls c = calls c0 -> self c = self c0 ->
  routed_once (exchange_name (self c0)) key id
              (issued c0 (snd (send_message key message (Some id) c))).
Proof.
  intros Ht Hc Hs.
  destruct (topic_send_calls key message (Some id) c)
    as [(H1 & _ & H3) | (b & id' & raised & H1 & _ & H3 & H4)].
  - left. apply issued_same. congruence.
  - right. specialize (H4 Ht). inversion H4; subst id'.
    rewrite Hc, Hs in H1. rewrite (issued_app H1).
    do 3 eexists. split; reflexivity.
Qed.

Lemma routed_send_returned key message id (c0 c : cfg t) :
  truthy (Some id) = true ->
  calls c = calls c0 -> self c = self c0 ->
  fst (send_message key message (Some id) c) = inr tt ->
  exists e,
    calls (snd (send_message key message (Some id) c))
    = (calls c0 ++ [e])%list
    /\ routes [e] = [(exchange_name (self c0), key, Some id)]
    /\ self (snd (send_message key message (Some id) c)) = self c0.
Proof.
  intros Ht Hc Hs Hr.
  destruct (topic_send_calls key message (Some id) c)
    as [(_ & _ & e & He) | (b & id' & raised & H1 & H2 & H3 & H4)].
  - congruence.
  - specialize (H4 Ht). inversion H4; subst id'.
    eexists. split; [rewrite H1, Hc; reflexivity |].
    split; [simpl; rewrite Hs; reflexivity | congruence].
Qed.

Lemma analytics_returned category action label value c :
  fst (send_analytics_message category action label value c) = inr tt ->
  exists e,
    calls (snd (send_analytics_message category action label value c))
    = (calls c ++ [e])%list
    /\ routes [e]
       = [(exchange_name (self c), "analytics." ++ category ++ "." ++ action,
           Some ("analytics-" ++ category ++ "-" ++ action))]
    /\ self (snd (send_analytics_message category action label value c))
       = self c.
Proof.
  unfold send_analytics_message. rewrite bind_strftime, bind_now. cbv zeta.
  apply routed_send_returned; reflexivity.
Qed.

Lemma notification_returned user_id type priority content c :
  fst (send_notification_message user_id type priority content c) = inr tt ->
  exists e,
    calls (snd (send_notification_message user_id type priority content c))
    = (calls c ++ [e])%list
    /\ routes [e]
       = [(exchange_name (self c),
           "notification." ++ priority ++ "." ++ type,
           Some ("notification-" ++ type ++ "-" ++ priority))]
    /\ self (snd (send_notification_message user_id type priority content c))
       = self c.
Proof.
  unfold send_notification_message. rewrite bind_strftime, bind_now.
  cbv zeta. apply routed_send_returned; reflexivity.
Qed.

Lemma event_returned resource action event_type data c :
  fst (send_event_message resource action event_type data c) = inr tt ->
  exists e,
    calls (snd (send_event_message resource action event_type data c))
    = (calls c ++ [e])%list
    /\ routes [e]
       = [(exchange_name (self c),
           resource ++ "." ++ action ++ "." ++ event_type,
           Some ("event-" ++ resource ++ "-" ++ action))]
    /\ self (snd (send_event_message resource action event_type data c))
       = self c.
Proof.
  unfold send_event_message. rewrite bind_strftime, bind_now. cbv zeta.
  apply routed_send_returned; reflexivity.
Qed.

(** X18.  Each helper issues at most one call, a publish to the topic
    exchange, under a routing key and an id built from its arguments
    alone: [analytics.<category>.<action>] with id
    [analytics-<category>-<action>]; [notification.<priority>.<type>]
    with id [notification-<type>-<priority>];
    [<resource>.<action>.<event_type>] with id
    [event-<resource>-<action>].  The generated [topic-...] id is never
    used, and two sends with the same arguments share their id. *)
Theorem helper_routes (c : cfg t) :
  (forall category action label value,
      routed_once (exchange_name (self c))
                  ("analytics." ++ category ++ "." ++ action)
                  ("analytics-" ++ category ++ "-" ++ action)
                  (issued c (snd (send_analytics_message
                                    category action label value c))))
  /\ (forall user_id type priority content,
        routed_once (exchange_name (self c))
                    ("notification." ++ priority ++ "." ++ type)
                    ("notification-" ++ type ++ "-" ++ priority)
                    (issued c (snd (send_notification_message
                                      user_id type priority content c))))
  /\ (forall resource action event_type data,
        routed_once (exchange_name (self c))
                    (resource ++ "." ++ action ++ "." ++ event_type)
                    ("event-" ++ resource ++ "-" ++ action)
                    (issued c (snd (send_event_message
                                      resource action event_type data c)))).
Proof.
  repeat split; intros.
  - unfold send_analytics_message. rewrite bind_strftime, bind_now.
    cbv zeta. apply routed_send; reflexivity.
  - unfold send_notification_message. rewrite bind_strftime, bind_now.
    cbv zeta. apply routed_send; reflexivity.
  - unfold send_event_message. rewrite bind_strftime, bind_now.
    cbv zeta. apply routed_send; reflexivity.
Qed.
End TopicRuns.

Section MainRuns.
Context {R : Runtime}.

Lemma bind_set_self {O B} (o : O) (k : unit -> M O B) c :
  bind (set_self o) k c = k tt (started o c).
Proof. reflexivity. Qed.

Lemma routes_app evs evs' :
  routes (evs ++ evs') = (routes evs ++ routes evs')%list.
Proof.
  induction evs as [| e evs IH]; simpl; [reflexivity |].
  destruct (ev_op e); simpl; rewrite IH; reflexivity.
Qed.

Lemma publishes_app evs evs' :
  publishes (evs ++ evs') = (publishes evs ++ publishes evs')%list.
Proof. apply filter_app. Qed.

Lemma batch_publishes queue messages : forall evs i,
  batch queue i messages evs -> publishes evs = evs.
Proof.
  induction messages as [| message rest IH]; intros [| e evs] i H;
    simpl in H; try reflexivity; try contradiction.
  destruct H as ((b & t & stamp & _ & Hop) & _ & H).
  unfold publishes in *. simpl. rewrite Hop.
  f_equal. apply (IH evs (i + 1)). exact H.
Qed.

(** X19.  Both publishers' [main] end with status 0 exactly when their
    [try] block returned and with status 1 when it raised an
    [Exception].  In both cases the [close] of the [finally] clause
    runs, on what the [try] statement left, and [main] ends where that
    [close] ends; it does not change the status. *)
Theorem producer_main_status :
  (forall c : cfg BasicProducer.t,
      fst (BasicProducer.main c)
      = match fst (BasicProducer.run (started BasicProducer.__init__ c)) with
        | inr _ => inr 0
        | inl e => if is_Exception e then inr 1 else inl e
        end
      /\ snd (BasicProducer.main c)
         = snd (BasicProducer.close
                  (handled_failure
                     "Producer example failed"
                     (BasicProducer.run
                        (started BasicProducer.__init__ c)))))
  /\ (forall c : cfg TopicProducer.t,
        fst (TopicProducer.main c)
        = match fst (TopicProducer.run (started TopicProducer.__init__ c)) with
          | inr _ => inr 0
          | inl e => if is_Exception e then inr 1 else inl e
          end
        /\ snd (TopicProducer.main c)
           = snd (TopicProducer.close
                    (handled_failure
                       "Topic producer example failed"
                       (TopicProducer.run
                          (started TopicProducer.__init__ c))))).
Proof.
  split; intros c.
  - unfold BasicProducer.main. rewrite bind_set_self. split.
    + rewrite (guarded_main _ _ _ _ producer_close_returns).
      unfold bind.
      destruct (BasicProducer.run (started BasicProducer.__init__ c))
        as [[e | []] c1]; reflexivity.
    + rewrite guarded_main_state. unfold handled_failure, bind.
      destruct (BasicProducer.run (started BasicProducer.__init__ c))
        as [[e | []] c1]; reflexivity.
  - unfold TopicProducer.main. rewrite bind_set_self. split.
    + rewrite (guarded_main _ _ _ _ topic_close_returns).
      unfold bind.
      destruct (TopicProducer.run (started TopicProducer.__init__ c))
        as [[e | []] c1]; reflexivity.
    + rewrite guarded_main_state. unfold handled_failure, bind.
      destruct (TopicProducer.run (started TopicProducer.__init__ c))
        as [[e | []] c1]; reflexivity.
Qed.

(** Unfold a method built from pika calls only and split on what each
    call, [is_closed] and the log levels do. *)
Ltac run_calls :=
  cbv [try_except Logger.info Logger.error Logger.log_connection
       Logger.log_queue_declared Logger.log_exchange_declared
       Logger.warning Logger.emit bind log call get_self set_self ret
       raise when connection_is_closed];
  simpl;
  repeat match goal with
         | |- context [pika ?o ?w] =>
           destruct (pika o w) as [[? | []] ?]; simpl
         | |- context [match ?x with Some _ => _ | None => _ end] =>
           destruct x; simpl
         | |- context [is_closed ?w] =>
           destruct (is_closed w); simpl
         | |- context [Logger.enabled ?l] =>
           destruct (Logger.enabled l); simpl
         end;
  eexists; (split; [rewrite <- ?app_assoc; simpl; try reflexivity;
                    symmetry; apply app_nil_r |]).

(** The rest of a goal about a [connect]. *)
Ltac connect_rest :=
  split; [reflexivity |];
  split; [reflexivity |];
  first [ discriminate | intros _; reflexivity ].

Lemma basic_connect_quiet (c : cfg BasicProducer.t) :
  exists evs,
    calls (snd (BasicProducer.connect c)) = (calls c ++ evs)%list
    /\ publishes evs = []
    /\ BasicProducer.queue_name (self (snd (BasicProducer.connect c)))
       = BasicProducer.queue_name (self c)
    /\ (fst (BasicProducer.connect c) = inr tt ->
        Logger.enabled INFO = false).
Proof.
  cbv [BasicProducer.connect BasicProducer.update].
  run_calls; connect_rest.
Qed.

Lemma basic_close_quiet (c : cfg BasicProducer.t) :
  exists evs,
    calls (snd (BasicProducer.close c)) = (calls c ++ evs)%list
    /\ publishes evs = [].
Proof. cbv [BasicProducer.close]. run_calls; reflexivity. Qed.

Lemma topic_connect_quiet (c : cfg TopicProducer.t) :
  exists evs,
    calls (snd (TopicProducer.connect c)) = (calls c ++ evs)%list
    /\ routes evs = []
    /\ TopicProducer.exchange_name (self (snd (TopicProducer.connect c)))
       = TopicProducer.exchange_name (self c)
    /\ (fst (TopicProducer.connect c) = inr tt ->
        Logger.enabled INFO = false).
Proof.
  cbv [TopicProducer.connect TopicProducer.update].
  run_calls; connect_rest.
Qed.

Lemma topic_close_quiet (c : cfg TopicProducer.t) :
  exists evs,
    calls (snd (TopicProducer.close c)) = (calls c ++ evs)%list
    /\ routes evs = [].
Proof. cbv [TopicProducer.close]. run_calls; reflexivity. Qed.

(** A [main] that ends with status 0: its [try] block returned, and the
    teardown followed. *)
Lemma main_succeeded {O} (run : M O unit) (teardown : M O unit) text c z c' :
  (forall c1, fst (teardown c1) = inr tt) ->
  try_finally
    (try_except (run ;; ret 0) is_Exception
                (fun e => Logger.error text [] ;; ret 1))
    teardown c
  = (inr z, c') ->
  z = 0 ->
  exists c1, run c = (inr tt, c1) /\ snd (teardown c1) = c'.
Proof.
  intros Ht. unfold try_finally, try_except, bind at 1.
  destruct (run c) as [[e | []] c1].
  - destruct (is_Exception e).
    + unfold Logger.error. rewrite bind_emit by reflexivity. cbn [ret].
      match goal with
      | |- context [teardown ?cx] =>
        specialize (Ht cx); destruct (teardown cx) as [[e' | []] c2]
      end; [discriminate |].
      intros H Hz. inversion H; subst. discriminate.
    + specialize (Ht c1). destruct (teardown c1) as [[e' | []] c2];
        [discriminate |]. intros H. discriminate.
  - cbn [ret]. pose proof (Ht c1) as Ht1.
    destruct (teardown c1) as [[e' | []] c2] eqn:E; [discriminate |].
    intros H _. inversion H; subst. exists c1.
    split; [reflexivity | rewrite E; reflexivity].
Qed.

(** X20.  [BasicProducer.main] ends with status 0 only when INFO is
    disabled: by default its [connect] raises.  When it does end with
    status 0, its publish calls are exactly five, one for each sample
    message and in their order: each carries the serialization of its
    message to the default exchange under [python_basic_queue], with the
    ids [batch-1-...] to [batch-5-...], and each returned; [connect] and
    [close] publish nothing. *)
Theorem basic_main_publishes_all (c : cfg BasicProducer.t) :
  fst (BasicProducer.main c) = inr 0 ->
  Logger.enabled INFO = false
  /\ exists stamp,
      batch "python_basic_queue" 0 (BasicProducer.sample_messages stamp)
            (publishes (issued c (snd (BasicProducer.main c))))
      /\ List.length (publishes (issued c (snd (BasicProducer.main c))))
         = 5%nat
      /\ Forall (fun e => ev_raised e = None)
                (publishes (issued c (snd (BasicProducer.main c)))).
Proof.
  unfold BasicProducer.main. rewrite bind_set_self. intros H.
  match type of H with
  | fst (?m ?cx) = _ => destruct (m cx) as [r c4] eqn:E
  end.
  cbn [fst snd] in *. subst r.
  destruct (main_succeeded _ _ _ _ producer_close_returns E eq_refl)
    as (c3 & Hrun & Hc4).
  unfold BasicProducer.run in Hrun.
  apply bind_inv in Hrun as [(e & _ & He) | ([] & c1 & E1 & Hrun)];
    [discriminate |].
  rewrite bind_strftime in Hrun.
  destruct (basic_connect_quiet (started BasicProducer.__init__ c))
    as (e1 & Hc1 & Hp1 & Hq & Hlevel).
  rewrite E1 in Hc1, Hq, Hlevel. cbn [fst snd] in Hc1, Hq, Hlevel.
  split; [apply Hlevel; reflexivity |].
  match type of Hrun with
  | BasicProducer.send_messages (BasicProducer.sample_messages ?s) ?d ?cx
    = _ =>
    exists s;
    destruct (send_messages_from_calls (BasicProducer.sample_messages s)
                                       d 0 cx)
      as (e3 & Hc3 & Hb & Hall)
  end.
  unfold BasicProducer.send_messages in Hrun.
  rewrite Hrun in Hc3, Hall. cbn [fst snd calls self] in Hc3, Hall, Hb.
  rewrite Hq in Hb.
  change (BasicProducer.queue_name (self (started BasicProducer.__init__ c)))
    with "python_basic_queue" in Hb.
  destruct (Hall eq_refl) as [Hlen Hret].
  destruct (basic_close_quiet c3) as (e4 & Hc4' & Hp4).
  rewrite Hc4 in Hc4'.
  assert (Hall' : calls c4 = (calls c ++ (e1 ++ e3 ++ e4))%list).
  { rewrite Hc4', Hc3, Hc1. cbn [started calls].
    rewrite <- !app_assoc. reflexivity. }
  rewrite (issued_app Hall'), !publishes_app, Hp1, Hp4, app_nil_r.
  cbn [app]. rewrite (batch_publishes _ _ _ _ Hb).
  split; [exact Hb | split; [exact Hlen | exact Hret]].
Qed.

(** One helper of [TopicProducer.run] that returned: its call and its
    route, the exchange being the one of [__init__]. *)
Ltac helper_done E Hx :=
  let e := fresh "e" in
  let Hc := fresh "Hc" in
  let Hr := fresh "Hr" in
  let Hs := fresh "Hs" in
  match type of E with
  | TopicProducer.send_analytics_message ?a ?b ?l ?v ?cx = _ =>
    destruct (@analytics_returned R a b l v cx)
      as (e & Hc & Hr & Hs); [rewrite E; reflexivity |]
  | TopicProducer.send_notification_message ?a ?b ?l ?v ?cx = _ =>
    destruct (@notification_returned R a b l v cx)
      as (e & Hc & Hr & Hs); [rewrite E; reflexivity |]
  | TopicProducer.send_event_message ?a ?b ?l ?v ?cx = _ =>
    destruct (@event_returned R a b l v cx)
      as (e & Hc & Hr & Hs); [rewrite E; reflexivity |]
  end;
  rewrite E in Hc, Hs; cbn [snd] in Hc, Hs;
  rewrite Hx in Hr; rewrite <- Hs in Hx; cbn [append] in Hr.

(** X21.  [TopicProducer.main] ends with status 0 only when INFO is
    disabled: by default its [connect] raises.  When it does end with
    status 0, the messages published are exactly its ten, all to
    [python_topic_exchange], under the routing keys and ids of
    [topic_sample_routes], in that order. *)
Theorem topic_main_publishes_all (c : cfg TopicProducer.t) :
  fst (TopicProducer.main c) = inr 0 ->
  Logger.enabled INFO = false
  /\ routes (issued c (snd (TopicProducer.main c)))
     = map (fun r => ("python_topic_exchange", fst r, Some (snd r)))
           topic_sample_routes.
Proof.
  unfold TopicProducer.main. rewrite bind_set_self. intros H.
  match type of H with
  | fst (?m ?cx) = _ => destruct (m cx) as [r c4] eqn:E
  end.
  cbn [fst snd] in *. subst r.
  destruct (main_succeeded _ _ _ _ topic_close_returns E eq_refl)
    as (c3 & Hrun & Hc4).
  unfold TopicProducer.run in Hrun.
  apply bind_inv in Hrun as [(e & _ & He) | ([] & c1 & E1 & Hrun)];
    [discriminate |].
  destruct (topic_connect_quiet (started TopicProducer.__init__ c))
    as (e0 & Hc0 & Hp0 & Hx & Hlevel).
  rewrite E1 in Hc0, Hx, Hlevel.
  cbn [fst snd started self calls] in Hc0, Hx, Hlevel.
  split; [apply Hlevel; reflexivity |]. clear Hlevel.
  change (TopicProducer.exchange_name TopicProducer.__init__)
    with "python_topic_exchange" in Hx.
  do 9 (apply bind_inv in Hrun as [(? & _ & ?) | ([] & ? & ? & Hrun)];
        [discriminate |];
        match goal with
        | E' : _ _ = (inr tt, _) |- _ =>
          first [ helper_done E' Hx ]; clear E'
        end).
  helper_done Hrun Hx.
  destruct (topic_close_quiet c3) as (e11 & Hc11 & Hp11).
  rewrite Hc4 in Hc11. set (final := calls c4) in Hc11.
  repeat match goal with
         | H' : calls ?x = _ |- _ =>
           lazymatch type of Hc11 with
           | context [calls x] => rewrite H' in Hc11
           end
         end.
  rewrite <- !app_assoc in Hc11. subst final.
  rewrite (issued_app Hc11), !routes_app.
  repeat match goal with
         | H' : routes [_] = _ |- _ => rewrite H'; clear H'
         end.
  rewrite Hp0, Hp11. reflexivity.
Qed.
End MainRuns.

(** ** Teardown *)

Section TeardownRuns.
Context {R : Runtime}.

(** Unfold a [close], split on the fields, on [is_closed] and on what
    each call does, and read the calls off the result. *)
Ltac run_close :=
  cbv [try_except Logger.info Logger.error Logger.emit bind log call
       get_self ret raise when connection_is_closed];
  simpl;
  repeat match goal with
         | |- context [pika ?o ?w] =>
           destruct (pika o w) as [[? | []] ?]; simpl
         | |- context [match ?x with Some _ => _ | None => _ end] =>
           destruct x; simpl
         | |- context [is_closed ?w] =>
           destruct (is_closed w); simpl
         | |- context [Logger.enabled ?l] =>
           destruct (Logger.enabled l); simpl
         end;
  first [ erewrite issued_2 by reflexivity
        | erewrite issued_1 by reflexivity
        | erewrite issued_0 by reflexivity ];
  simpl; repeat split; auto; try discriminate; repeat constructor.

(** X22.  [close] leaves the fields of the object as they were, so
    [connection] and [channel] stay set after it; the calls it issues
    are teardown calls only; and on an object that never connected it
    issues none.  This holds for the consumer and both publishers. *)
Theorem close_is_teardown_only :
  (forall c : cfg BasicConsumer.t,
      self (snd (BasicConsumer.close c)) = self c
      /\ Forall (fun e => is_teardown (ev_op e) = true)
                (issued c (snd (BasicConsumer.close c)))
      /\ (BasicConsumer.channel (self c) = None ->
          BasicConsumer.connection (self c) = None ->
          issued c (snd (BasicConsumer.close c)) = []))
  /\ (forall c : cfg BasicProducer.t,
        self (snd (BasicProducer.close c)) = self c
        /\ Forall (fun e => is_teardown (ev_op e) = true)
                  (issued c (snd (BasicProducer.close c)))
        /\ (BasicProducer.channel (self c) = None ->
            BasicProducer.connection (self c) = None ->
            issued c (snd (BasicProducer.close c)) = []))
  /\ (forall c : cfg TopicProducer.t,
        self (snd (TopicProducer.close c)) = self c
        /\ Forall (fun e => is_teardown (ev_op e) = true)
                  (issued c (snd (TopicProducer.close c)))
        /\ (TopicProducer.channel (self c) = None ->
            TopicProducer.connection (self c) = None ->
            issued c (snd (TopicProducer.close c)) = [])).
Proof.
  split; [| split]; intros c.
  - cbv [BasicConsumer.close]. run_close.
  - cbv [BasicProducer.close]. run_close.
  - cbv [TopicProducer.close]. run_close.
Qed.
End TeardownRuns.

(** [main] on a producer facing a reachable broker, with
    [LOG_LEVEL=WARNING]. *)
Lemma basic_main_publishes_all_witness :
  @Logger.enabled Reference.quiet INFO = false
  /\ exists stamp,
      @batch Reference.quiet "python_basic_queue" 0
             (BasicProducer.sample_messages stamp)
             (publishes
                (issued
                   (Reference.fresh BasicProducer.__init__
                                    (Reference.start true))
                   (snd (@BasicProducer.main Reference.quiet
                           (Reference.fresh BasicProducer.__init__
                                            (Reference.start true))))))
      /\ List.length
           (publishes
              (issued
                 (Reference.fresh BasicProducer.__init__
                                  (Reference.start true))
                 (snd (@BasicProducer.main Reference.quiet
                         (Reference.fresh BasicProducer.__init__
                                          (Reference.start true))))))
         = 5%nat
      /\ Forall (fun e => ev_raised e = None)
                (publishes
                   (issued
                      (Reference.fresh BasicProducer.__init__
                                       (Reference.start true))
                      (snd (@BasicProducer.main Reference.quiet
                              (Reference.fresh BasicProducer.__init__
                                               (Reference.start true)))))).
Proof.
  apply (@basic_main_publishes_all Reference.quiet
           (Reference.fresh BasicProducer.__init__ (Reference.start true))).
  vm_compute. reflexivity.
Defined.

(** With the defaults of [config.py] the same [main] ends with status 1
    and publishes nothing. *)
Example basic_main_fails_by_default :
  fst (@BasicProducer.main Reference.runtime
         (Reference.fresh BasicProducer.__init__ (Reference.start true)))
  = inr 1
  /\ publishes
       (calls (snd (@BasicProducer.main Reference.runtime
                      (Reference.fresh BasicProducer.__init__
                                       (Reference.start true)))))
     = [].
Proof. vm_compute. split; reflexivity. Qed.

(** [main] on a topic producer facing a reachable broker, with
    [LOG_LEVEL=WARNING]. *)
Lemma topic_main_publishes_all_witness :
  @Logger.enabled Reference.quiet INFO = false
  /\ routes
       (issued (Reference.fresh TopicProducer.__init__ (Reference.start true))
          (snd (@TopicProducer.main Reference.quiet
                  (Reference.fresh TopicProducer.__init__
                                   (Reference.start true)))))
     = map (fun r => ("python_topic_exchange", fst r, Some (snd r)))
           topic_sample_routes.
Proof.
  apply (@topic_main_publishes_all Reference.quiet
           (Reference.fresh TopicProducer.__init__ (Reference.start true))).
  vm_compute. reflexivity.
Defined.

(** With the defaults of [config.py] it ends with status 1 and publishes
    nothing. *)
Example topic_main_fails_by_default :
  fst (@TopicProducer.main Reference.runtime
         (Reference.fresh TopicProducer.__init__ (Reference.start true)))
  = inr 1
  /\ routes
       (calls (snd (@TopicProducer.main Reference.runtime
                      (Reference.fresh TopicProducer.__init__
                                       (Reference.start true)))))
     = [].
Proof. vm_compute. split; reflexivity. Qed.
